(** * Request gatekeeper of the user-management API

    A shallow embedding of the middleware chain of the service
    (rate limiting, bearer-token authentication, role authorization,
    multipart upload validation and persistence) and of the file
    handler that consumes the upload middleware's context values,
    followed by the properties established about them.

    Conventions.
    - Go strings are byte strings: [string] (a list of 8-bit [ascii]).
    - [int], [int64] are [Z]; none of the modelled arithmetic can
      overflow in the ranges the handlers see, and no property below
      depends on wrap-around.
    - [float64] token counts, rates and instants are exact rationals [Q];
      instants are seconds counted from Go's zero [time.Time].
    - Go maps are [gmap]s; [interface{}] values are the tagged union
      [middleware.Value].
    - A handler is a function from the state it reads to the state it
      leaves and an [gin.Outcome]; each handler invocation is taken as
      one atomic step (the locks of rate_limit.go make the registry
      accesses atomic; the interleaving of concurrent requests is not
      modelled). *)

From Stdlib Require Import ZArith QArith Lqa Lia Ascii.
From stdpp Require Import gmap strings list pretty.

Local Open Scope Z_scope.
Set Warnings "-register-all".

(** * Part I: the embedding *)

(** ** models/response.go *)

Module models.

(** The JSON values the handlers put in [Data]. *)
Inductive JSONValue :=
| JString (s : string)
| JNumber (n : Z)
| JTime (unixNano : Z)
| JNull
| JArray (l : list JSONValue)
| JObject (fields : list (string * JSONValue)).

(** [Data any] and [Error any] are [nil] when the literal leaves them
    out; the rejections of the middleware only ever store strings in
    [Error]. *)
Record APIResponse := mkAPIResponse {
  Success : bool;
  Message : string;
  Data : option JSONValue;
  Error : option string
}.

End models.

(** ** golang.org/x/time/rate *)

Module rate.

(** Modelled from the spec: the bucket type [rate.Limiter] that
    rate_limit.go imports from golang.org/x/time/rate is not among the
    sources.  Section 3 gives its state (available tokens, a real
    number; last-refill instant; capacity; refill rate) and section 4.4
    its algorithm: [allow] computes the time elapsed since the last
    refill, adds elapsed times rate tokens capped at capacity, and if at
    least one token is available deducts one and returns true, else
    returns false; a bucket is created with full capacity. *)
Record Limiter := mkLimiter {
  limit : Q;
  burst : Z;
  tokens : Q;
  last : Q
}.

(** Modelled from the spec: a new bucket holds its full capacity.  The
    constructor reads no clock; [last] starts at the zero instant. *)
Definition NewLimiter (r : Q) (b : Z) : Limiter :=
  mkLimiter r b (inject_Z b) 0%Q.

(** Modelled from the spec: the refill, tokens available at instant [t]:
    the stored tokens plus elapsed times rate, capped at capacity. *)
Definition TokensAt (lim : Limiter) (t : Q) : Q :=
  let tk := (tokens lim + (t - last lim) * limit lim)%Q in
  if Qle_bool tk (inject_Z (burst lim)) then tk else inject_Z (burst lim).

(** Modelled from the spec: refill, then take one token when at least
    one is available. *)
Definition Allow (lim : Limiter) (now : Q) : Limiter * bool :=
  let tk := TokensAt lim now in
  if Qle_bool 1 tk
  then (mkLimiter (limit lim) (burst lim) (tk - 1)%Q now, true)
  else (mkLimiter (limit lim) (burst lim) tk now, false).

End rate.

(** ** Fragments of the Go standard library used by the middleware *)

Module filepath.

(** [os.IsPathSeparator] on the Unix targets the service is built for. *)
Definition IsPathSeparator (c : ascii) : bool := Ascii.eqb c "/"%char.

(** The loop of [filepath.Ext]: [i] runs from [len(path)] downwards while
    [path[i-1]] is no separator; the suffix from the first dot met is
    the extension. *)
Fixpoint Ext_loop (path : string) (i : nat) : string :=
  match i with
  | O => ""
  | S j =>
      match String.get j path with
      | Some c =>
          if IsPathSeparator c then ""
          else if Ascii.eqb c "."%char
               then String.substring j (String.length path - j) path
               else Ext_loop path j
      | None => ""
      end
  end.

Definition Ext (path : string) : string := Ext_loop path (String.length path).

(** The bytes at which the loop of [Ext] stops, and the strings that
    hold none of them. *)
Definition stops (c : ascii) : bool := IsPathSeparator c || Ascii.eqb c "."%char.

Fixpoint plain (s : string) : bool :=
  match s with
  | EmptyString => true
  | String c r => negb (stops c) && plain r
  end.

End filepath.

Module strs.

(** [strings.HasPrefix] and [strings.TrimPrefix]. *)
Definition HasPrefix (s prefix : string) : bool := String.prefix prefix s.

Definition TrimPrefix (s prefix : string) : string :=
  if HasPrefix s prefix
  then String.substring (String.length prefix)
         (String.length s - String.length prefix) s
  else s.

(** [strings.Join]. *)
Fixpoint Join (elems : list string) (sep : string) : string :=
  match elems with
  | [] => ""
  | [x] => x
  | x :: rest => x +:+ sep +:+ Join rest sep
  end.

(** The ASCII path of [strings.ToLower]: bytes 'A'..'Z' are moved to
    'a'..'z', every other byte is kept.  (Go additionally maps
    non-ASCII letters; the middleware is stated over an arbitrary
    [ToLower], this one instantiates it on ASCII names.) *)
Definition lowerByte (c : ascii) : ascii :=
  let n := N_of_ascii c in
  if ((65 <=? n) && (n <=? 90))%N then ascii_of_N (n + 32) else c.

Fixpoint asciiToLower (s : string) : string :=
  match s with
  | EmptyString => EmptyString
  | String c r => String (lowerByte c) (asciiToLower r)
  end.

End strs.

Module fmt.

(** [%d] of an integer. *)
Definition d (n : Z) : string := pretty n.

(** [%v] of a [[]string]: the elements separated by spaces, in brackets. *)
Definition v (l : list string) : string := "[" +:+ strs.Join l " " +:+ "]".

End fmt.

Module primitive.

(** A [primitive.ObjectID] is twelve bytes; [Hex] writes each byte as two
    lower-case hexadecimal digits. *)
Definition ObjectID := string.

Definition hexdigit (n : N) : ascii :=
  match String.get (N.to_nat n) "0123456789abcdef" with
  | Some c => c
  | None => "0"%char
  end.

Fixpoint Hex (id : ObjectID) : string :=
  match id with
  | EmptyString => EmptyString
  | String c r =>
      String (hexdigit (N_of_ascii c / 16)) (String (hexdigit (N_of_ascii c mod 16)) (Hex r))
  end.

End primitive.

Module multipart.

(** [multipart.FileHeader]: the name the client gave, the MIME header of
    the part (where the client declares a Content-Type), the number of
    bytes of the part, and what [Open] yields: the bytes of the part, or
    [None] when the part cannot be opened. *)
Record FileHeader := mkFileHeader {
  Filename : string;
  Header : list (string * list string);
  Size : Z;
  content : option string
}.

Definition Open (fh : FileHeader) : option string := content fh.

(** [file.Read(buffer)] on a freshly opened part, for a zeroed buffer of
    [n] bytes: the first [n] bytes of the part are copied to the front
    of the buffer, the rest of the buffer keeps its zero bytes; reading
    an empty part is the error [io.EOF].  Returns the buffer and whether
    the read succeeded. *)
Fixpoint zeros (n : nat) : string :=
  match n with
  | O => EmptyString
  | S k => String Ascii.zero (zeros k)
  end.

Definition Read (file : string) (n : nat) : string * bool :=
  let k := Nat.min n (String.length file) in
  (String.substring 0 k file +:+ zeros (n - k), negb (Nat.eqb (String.length file) 0)).

(** [form.File]: field name to the parts uploaded under it. *)
Record Form := mkForm {
  File : gmap string (list FileHeader)
}.

End multipart.

Module http.

Definition StatusOK : Z := 200.
Definition StatusBadRequest : Z := 400.
Definition StatusUnauthorized : Z := 401.
Definition StatusForbidden : Z := 403.
Definition StatusTooManyRequests : Z := 429.
Definition StatusInternalServerError : Z := 500.

(** [http.Header] and the request as the middleware reads it:
    [parsed] is what [ParseMultipartForm] leaves in
    [Request.MultipartForm], [None] when parsing fails. *)
Record Request := mkRequest {
  Header : gmap string (list string);
  parsed : option multipart.Form
}.

(** [ParseMultipartForm]: whether the error it returns is [nil]. *)
Definition ParseMultipartForm (r : Request) : bool :=
  match parsed r with Some _ => true | None => false end.

(** [Header.Get]: the first value stored under the key, the empty string
    when there is none. *)
Definition Get (h : gmap string (list string)) (key : string) : string :=
  match h !! key with
  | Some (x :: _) => x
  | _ => ""
  end.

End http.

Module gin.

(** [gin.Context] over the universe [V] of dynamically typed values that
    handlers store with [Set]. *)
Record Context (V : Type) := mkContext {
  Request : http.Request;
  ClientIP : string;
  Keys : gmap string V
}.
Arguments mkContext {V} _ _ _.
Arguments Request {V} _.
Arguments ClientIP {V} _.
Arguments Keys {V} _.

Definition GetHeader {V} (c : Context V) (key : string) : string :=
  http.Get (http.Header (Request c)) key.

Definition Set_ {V} (c : Context V) (key : string) (value : V) : Context V :=
  mkContext (Request c) (ClientIP c) (<[key := value]> (Keys c)).

Definition Get {V} (c : Context V) (key : string) : option V := Keys c !! key.

(** [c.MultipartForm()]: parses again and returns the request's form,
    [None] standing for a non-nil error. *)
Definition MultipartForm {V} (c : Context V) : option multipart.Form :=
  http.parsed (Request c).

(** How a handler leaves the chain: it passes on with [c.Next()], it
    writes a JSON body with a status and the chain stops there, or it
    panics. *)
Inductive Outcome (V : Type) :=
| Next (c : Context V)
| JSON (code : Z) (obj : models.APIResponse)
| Panic.
Arguments Next {V} _.
Arguments JSON {V} _ _.
Arguments Panic {V}.

End gin.

(** ** What the handlers ask of their environment *)

Module env.

(** The file-system calls a request makes, in order, with their results. *)
Inductive Event :=
| EvMkdirAll (path : string) (ok : bool)
| EvSaveUploadedFile (file : multipart.FileHeader) (dst : string) (ok : bool).

(** The part of the world a request changes: the file-system calls made
    so far, and how many times the clock and the ObjectID generator were
    read. *)
Record World := mkWorld {
  events : list Event;
  reads : nat
}.

(** Library and system behaviour the middleware calls and the sources do
    not define: content sniffing, case mapping, path joining and
    normalisation, the wall clock ([time.Now], in Unix nanoseconds, by
    reading), the ObjectID generator, and whether a directory creation or
    a file save succeeds in a given world. *)
Class Platform := mkPlatform {
  DetectContentType : string -> string;
  ToLower : string -> string;
  Join : string -> string -> string;
  ToSlash : string -> string;
  Now : nat -> Z;
  NewObjectID : nat -> primitive.ObjectID;
  mkdirSucceeds : World -> string -> bool;
  saveSucceeds : World -> multipart.FileHeader -> string -> bool
}.

(** [time.Time.Unix]: whole seconds since the epoch. *)
Definition Unix (t : Z) : Z := t / 1000000000.

Section Calls.
Context `{Platform}.

Definition timeNow (w : World) : Z * World :=
  (Now (reads w), mkWorld (events w) (S (reads w))).

Definition newObjectID (w : World) : primitive.ObjectID * World :=
  (NewObjectID (reads w), mkWorld (events w) (S (reads w))).

Definition MkdirAll (w : World) (path : string) : bool * World :=
  let ok := mkdirSucceeds w path in
  (ok, mkWorld (events w ++ [EvMkdirAll path ok]) (reads w)).

Definition SaveUploadedFile (w : World) (file : multipart.FileHeader) (dst : string)
  : bool * World :=
  let ok := saveSucceeds w file dst in
  (ok, mkWorld (events w ++ [EvSaveUploadedFile file dst ok]) (reads w)).

End Calls.

(** The files a world has had written (saves that were attempted). *)
Definition saves (w : World) : list (multipart.FileHeader * string) :=
  omap (fun e => match e with
                 | EvSaveUploadedFile f p _ => Some (f, p)
                 | EvMkdirAll _ _ => None
                 end) (events w).

End env.

(** ** pkg/utils and internal/config, as the authentication middleware uses them *)

Module utils.

(** The claims a verified token yields; the middleware reads these three
    fields. *)
Record Claims := mkClaims {
  UserID : primitive.ObjectID;
  Email : string;
  Role : string
}.

(** pkg/utils is not among the sources: [ValidateToken token secret] is a
    parameter, returning the claims or an error of some type [E]. *)
Class TokenCodec (E : Type) := mkTokenCodec {
  ValidateToken : string -> string -> Claims + E
}.

End utils.

Module config.

Record JWTConfig := mkJWTConfig {
  Secret : string;
  ExpiresIn : Z
}.

Record Config := mkConfig {
  JWT : JWTConfig
}.

End config.

(** ** internal/middleware *)

Module middleware.

Import models.

(** *** Upload configuration *)

Record FileUploadConfig := mkFileUploadConfig {
  MaxFileSize : Z;
  AllowedTypes : list string;
  AllowedExts : list string;
  UploadPath : string;
  FieldName : string;
  Required : bool;
  MaxFiles : Z
}.

Definition DefaultFileUploadConfig : FileUploadConfig :=
  {| MaxFileSize := Z.shiftl 10 20;
     AllowedTypes := ["image/jpeg"; "image/png"; "image/gif"; "application/pdf"];
     AllowedExts := [".jpg"; ".jpeg"; ".png"; ".gif"; ".pdf"];
     UploadPath := "./uploads";
     FieldName := "file";
     Required := true;
     MaxFiles := 1 |}.

Definition ImageUploadConfig : FileUploadConfig :=
  {| MaxFileSize := Z.shiftl 5 20;
     AllowedTypes := ["image/jpeg"; "image/png"; "image/gif"; "image/webp"];
     AllowedExts := [".jpg"; ".jpeg"; ".png"; ".gif"; ".webp"];
     UploadPath := "./uploads/images";
     FieldName := "image";
     Required := true;
     MaxFiles := 1 |}.

Definition DocumentUploadConfig : FileUploadConfig :=
  {| MaxFileSize := Z.shiftl 20 20;
     AllowedTypes := ["application/pdf"; "application/msword";
       "application/vnd.openxmlformats-officedocument.wordprocessingml.document"];
     AllowedExts := [".pdf"; ".doc"; ".docx"];
     UploadPath := "./uploads/documents";
     FieldName := "document";
     Required := true;
     MaxFiles := 1 |}.

(** *** The values stored in the request context

    The dynamic types that the handlers of the service [Set] and
    assert: [string], [[]string], [[]*multipart.FileHeader],
    [middleware.FileUploadConfig] and [primitive.ObjectID]. *)
Inductive Value :=
| VString (s : string)
| VStrings (l : list string)
| VFileHeaders (l : list multipart.FileHeader)
| VFileUploadConfig (c : FileUploadConfig)
| VObjectID (id : primitive.ObjectID).

Definition Context : Type := gin.Context Value.
Definition Outcome : Type := gin.Outcome Value.

(** *** rate_limit.go *)

Record RateLimiter := mkRateLimiter {
  limiters : gmap string rate.Limiter;
  rate : Q;
  burst : Z
}.

Definition NewRateLimiter (rps : Q) (burst : Z) : RateLimiter :=
  mkRateLimiter ∅ rps burst.

(** [GetLimiter]: under the registry lock, look the key up and create
    its limiter when there is none.  The Go function returns a pointer
    into the map; here the limiter is returned with the registry that
    holds it. *)
Definition GetLimiter (rl : RateLimiter) (key : string) : rate.Limiter * RateLimiter :=
  match limiters rl !! key with
  | Some limiter => (limiter, rl)
  | None =>
      let limiter := rate.NewLimiter (rate rl) (burst rl) in
      (limiter, mkRateLimiter (<[key := limiter]> (limiters rl)) (rate rl) (burst rl))
  end.

(** One tick of the goroutine that [CleanupLimiters] starts (every five
    minutes): under the registry lock, the loop visits every key, reads
    the clock ([now key] is the instant read when [key] is visited) and
    deletes the limiter when its tokens at that instant equal
    [float64(rl.burst)]. *)
Definition CleanupLimiters (rl : RateLimiter) (now : string -> Q) : RateLimiter :=
  mkRateLimiter
    (filter (fun kv => Qeq_bool (rate.TokensAt kv.2 (now kv.1)) (inject_Z (burst rl)) = false)
            (limiters rl))
    (rate rl) (burst rl).

(** [RateLimitMiddleware rps burst] builds the registry its closure
    captures; [RateLimitHandler] is that closure, run at instant [now].
    [Allow] mutates the limiter the map points to, which the model
    writes back under the key. *)
Definition RateLimitMiddleware (rps : Q) (burst : Z) : RateLimiter :=
  NewRateLimiter rps burst.

Definition RateLimitHandler (limiter : RateLimiter) (now : Q) (c : Context)
  : RateLimiter * Outcome :=
  let key := gin.ClientIP c in
  let '(clientLimiter, limiter1) := GetLimiter limiter key in
  let '(clientLimiter', allowed) := rate.Allow clientLimiter now in
  let limiter2 :=
    mkRateLimiter (<[key := clientLimiter']> (limiters limiter1))
                  (rate limiter1) (burst limiter1) in
  if negb allowed
  then (limiter2,
        gin.JSON http.StatusTooManyRequests
          {| Success := false;
             Message := "Rate limit exceeded. Please try again later.";
             Data := None;
             Error := Some "RATE_LIMIT_EXCEEDED" |})
  else (limiter2, gin.Next c).

Definition StrictRateLimit : RateLimiter := RateLimitMiddleware 1 2.
Definition ModerateRateLimit : RateLimiter := RateLimitMiddleware 10 20.
Definition LenientRateLimit : RateLimiter := RateLimitMiddleware 100 200.

(** *** auth.go *)

Section Auth.
Context {E : Type} `{utils.TokenCodec E}.

Definition AuthMidddleware (cfg : config.Config) (c : Context) : Outcome :=
  let authHeader := gin.GetHeader c "Authorization" in
  if String.eqb authHeader ""
  then gin.JSON http.StatusUnauthorized
         {| Success := false; Message := "Authorization header is required";
            Data := None; Error := None |}
  else if negb (strs.HasPrefix authHeader "Bearer ")
  then gin.JSON http.StatusUnauthorized
         {| Success := false; Message := "Invalid authorization heade";
            Data := None; Error := None |}
  else
    let token := strs.TrimPrefix authHeader "Bearer " in
    match utils.ValidateToken token (config.Secret (config.JWT cfg)) with
    | inr _ =>
        gin.JSON http.StatusUnauthorized
          {| Success := false; Message := "Invalid or expired token";
             Data := None; Error := None |}
    | inl claims =>
        let c1 := gin.Set_ c "user_id" (VObjectID (utils.UserID claims)) in
        let c2 := gin.Set_ c1 "user_email" (VString (utils.Email claims)) in
        let c3 := gin.Set_ c2 "user_role" (VString (utils.Role claims)) in
        gin.Next c3
    end.

End Auth.

(** The loop of [RequireRole] over the allowed roles. *)
Fixpoint roleAmong (role : string) (roles : list string) : bool :=
  match roles with
  | [] => false
  | requriedRoles :: rest =>
      if String.eqb role requriedRoles then true else roleAmong role rest
  end.

Definition RequireRole (roles : list string) (ctx : Context) : Outcome :=
  match gin.Get ctx "user_role" with
  | None =>
      gin.JSON http.StatusForbidden
        {| Success := false; Message := "Unauthorized access";
           Data := None; Error := None |}
  | Some (VString role) =>
      if roleAmong role roles then gin.Next ctx
      else gin.JSON http.StatusForbidden
             {| Success := false; Message := "Insufficient permissions";
                Data := None; Error := None |}
  | Some _ => gin.Panic
  end.

(** *** file_upload.go *)

Section Upload.
Context `{env.Platform}.

Definition generateUniqueFilename (w : env.World) (originalFilename : string)
  : string * env.World :=
  let ext := filepath.Ext originalFilename in
  let name :=
    String.substring 0 (String.length originalFilename - String.length ext)
      originalFilename in
  let '(now, w1) := env.timeNow w in
  let timestamp := env.Unix now in
  let '(oid, w2) := env.newObjectID w1 in
  let id := primitive.Hex oid in
  (name +:+ "_" +:+ fmt.d timestamp +:+ "_" +:+ id +:+ ext, w2).

(** [contains] is [slices.Contains]. *)
Fixpoint contains (slice : list string) (item : string) : bool :=
  match slice with
  | [] => false
  | s :: rest => if String.eqb s item then true else contains rest item
  end.

(** [validateFile] returns the message of its error, [None] for [nil]. *)
Definition validateFile (fileHeader : multipart.FileHeader) (config : FileUploadConfig)
  : option string :=
  if multipart.Size fileHeader >? MaxFileSize config
  then Some ("file size exceeds maximum allowed size of "
             +:+ fmt.d (MaxFileSize config) +:+ " bytes")
  else
    let ext := env.ToLower (filepath.Ext (multipart.Filename fileHeader)) in
    if negb (contains (AllowedExts config) ext)
    then Some ("file extension '" +:+ ext +:+ "' not allowed. Allowed extensions: "
               +:+ fmt.v (AllowedExts config))
    else
      match multipart.Open fileHeader with
      | None => Some "failed to open file for validation"
      | Some file =>
          let '(buffer, readOK) := multipart.Read file 512 in
          if negb readOK
          then Some "failed to read file for validation"
          else
            let contentType := env.DetectContentType buffer in
            if negb (contains (AllowedTypes config) contentType)
            then Some ("file type '" +:+ contentType +:+ "' not allowed. Allowed types: "
                       +:+ fmt.v (AllowedTypes config))
            else None
      end.

(** The first loop of the middleware: the error of the first file that
    fails validation. *)
Fixpoint validateFiles (files : list multipart.FileHeader) (config : FileUploadConfig)
  : option string :=
  match files with
  | [] => None
  | fileHeader :: rest =>
      match validateFile fileHeader config with
      | Some err => Some err
      | None => validateFiles rest config
      end
  end.

(** The second loop: per file, create the directory, name the file, save
    it, and append its normalised path; a failure answers and stops. *)
Fixpoint saveFiles (files : list multipart.FileHeader) (config : FileUploadConfig)
  (w : env.World) (savedPaths : list string)
  : (Z * APIResponse + list string) * env.World :=
  match files with
  | [] => (inr savedPaths, w)
  | fileHeader :: rest =>
      let '(dirOK, w1) := env.MkdirAll w (UploadPath config) in
      if negb dirOK
      then (inl (http.StatusInternalServerError,
                 {| Success := false; Message := "Failed to create upload directory";
                    Data := None; Error := Some "DIRECTORY_CREATION_FAILED" |}), w1)
      else
        let '(filename, w2) := generateUniqueFilename w1 (multipart.Filename fileHeader) in
        let path := env.Join (UploadPath config) filename in
        let '(saveOK, w3) := env.SaveUploadedFile w2 fileHeader path in
        if negb saveOK
        then (inl (http.StatusInternalServerError,
                   {| Success := false; Message := "Failed to save file";
                      Data := None; Error := Some "FILE_SAVE_FAILED" |}), w3)
        else saveFiles rest config w3 (savedPaths ++ [env.ToSlash path])
  end.

Definition FileUploadMiddleware (config : FileUploadConfig) (w : env.World) (c : Context)
  : Outcome * env.World :=
  if negb (http.ParseMultipartForm (gin.Request c))
  then (gin.JSON http.StatusBadRequest
          {| Success := false; Message := "Failed to parse multipart form";
             Data := None; Error := Some "INVALID_FORM_DATA" |}, w)
  else
    match gin.MultipartForm c with
    | None =>
        (gin.JSON http.StatusBadRequest
           {| Success := false; Message := "Failed to get multipart form";
              Data := None; Error := Some "INVALID_FORM_DATA" |}, w)
    | Some form =>
        let files := default [] (multipart.File form !! FieldName config) in
        if Required config && (Z.of_nat (length files) =? 0)
        then (gin.JSON http.StatusBadRequest
                {| Success := false;
                   Message := "File field '" +:+ FieldName config +:+ "' is required";
                   Data := None; Error := Some "FILE_REQUIRED" |}, w)
        else if Z.of_nat (length files) >? MaxFiles config
        then (gin.JSON http.StatusBadRequest
                {| Success := false;
                   Message := "Maximum " +:+ fmt.d (MaxFiles config) +:+ " files allowed";
                   Data := None; Error := Some "TOO_MANY_FILES" |}, w)
        else
          match validateFiles files config with
          | Some err =>
              (gin.JSON http.StatusBadRequest
                 {| Success := false; Message := err;
                    Data := None; Error := Some "FILE_VALIDATION_FAILED" |}, w)
          | None =>
              match saveFiles files config w [] with
              | (inl (code, obj), w') => (gin.JSON code obj, w')
              | (inr savedPaths, w') =>
                  let c1 := gin.Set_ c "uploadedFiles" (VStrings savedPaths) in
                  let c2 := gin.Set_ c1 "uploadConfig" (VFileUploadConfig config) in
                  (gin.Next c2, w')
              end
          end
    end.

Definition SingleImageUpload := FileUploadMiddleware ImageUploadConfig.

Definition SingleDocumentUpload := FileUploadMiddleware DocumentUploadConfig.

Definition MultipleImageUpload (maxFiles : Z) :=
  FileUploadMiddleware
    {| MaxFileSize := MaxFileSize ImageUploadConfig;
       AllowedTypes := AllowedTypes ImageUploadConfig;
       AllowedExts := AllowedExts ImageUploadConfig;
       UploadPath := UploadPath ImageUploadConfig;
       FieldName := "images";
       Required := Required ImageUploadConfig;
       MaxFiles := maxFiles |}.

End Upload.

End middleware.

(** ** internal/handlers: the file handler *)

Module handlers.

Import models.

Section FileHandler.
Context `{env.Platform}.

Definition generateUniqueFilename (w : env.World) (originalFilename : string)
  : string * env.World :=
  let ext := filepath.Ext originalFilename in
  let name :=
    String.substring 0 (String.length originalFilename - String.length ext)
      originalFilename in
  let '(now, w1) := env.timeNow w in
  let timestamp := env.Unix now in
  let '(oid, w2) := env.newObjectID w1 in
  let id := primitive.Hex oid in
  (name +:+ "_" +:+ fmt.d timestamp +:+ "_" +:+ id +:+ ext, w2).

(** The loop of [UploadFile] over the asserted file headers. *)
Fixpoint processFiles (files : list multipart.FileHeader)
  (uploadConfig : middleware.FileUploadConfig) (w : env.World)
  (uploadedFileInfos : list JSONValue)
  : (Z * APIResponse + list JSONValue) * env.World :=
  match files with
  | [] => (inr uploadedFileInfos, w)
  | fileHeader :: rest =>
      let '(filename, w1) := generateUniqueFilename w (multipart.Filename fileHeader) in
      let filepath := env.Join (middleware.UploadPath uploadConfig) filename in
      let '(saveOK, w2) := env.SaveUploadedFile w1 fileHeader filepath in
      if negb saveOK
      then (inl (http.StatusInternalServerError,
                 {| Success := false; Message := "Failed to save file";
                    Data := None; Error := Some "FILE_SAVE_FAILED" |}), w2)
      else
        let '(now, w3) := env.timeNow w2 in
        let fileInfo :=
          JObject [("original_name", JString (multipart.Filename fileHeader));
                   ("filename", JString filename);
                   ("size", JNumber (multipart.Size fileHeader));
                   ("path", JString filepath);
                   ("uploaded_at", JTime now)] in
        processFiles rest uploadConfig w3 (uploadedFileInfos ++ [fileInfo])
  end.

(** [UploadFile].  The two type assertions are of the one-result form:
    they panic when the stored value has another dynamic type (or, for
    the configuration, when the key is missing). *)
Definition UploadFile (w : env.World) (c : middleware.Context)
  : middleware.Outcome * env.World :=
  match gin.Get c "uploadedFiles" with
  | None =>
      (gin.JSON http.StatusBadRequest
         {| Success := false; Message := "No files found";
            Data := None; Error := Some "NO_FILES" |}, w)
  | Some (middleware.VFileHeaders files) =>
      match gin.Get c "uploadConfig" with
      | Some (middleware.VFileUploadConfig uploadConfig) =>
          let '(dirOK, w1) := env.MkdirAll w (middleware.UploadPath uploadConfig) in
          if negb dirOK
          then (gin.JSON http.StatusInternalServerError
                  {| Success := false; Message := "Failed to create upload directory";
                     Data := None; Error := Some "DIRECTORY_CREATION_FAILED" |}, w1)
          else
            match processFiles files uploadConfig w1 [] with
            | (inl (code, obj), w') => (gin.JSON code obj, w')
            | (inr uploadedFileInfos, w') =>
                (gin.JSON http.StatusOK
                   {| Success := true; Message := "File(s) uploaded successfully";
                      Data := Some (JObject
                        [("files", match uploadedFileInfos with
                                   | [] => JNull
                                   | _ => JArray uploadedFileInfos
                                   end);
                         ("count", JNumber (Z.of_nat (length uploadedFileInfos)))]);
                      Error := None |}, w')
            end
      | _ => (gin.Panic, w)
      end
  | Some _ => (gin.Panic, w)
  end.

Definition UploadImage := UploadFile.

Definition UploadDocument := UploadFile.

End FileHandler.

End handlers.

(** ** Runs of the rate limiter *)

Module runs.

Import middleware.

(** Whether a handler passed the request on ([allow] returned true). *)
Definition passed (o : Outcome) : bool :=
  match o with
  | gin.Next _ => true
  | _ => false
  end.

(** The requests of one client arriving at the given instants, in order. *)
Fixpoint serve (limiter : RateLimiter) (c : Context) (instants : list Q)
  : RateLimiter * list bool :=
  match instants with
  | [] => (limiter, [])
  | now :: rest =>
      let '(limiter1, o) := RateLimitHandler limiter now c in
      let '(limiter2, os) := serve limiter1 c rest in
      (limiter2, passed o :: os)
  end.

(** [k] calls of [Allow] on one bucket at the same instant. *)
Fixpoint allowN (lim : rate.Limiter) (now : Q) (k : nat) : rate.Limiter * list bool :=
  match k with
  | O => (lim, [])
  | S k' =>
      let '(lim1, ok) := rate.Allow lim now in
      let '(lim2, oks) := allowN lim1 now k' in
      (lim2, ok :: oks)
  end.

(** The operations that change a registry: a request of some client at
    some instant, a lookup, and a sweep. *)
Inductive step (rl : RateLimiter) : RateLimiter -> Prop :=
| step_request (now : Q) (c : Context) :
    step rl (RateLimitHandler rl now c).1
| step_lookup (key : string) :
    step rl (GetLimiter rl key).2
| step_sweep (now : string -> Q) :
    step rl (CleanupLimiters rl now).

(** The registries a middleware built with [rps] and [burst] can hold. *)
Definition reachable (rps : Q) (b : Z) (rl : RateLimiter) : Prop :=
  rtc step (RateLimitMiddleware rps b) rl.

(** Every bucket of the registry has the registry's rate and burst and
    holds no more tokens than its capacity. *)
Definition registry_ok (rl : RateLimiter) : Prop :=
  forall key lim, limiters rl !! key = Some lim ->
    rate.limit lim = rate rl /\ rate.burst lim = burst rl /\
    (rate.tokens lim <= inject_Z (rate.burst lim))%Q.

End runs.

(** ** Names for the verdicts of the upload checks *)

Module verdicts.

Import middleware.

Section Verdicts.
Context `{env.Platform}.

(** The error of the size check. *)
Definition sizeError (config : FileUploadConfig) : string :=
  "file size exceeds maximum allowed size of " +:+ fmt.d (MaxFileSize config) +:+ " bytes".

(** The error of the content-type check for a sniffed type. *)
Definition typeError (config : FileUploadConfig) (contentType : string) : string :=
  "file type '" +:+ contentType +:+ "' not allowed. Allowed types: "
  +:+ fmt.v (AllowedTypes config).

(** The type sniffed from the bytes of a part: [DetectContentType] of the
    512-byte buffer that [validateFile] fills from the file. *)
Definition sniffed (file : string) : string :=
  env.DetectContentType (multipart.Read file 512).1.

End Verdicts.

(** A rejection: the chain stops with a status and a body whose
    [success] is false, with a message and possibly an error tag. *)
Definition rejection (code : Z) (message : string) (tag : option string) : Outcome :=
  gin.JSON code
    {| models.Success := false; models.Message := message;
       models.Data := None; models.Error := tag |}.

End verdicts.

(** ** Sample requests and environments *)

Module sample.

Import middleware.

(** A request without headers or body, and a client sending it. *)
Definition request : http.Request := http.mkRequest ∅ None.

Definition client (ip : string) : Context := gin.mkContext request ip ∅.

(** A few rows of the signature table of [http.DetectContentType] (JPEG,
    PNG, GIF, PDF); content matching none of them is classified
    [application/octet-stream], as the library does for binary data it
    does not recognise. *)
Definition jpegSig : string := String "255" (String "216" (String "255" "")).

Definition pngSig : string :=
  String "137" ("PNG" +:+ String "013" (String "010" (String "026" (String "010" "")))).

Definition sniff (data : string) : string :=
  if String.prefix jpegSig data then "image/jpeg"
  else if String.prefix pngSig data then "image/png"
  else if String.prefix "GIF87a" data || String.prefix "GIF89a" data then "image/gif"
  else if String.prefix "%PDF-" data then "application/pdf"
  else "application/octet-stream".

(** A platform on which every directory creation and save succeeds,
    paths are joined with a slash and already use slashes, the clock
    advances by one nanosecond per reading, and ObjectIDs count up. *)
Definition platform : env.Platform :=
  {| env.DetectContentType := sniff;
     env.ToLower := strs.asciiToLower;
     env.Join := fun dir name => dir +:+ "/" +:+ name;
     env.ToSlash := fun path => path;
     env.Now := fun n => 1700000000000000000 + Z.of_nat n;
     env.NewObjectID := fun n => "ObjectID-0" +:+ String (ascii_of_nat n) (String "010" "");
     env.mkdirSucceeds := fun _ _ => true;
     env.saveSucceeds := fun _ _ _ => true |}.

Definition world0 : env.World := env.mkWorld [] 0.

(** A JPEG picture, and an ELF executable that the client names
    [setup.jpg] and declares as a JPEG picture. *)
Definition picture : multipart.FileHeader :=
  {| multipart.Filename := "cat.JPG";
     multipart.Header := [("Content-Type", ["image/jpeg"])];
     multipart.Size := 8;
     multipart.content := Some (jpegSig +:+ "12345") |}.

Definition elf : string :=
  String "127" ("ELF" +:+ String "002" (String "001" (String "001" (String "000" "")))).

Definition executable : multipart.FileHeader :=
  {| multipart.Filename := "setup.jpg";
     multipart.Header := [("Content-Type", ["image/jpeg"])];
     multipart.Size := 8;
     multipart.content := Some elf |}.

(** A picture one byte longer, and an image configuration whose size
    limit is the size of [picture]. *)
Definition bigger : multipart.FileHeader :=
  {| multipart.Filename := "cat.JPG";
     multipart.Header := [("Content-Type", ["image/jpeg"])];
     multipart.Size := 9;
     multipart.content := Some (jpegSig +:+ "123456") |}.

Definition tiny : FileUploadConfig :=
  {| MaxFileSize := 8;
     AllowedTypes := AllowedTypes ImageUploadConfig;
     AllowedExts := AllowedExts ImageUploadConfig;
     UploadPath := UploadPath ImageUploadConfig;
     FieldName := "images";
     Required := true;
     MaxFiles := 5 |}.

(** An upload of the given files under the given field. *)
Definition upload (field : string) (files : list multipart.FileHeader) : Context :=
  gin.mkContext
    (http.mkRequest ∅ (Some (multipart.mkForm {[ field := files ]})))
    "10.0.0.7" ∅.

(** The failure kinds of token verification, and a codec that knows one
    valid token and one token of each failure kind. *)
Inductive TokenError := Malformed | BadSignature | Expired.

Definition admin : utils.Claims :=
  {| utils.UserID := "admin-000001"; utils.Email := "root@example.org";
     utils.Role := "admin" |}.

Definition codec : utils.TokenCodec TokenError :=
  {| utils.ValidateToken := fun token secret =>
       if String.eqb token "valid" then inl admin
       else if String.eqb token "expired" then inr Expired
       else if String.eqb token "forged" then inr BadSignature
       else inr Malformed |}.

Definition cfg : config.Config :=
  config.mkConfig (config.mkJWTConfig "default_secret_key" 14400).

(** A request carrying the given Authorization header. *)
Definition authorized (header : string) : Context :=
  gin.mkContext (http.mkRequest {[ "Authorization" := [header] ]} None) "10.0.0.7" ∅.

End sample.

(** ** Request sequences of one client *)

Module traces.

Import middleware runs.

(** The bucket a request of [key] works on: the one in the registry, or
    the one [GetLimiter] would create. *)
Definition bucketOf (rl : RateLimiter) (key : string) : rate.Limiter :=
  (GetLimiter rl key).1.

(** Calls of [Allow] on one bucket at the given instants, in order. *)
Fixpoint allowSeq (lim : rate.Limiter) (instants : list Q) : rate.Limiter * list bool :=
  match instants with
  | [] => (lim, [])
  | now :: rest =>
      let '(lim1, ok) := rate.Allow lim now in
      let '(lim2, oks) := allowSeq lim1 rest in
      (lim2, ok :: oks)
  end.


(** Instants that do not go back in time, starting no earlier than [t]. *)
Fixpoint ascending (t : Q) (instants : list Q) : Prop :=
  match instants with
  | [] => True
  | t' :: rest => (t <= t')%Q /\ ascending t' rest
  end.

(** The last instant of a sequence that starts at [t]. *)
Fixpoint lastOf (t : Q) (instants : list Q) : Q :=
  match instants with
  | [] => t
  | t' :: rest => lastOf t' rest
  end.


End traces.

(** ** auth.go: reading the identity back, and chains of handlers *)

Module authctx.

Import middleware.

(** What a Go function returning [(T, error)] does: it returns a value
    with a [nil] error, it returns an error, or it panics. *)
Inductive Result (A : Type) :=
| Ok (a : A)
| Err (msg : string)
| Panics.
Arguments Ok {A} _.
Arguments Err {A} _.
Arguments Panics {A}.

(** [GetUserId]: the value under [user_id], asserted to be an ObjectID
    with the one-result form of the type assertion. *)
Definition GetUserId (ctx : Context) : Result primitive.ObjectID :=
  match gin.Get ctx "user_id" with
  | None => Err "user ID not found in context"
  | Some (VObjectID userId) => Ok userId
  | Some _ => Panics
  end.

(** A chain of two handlers as gin runs it: the second handler runs on
    the context the first one passed on with [Next]; an answer or a
    panic of the first ends the chain. *)
Definition andThen (first : Outcome) (second : Context -> Outcome) : Outcome :=
  match first with
  | gin.Next c => second c
  | other => other
  end.

Section Routes.
Context {E : Type} `{utils.TokenCodec E}.

(** The middleware in front of the admin-only routes of user_routes.go:
    [AuthMidddleware(cfg), RequireRole("admin")]; [protected] is the same
    chain for any list of roles. *)
Definition protected (cfg : config.Config) (roles : list string) (c : Context) : Outcome :=
  andThen (AuthMidddleware cfg c) (RequireRole roles).

Definition adminOnly (cfg : config.Config) (c : Context) : Outcome :=
  protected cfg ["admin"] c.

End Routes.

End authctx.

(** ** Further sample values *)

Module fixtures.

Import middleware.

(** The context that the authentication middleware passes on for the
    valid sample token. *)
Definition adminCtx : Context :=
  gin.Set_ (gin.Set_ (gin.Set_ (sample.authorized "Bearer valid")
                        "user_id" (VObjectID "admin-000001"))
              "user_email" (VString "root@example.org"))
    "user_role" (VString "admin").

End fixtures.

(** ** Descriptions of what an upload leaves behind *)

Module uploads.

Import middleware.

(** The files a world holds: the saves that succeeded, in order. *)
Definition stored (w : env.World) : list (multipart.FileHeader * string) :=
  omap (fun e => match e with
                 | env.EvSaveUploadedFile f p true => Some (f, p)
                 | _ => None
                 end) (env.events w).

(** Strings without a given byte. *)
Fixpoint lacks (ch : ascii) (s : string) : bool :=
  match s with
  | EmptyString => true
  | String c r => negb (Ascii.eqb c ch) && lacks ch r
  end.

Section Persist.
Context `{env.Platform}.

(** The file-system calls that store one file under a generated name:
    the upload directory is created, then the file is saved in it. *)
Definition persist (config : FileUploadConfig) (file : multipart.FileHeader)
  (filename : string) : list env.Event :=
  [env.EvMkdirAll (UploadPath config) true;
   env.EvSaveUploadedFile file (env.Join (UploadPath config) filename) true].

(** The path stored in the context for a generated name. *)
Definition savedPath (config : FileUploadConfig) (filename : string) : string :=
  env.ToSlash (env.Join (UploadPath config) filename).

End Persist.

End uploads.

(** ** Flaky storage, and reading hexadecimal digits back *)

Module fixtures2.

Import middleware.

(** A platform like [sample.platform] on which only the first save of a
    request succeeds: a save fails once three file-system calls have
    been made. *)
Definition flaky : env.Platform :=
  {| env.DetectContentType := sample.sniff;
     env.ToLower := strs.asciiToLower;
     env.Join := fun dir name => dir +:+ "/" +:+ name;
     env.ToSlash := fun path => path;
     env.Now := fun n => 1700000000000000000 + Z.of_nat n;
     env.NewObjectID := fun n => "ObjectID-0" +:+ String (ascii_of_nat n) (String "010" "");
     env.mkdirSucceeds := fun _ _ => true;
     env.saveSucceeds := fun w _ _ => (length (env.events w) <? 3)%nat |}.

(** The value of a hexadecimal digit, and the byte two digits stand for. *)
Definition hexvalue (c : ascii) : N :=
  match c with
  | "0" => 0 | "1" => 1 | "2" => 2 | "3" => 3 | "4" => 4 | "5" => 5 | "6" => 6
  | "7" => 7 | "8" => 8 | "9" => 9 | "a" => 10 | "b" => 11 | "c" => 12
  | "d" => 13 | "e" => 14 | "f" => 15 | _ => 0
  end%char%N.

Definition unhex (hi lo : ascii) : ascii := ascii_of_N (16 * hexvalue hi + hexvalue lo).

End fixtures2.

(** ** pkg/errors *)

Module apperrors.

Record AppError := mkAppError {
  Code : Z;
  Message : string;
  Type_ : string
}.

(** [AppError.Error]: the code in brackets, a space, the message. *)
Definition Error_ (e : AppError) : string :=
  "[" +:+ fmt.d (Code e) +:+ "] " +:+ Message e.

Definition NewAppError (code : Z) (message errorType : string) : AppError :=
  mkAppError code message errorType.

Definition ErrInvalidCredentials : AppError :=
  NewAppError http.StatusUnauthorized "Invalid credentials" "INVALID_CREDENTIALS".
Definition ErrUnAuthorized : AppError :=
  NewAppError http.StatusUnauthorized "Unauthorized access" "UNAUTHORIZED".
Definition ErrUserNotFound : AppError :=
  NewAppError 404 "User not found" "USER_NOT_FOUND".
Definition ErrUserExists : AppError :=
  NewAppError 409 "User already exists" "USER_EXISTS".
Definition ErrInvalidInput : AppError :=
  NewAppError http.StatusBadRequest "Invalid input" "INVALID_INPUT".
Definition ErrInternalServer : AppError :=
  NewAppError http.StatusInternalServerError "Internal server error" "INTERNAL".

(** The [error] values the services and handlers tell apart: the
    sentinel [mongo.ErrNoDocuments] (compared with [==]), an [*AppError]
    (found by type assertion), and every other error. *)
Inductive error :=
| ErrNoDocuments
| App (e : AppError)
| Other (msg : string).

End apperrors.

(** ** models/user.go and the response envelopes of models/response.go *)

Module User.

Record t := mk {
  ID : primitive.ObjectID;
  Username : string;
  Email : string;
  Password : string;
  FirstName : string;
  LastName : string;
  Role : string;
  Avatar : string;
  IsActive : bool;
  CreatedAt : Z;
  UpdatedAt : Z
}.

(** The assignments [user.Field = v] that the services make. *)
Definition setUsername (user : t) (v : string) : t :=
  mk (ID user) v (Email user) (Password user) (FirstName user) (LastName user)
     (Role user) (Avatar user) (IsActive user) (CreatedAt user) (UpdatedAt user).
Definition setEmail (user : t) (v : string) : t :=
  mk (ID user) (Username user) v (Password user) (FirstName user) (LastName user)
     (Role user) (Avatar user) (IsActive user) (CreatedAt user) (UpdatedAt user).
Definition setFirstName (user : t) (v : string) : t :=
  mk (ID user) (Username user) (Email user) (Password user) v (LastName user)
     (Role user) (Avatar user) (IsActive user) (CreatedAt user) (UpdatedAt user).
Definition setLastName (user : t) (v : string) : t :=
  mk (ID user) (Username user) (Email user) (Password user) (FirstName user) v
     (Role user) (Avatar user) (IsActive user) (CreatedAt user) (UpdatedAt user).
Definition setRole (user : t) (v : string) : t :=
  mk (ID user) (Username user) (Email user) (Password user) (FirstName user)
     (LastName user) v (Avatar user) (IsActive user) (CreatedAt user) (UpdatedAt user).
Definition setAvatar (user : t) (v : string) : t :=
  mk (ID user) (Username user) (Email user) (Password user) (FirstName user)
     (LastName user) (Role user) v (IsActive user) (CreatedAt user) (UpdatedAt user).
Definition setIsActive (user : t) (v : bool) : t :=
  mk (ID user) (Username user) (Email user) (Password user) (FirstName user)
     (LastName user) (Role user) (Avatar user) v (CreatedAt user) (UpdatedAt user).

End User.

Module CreateUserRequest.

Record t := mk {
  Username : string;
  Email : string;
  Password : string;
  FirstName : string;
  LastName : string;
  Role : string;
  Avatar : option multipart.FileHeader
}.

End CreateUserRequest.

Module UpdateUserRequest.

(** [IsActive *bool] is [None] for [nil]. *)
Record t := mk {
  Username : string;
  Email : string;
  FirstName : string;
  LastName : string;
  Role : string;
  Avatar : string;
  IsActive : option bool
}.

End UpdateUserRequest.

Module LoginRequest.

Record t := mk {
  Email : string;
  Password : string
}.

End LoginRequest.

Module UserResponse.

Record t := mk {
  ID : primitive.ObjectID;
  Username : string;
  Email : string;
  FirstName : string;
  LastName : string;
  Role : string;
  Avatar : string;
  IsActive : bool;
  CreatedAt : Z;
  UpdatedAt : Z
}.

End UserResponse.

Module usermodels.

(** [User.ToResponse]. *)
Definition ToResponse (u : User.t) : UserResponse.t :=
  {| UserResponse.ID := User.ID u;
     UserResponse.Username := User.Username u;
     UserResponse.Email := User.Email u;
     UserResponse.FirstName := User.FirstName u;
     UserResponse.LastName := User.LastName u;
     UserResponse.Role := User.Role u;
     UserResponse.Avatar := User.Avatar u;
     UserResponse.IsActive := User.IsActive u;
     UserResponse.CreatedAt := User.CreatedAt u;
     UserResponse.UpdatedAt := User.UpdatedAt u |}.

Record AuthResponse := mkAuthResponse {
  Token : string;
  User_ : UserResponse.t
}.

Record Pagination := mkPagination {
  Page : Z;
  Limit : Z;
  Total : Z;
  TotalPages : Z
}.

(** [PaginatedResponse], with the user responses that [List] puts in
    [Data]. *)
Record PaginatedResponse := mkPaginatedResponse {
  Success : bool;
  Message : string;
  Data : list UserResponse.t;
  Pagination_ : Pagination
}.

End usermodels.

(** ** internal/repository/interfaces and the helpers of pkg/utils *)

Module interfaces.

Import apperrors.

(** [UserRepository] over a store of type [DB].  Every method takes the
    store and returns it as the call leaves it.  A method returning
    a user and an error returns a user or an error; [Create] and [Update]
    receive a pointer to the user and return the user as the call
    leaves it (the store fills in the id and the time stamps) or an
    error. *)
Class UserRepository (DB : Type) := mkUserRepository {
  Create : DB -> User.t -> (User.t + error) * DB;
  GetByID : DB -> primitive.ObjectID -> (User.t + error) * DB;
  GetByEmail : DB -> string -> (User.t + error) * DB;
  GetByUsername : DB -> string -> (User.t + error) * DB;
  Update : DB -> User.t -> (User.t + error) * DB;
  Delete : DB -> primitive.ObjectID -> option error * DB;
  List : DB -> Z -> Z -> (list User.t * Z + error) * DB
}.

(** What the services call in pkg/utils and in the libraries, not among
    the sources: password hashing and checking, token generation (user
    id, e-mail, role, secret, lifetime in nanoseconds), the result of
    [int(math.Ceil(float64(total) / float64(limit)))] on floating-point
    numbers, [primitive.ObjectIDFromHex], and [strconv.Atoi] (the value
    it returns, whether or not it also returns an error). *)
Class Helpers := mkHelpers {
  HashPassword : string -> string + error;
  CheckPasswordHash : string -> string -> bool;
  GenerateJWT : primitive.ObjectID -> string -> string -> string -> Z -> string + error;
  ceilOfQuotient : Z -> Z -> Z;
  ObjectIDFromHex : string -> primitive.ObjectID + error;
  Atoi : string -> Z
}.

End interfaces.

(** ** internal/services *)

Module services.

Import apperrors interfaces usermodels.

(** [24 * time.Hour], in nanoseconds. *)
Definition day : Z := 24 * 3600000000000.

Record AuthService := mkAuthService {
  jwtSecret : string;
  jwtExpiry : string
}.

Section Services.
Context {DB : Type} `{UserRepository DB} `{Helpers}.

(** [AuthService.Login]. *)
Definition Login (s : AuthService) (db : DB) (req : LoginRequest.t)
  : (AuthResponse + error) * DB :=
  match GetByEmail db (LoginRequest.Email req) with
  | (inr err, db1) =>
      match err with
      | ErrNoDocuments => (inr (App ErrInvalidCredentials), db1)
      | _ => (inr (App ErrInternalServer), db1)
      end
  | (inl user, db1) =>
      if negb (User.IsActive user)
      then (inr (App ErrUnAuthorized), db1)
      else if negb (CheckPasswordHash (LoginRequest.Password req) (User.Password user))
      then (inr (App ErrInvalidCredentials), db1)
      else
        match GenerateJWT (User.ID user) (User.Email user) (User.Role user)
                (jwtSecret s) day with
        | inr _ => (inr (App ErrInternalServer), db1)
        | inl token => (inl (mkAuthResponse token (ToResponse user)), db1)
        end
  end.

(** The zero ObjectID: twelve zero bytes. *)
Definition NilObjectID : primitive.ObjectID :=
  Nat.iter 12 (String Ascii.zero) EmptyString.

(** The user that [Register] and [Create] build from a request and a
    password hash; the fields the literal leaves out are zero. *)
Definition newUser (req : CreateUserRequest.t) (hashedPassword : string) : User.t :=
  {| User.ID := NilObjectID;
     User.Username := CreateUserRequest.Username req;
     User.Email := CreateUserRequest.Email req;
     User.Password := hashedPassword;
     User.FirstName := CreateUserRequest.FirstName req;
     User.LastName := CreateUserRequest.LastName req;
     User.Role := CreateUserRequest.Role req;
     User.Avatar := "";
     User.IsActive := true;
     User.CreatedAt := 0;
     User.UpdatedAt := 0 |}.

(** [AuthService.Register]. *)
Definition Register (s : AuthService) (db : DB) (req : CreateUserRequest.t)
  : (AuthResponse + error) * DB :=
  match GetByEmail db (CreateUserRequest.Email req) with
  | (inl _, db1) => (inr (App ErrUserExists), db1)
  | (inr _, db1) =>
      match GetByUsername db1 (CreateUserRequest.Username req) with
      | (inl _, db2) => (inr (App ErrUserExists), db2)
      | (inr _, db2) =>
          match HashPassword (CreateUserRequest.Password req) with
          | inr _ => (inr (App ErrInternalServer), db2)
          | inl hashedPassword =>
              match Create db2 (newUser req hashedPassword) with
              | (inr _, db3) => (inr (App ErrInternalServer), db3)
              | (inl user, db3) =>
                  match GenerateJWT (User.ID user) (User.Email user) (User.Role user)
                          (jwtSecret s) day with
                  | inr _ => (inr (App ErrInternalServer), db3)
                  | inl token => (inl (mkAuthResponse token (ToResponse user)), db3)
                  end
              end
          end
      end
  end.

(** [UserService.GetByID]. *)
Definition GetByID_ (db : DB) (id : primitive.ObjectID)
  : (UserResponse.t + error) * DB :=
  match GetByID db id with
  | (inr err, db1) =>
      match err with
      | ErrNoDocuments => (inr (App ErrUserNotFound), db1)
      | _ => (inr (App ErrInternalServer), db1)
      end
  | (inl user, db1) => (inl (ToResponse user), db1)
  end.

(** [UserService.Create]. *)
Definition Create_ (db : DB) (req : CreateUserRequest.t)
  : (UserResponse.t + error) * DB :=
  match GetByEmail db (CreateUserRequest.Email req) with
  | (inl _, db1) => (inr (App ErrUserExists), db1)
  | (inr _, db1) =>
      match GetByUsername db1 (CreateUserRequest.Username req) with
      | (inl _, db2) => (inr (App ErrUserExists), db2)
      | (inr _, db2) =>
          match HashPassword (CreateUserRequest.Password req) with
          | inr _ => (inr (App ErrInternalServer), db2)
          | inl hashedPassword =>
              match Create db2 (newUser req hashedPassword) with
              | (inr _, db3) => (inr (App ErrInternalServer), db3)
              | (inl user, db3) => (inl (ToResponse user), db3)
              end
          end
      end
  end.

(** The assignments of [UserService.Update] to the user it has
    loaded, one per field of the request, in the order of the source. *)
Definition applyUpdate (user : User.t) (req : UpdateUserRequest.t) : User.t :=
  let user :=
    if negb (String.eqb (UpdateUserRequest.Username req) "")
    then User.setUsername user (UpdateUserRequest.Username req) else user in
  let user :=
    if negb (String.eqb (UpdateUserRequest.Email req) "")
    then User.setEmail user (UpdateUserRequest.Email req) else user in
  let user :=
    if negb (String.eqb (UpdateUserRequest.FirstName req) "")
    then User.setFirstName user (UpdateUserRequest.FirstName req) else user in
  let user :=
    if negb (String.eqb (UpdateUserRequest.LastName req) "")
    then User.setLastName user (UpdateUserRequest.LastName req) else user in
  let user :=
    if negb (String.eqb (UpdateUserRequest.Role req) "")
    then User.setRole user (UpdateUserRequest.Role req) else user in
  let user :=
    if negb (String.eqb (UpdateUserRequest.Avatar req) "")
    then User.setAvatar user (UpdateUserRequest.Avatar req) else user in
  match UpdateUserRequest.IsActive req with
  | Some isActive => User.setIsActive user isActive
  | None => user
  end.

(** [UserService.Update]. *)
Definition Update_ (db : DB) (id : primitive.ObjectID) (req : UpdateUserRequest.t)
  : (UserResponse.t + error) * DB :=
  match GetByID db id with
  | (inr err, db1) =>
      match err with
      | ErrNoDocuments => (inr (App ErrUserNotFound), db1)
      | _ => (inr (App ErrInternalServer), db1)
      end
  | (inl user, db1) =>
      match Update db1 (applyUpdate user req) with
      | (inr _, db2) => (inr (App ErrInternalServer), db2)
      | (inl user', db2) => (inl (ToResponse user'), db2)
      end
  end.

(** [UserService.Delete]: the error it returns, [None] for [nil]. *)
Definition Delete_ (db : DB) (id : primitive.ObjectID) : option error * DB :=
  match GetByID db id with
  | (inr err, db1) =>
      match err with
      | ErrNoDocuments => (Some (App ErrUserNotFound), db1)
      | _ => (Some (App ErrInternalServer), db1)
      end
  | (inl _, db1) => Delete db1 id
  end.

(** [UserService.List]. *)
Definition List_ (db : DB) (page limit : Z) : (PaginatedResponse + error) * DB :=
  let page1 := if page <? 1 then 1 else page in
  let limit1 := if (limit <? 1) || (limit >? 100) then 10 else limit in
  match List db page1 limit1 with
  | (inr _, db1) => (inr (App ErrInternalServer), db1)
  | (inl (users, total), db1) =>
      let userResponses := map ToResponse users in
      let totalPages := ceilOfQuotient total limit1 in
      (inl {| Success := true;
              Message := "Users retrieved successfully";
              Data := userResponses;
              Pagination_ := {| Page := page1; Limit := limit1;
                                Total := total; TotalPages := totalPages |} |}, db1)
  end.

End Services.

End services.

(** ** internal/handlers/user.go *)

Module userhandlers.

Import apperrors interfaces usermodels middleware authctx.

(** A request as the user handlers read it: the gin context, the path
    parameters, and the first value of each query parameter. *)
Record Route := mkRoute {
  context : Context;
  params : gmap string string;
  query : gmap string string
}.

(** [c.Param]: the empty string when the route has no such parameter. *)
Definition Param (c : Route) (key : string) : string :=
  default "" (params c !! key).

(** [c.DefaultQuery]: the default only when the key is absent. *)
Definition DefaultQuery (c : Route) (key defaultValue : string) : string :=
  default defaultValue (query c !! key).

(** What a route of the user handlers does: the handler calls [c.JSON]
    with an [APIResponse] whose [Data] is a user response or left out,
    or with a paginated response; a middleware in front of it has
    written the response; or there is a panic. *)
Inductive Reply :=
| Answer (code : Z) (success : bool) (message : string)
         (data : option UserResponse.t) (error : option string)
| Listing (code : Z) (result : PaginatedResponse)
| Rejected (code : Z) (obj : models.APIResponse)
| Panicked.

(** The branch the handlers share: the answer for an error of a
    service. *)
Definition failure (err : error) : Reply :=
  match err with
  | App appErr => Answer (Code appErr) false (apperrors.Message appErr) None
                         (Some (Type_ appErr))
  | _ => Answer http.StatusInternalServerError false "Internal server error" None None
  end.

Section UserHandler.
Context {DB : Type} `{UserRepository DB} `{Helpers}.

Definition GetProfile (db : DB) (c : Route) : Reply * DB :=
  match GetUserId (context c) with
  | Panics => (Panicked, db)
  | Err _ => (Answer http.StatusUnauthorized false "Unauthorized" None None, db)
  | Ok userID =>
      match services.GetByID_ db userID with
      | (inr err, db1) => (failure err, db1)
      | (inl user, db1) =>
          (Answer http.StatusOK true "Profile retrieved successfully" (Some user) None, db1)
      end
  end.

Definition GetUser (db : DB) (c : Route) : Reply * DB :=
  let idParam := Param c "id" in
  match ObjectIDFromHex idParam with
  | inr _ => (Answer http.StatusBadRequest false "Invalid user ID" None None, db)
  | inl userID =>
      match services.GetByID_ db userID with
      | (inr err, db1) => (failure err, db1)
      | (inl user, db1) =>
          (Answer http.StatusOK true "User retrieved successfully" (Some user) None, db1)
      end
  end.

Definition DeleteUser (db : DB) (c : Route) : Reply * DB :=
  let idParam := Param c "id" in
  match ObjectIDFromHex idParam with
  | inr _ => (Answer http.StatusBadRequest false "Invalid user ID" None None, db)
  | inl userID =>
      match services.Delete_ db userID with
      | (Some err, db1) => (failure err, db1)
      | (None, db1) =>
          (Answer http.StatusOK true "User deleted successfully" None None, db1)
      end
  end.

Definition ListUsers (db : DB) (c : Route) : Reply * DB :=
  let page := Atoi (DefaultQuery c "page" "1") in
  let limit := Atoi (DefaultQuery c "limit" "10") in
  match services.List_ db page limit with
  | (inr err, db1) => (failure err, db1)
  | (inl result, db1) => (Listing http.StatusOK result, db1)
  end.

(** The routes of user_routes.go: the middleware in front of a handler,
    and the handler on the context the middleware passed on; an answer
    of the middleware is the answer of the route. *)
Definition guarded (guard : Context -> Outcome) (handler : DB -> Route -> Reply * DB)
  (db : DB) (c : Route) : Reply * DB :=
  match guard (context c) with
  | gin.Next ctx => handler db (mkRoute ctx (params c) (query c))
  | gin.JSON code obj => (Rejected code obj, db)
  | gin.Panic => (Panicked, db)
  end.

End UserHandler.

End userhandlers.

(** ** A sample store and sample helpers *)

Module fixtures3.

Import apperrors interfaces.

Definition byID (id : primitive.ObjectID) (u : User.t) : bool :=
  String.eqb (User.ID u) id.

Definition lookup (p : User.t -> bool) (db : list User.t) : User.t + error :=
  match find p db with
  | Some u => inl u
  | None => inr ErrNoDocuments
  end.

(** A store in memory: the list of its users. *)
#[export] Instance memory : UserRepository (list User.t) :=
  {| Create := fun db u => (inl u, db ++ [u]);
     GetByID := fun db id => (lookup (byID id) db, db);
     GetByEmail := fun db email =>
       (lookup (fun u => String.eqb (User.Email u) email) db, db);
     GetByUsername := fun db username =>
       (lookup (fun u => String.eqb (User.Username u) username) db, db);
     Update := fun db u =>
       (inl u, map (fun v => if byID (User.ID u) v then u else v) db);
     Delete := fun db id => (None, filter (fun u => negb (byID id u)) db);
     List := fun db page limit =>
       (inl (take (Z.to_nat limit) (drop (Z.to_nat ((page - 1) * limit)) db),
             Z.of_nat (length db)), db) |}.

Definition digit (c : ascii) : option Z :=
  let n := Z.of_N (N_of_ascii c) in
  if (48 <=? n) && (n <=? 57) then Some (n - 48) else None.

Fixpoint digits (acc : Z) (s : string) : option Z :=
  match s with
  | EmptyString => Some acc
  | String c r =>
      match digit c with
      | Some n => digits (10 * acc + n) r
      | None => None
      end
  end.

Fixpoint bytes (s : string) : option string :=
  match s with
  | EmptyString => Some EmptyString
  | String hi (String lo r) =>
      match bytes r with
      | Some b => Some (String (fixtures2.unhex hi lo) b)
      | None => None
      end
  | String _ EmptyString => None
  end.

#[export] Instance helpers : Helpers :=
  {| HashPassword := fun password => inl ("hash:" +:+ password);
     CheckPasswordHash := fun password hash => String.eqb hash ("hash:" +:+ password);
     GenerateJWT := fun id email role secret lifetime =>
       inl (primitive.Hex id +:+ "." +:+ role +:+ "." +:+ fmt.d lifetime);
     ceilOfQuotient := fun total limit => (total + limit - 1) / limit;
     ObjectIDFromHex := fun s =>
       if (String.length s =? 24)%nat
       then match bytes s with
            | Some id => inl id
            | None => inr (Other "invalid hex")
            end
       else inr (Other "invalid length");
     Atoi := fun s =>
       match s with
       | EmptyString => 0
       | _ => default 0 (digits 0 s)
       end |}.

Definition root : User.t :=
  {| User.ID := "admin-000001";
     User.Username := "root";
     User.Email := "root@example.org";
     User.Password := "hash:secret";
     User.FirstName := "Ada";
     User.LastName := "Root";
     User.Role := "admin";
     User.Avatar := "";
     User.IsActive := true;
     User.CreatedAt := 1700000000;
     User.UpdatedAt := 1700000000 |}.

Definition guest : User.t :=
  {| User.ID := "guest-000002";
     User.Username := "guest";
     User.Email := "guest@example.org";
     User.Password := "hash:guest";
     User.FirstName := "Gil";
     User.LastName := "Guest";
     User.Role := "user";
     User.Avatar := "";
     User.IsActive := false;
     User.CreatedAt := 1700000001;
     User.UpdatedAt := 1700000001 |}.

Definition users : list User.t := [root; guest].

Definition service : services.AuthService :=
  services.mkAuthService "secret-key" "4h".

(** A request of the profile route with the valid sample token. *)
Definition profile : userhandlers.Route :=
  userhandlers.mkRoute (sample.authorized "Bearer valid") ∅ ∅.

End fixtures3.

(** * Part II: properties *)

Import models middleware runs verdicts.

(** ** The token bucket *)

Lemma Qle_bool_false (x y : Q) : Qle_bool x y = false -> (y < x)%Q.
Proof.
  intros Hb. apply Qnot_le_lt. intros Hle.
  apply Qle_bool_iff in Hle. congruence.
Qed.

Ltac qcase :=
  match goal with
  | |- context [Qle_bool ?a ?b] =>
      let Hq := fresh "Hq" in
      destruct (Qle_bool a b) eqn:Hq;
      [apply Qle_bool_iff in Hq | apply Qle_bool_false in Hq]
  end.

Lemma TokensAt_le (lim : rate.Limiter) (t : Q) :
  (rate.TokensAt lim t <= inject_Z (rate.burst lim))%Q.
Proof. unfold rate.TokensAt. qcase; simpl; lra. Qed.

Lemma TokensAt_NewLimiter (r : Q) (b : Z) (t : Q) :
  (0 <= r)%Q -> (0 <= t)%Q ->
  (rate.TokensAt (rate.NewLimiter r b) t == inject_Z b)%Q.
Proof.
  intros Hr Ht. unfold rate.TokensAt, rate.NewLimiter. simpl.
  qcase; [|reflexivity].
  assert (0 <= t * r)%Q by (apply Qmult_le_0_compat; lra).
  lra.
Qed.

(** Tokens at a later instant, for a bucket that is not full. *)
Lemma TokensAt_later (lim : rate.Limiter) (t w : Q) :
  (rate.TokensAt lim t < inject_Z (rate.burst lim))%Q ->
  let tk := (rate.TokensAt lim t + w * rate.limit lim)%Q in
  (rate.TokensAt lim (t + w) ==
   if Qle_bool tk (inject_Z (rate.burst lim)) then tk else inject_Z (rate.burst lim))%Q.
Proof.
  unfold rate.TokensAt. intros Hlt.
  destruct (Qle_bool (rate.tokens lim + (t - rate.last lim) * rate.limit lim)
                     (inject_Z (rate.burst lim))) eqn:E0.
  2:{ lra. }
  simpl.
  destruct (Qle_bool (rate.tokens lim + (t + w - rate.last lim) * rate.limit lim)
                     (inject_Z (rate.burst lim))) eqn:E1;
  destruct (Qle_bool (rate.tokens lim + (t - rate.last lim) * rate.limit lim
                      + w * rate.limit lim) (inject_Z (rate.burst lim))) eqn:E2;
  try (apply Qle_bool_iff in E1); try (apply Qle_bool_false in E1);
  try (apply Qle_bool_iff in E2); try (apply Qle_bool_false in E2);
  try lra; try reflexivity.
Qed.

Lemma Allow_fields (lim : rate.Limiter) (now : Q) :
  rate.limit (rate.Allow lim now).1 = rate.limit lim /\
  rate.burst (rate.Allow lim now).1 = rate.burst lim /\
  rate.last (rate.Allow lim now).1 = now.
Proof. unfold rate.Allow. destruct (Qle_bool 1 _); simpl; auto. Qed.

(** What an [Allow] at instant [now] answers and leaves, in terms of the
    tokens available at [now]. *)
Lemma Allow_spec (lim : rate.Limiter) (now : Q) :
  let tk := rate.TokensAt lim now in
  (rate.Allow lim now).2 = Qle_bool 1 tk /\
  (rate.TokensAt (rate.Allow lim now).1 now ==
   if Qle_bool 1 tk then tk - 1 else tk)%Q.
Proof.
  simpl. pose proof (TokensAt_le lim now) as Hle.
  unfold rate.Allow.
  destruct (Qle_bool 1 (rate.TokensAt lim now)) eqn:E; simpl; split; auto.
  - unfold rate.TokensAt at 1. simpl. qcase; lra.
  - unfold rate.TokensAt at 1. simpl. qcase; lra.
Qed.

Lemma allowN_fields (k : nat) : forall (lim : rate.Limiter) (now : Q),
  rate.limit (allowN lim now k).1 = rate.limit lim /\
  rate.burst (allowN lim now k).1 = rate.burst lim.
Proof.
  induction k as [|k IH]; intros lim now; simpl; [auto|].
  destruct (rate.Allow lim now) as [lim1 ok] eqn:EA.
  destruct (allowN lim1 now k) as [lim2 oks] eqn:EN. simpl.
  specialize (IH lim1 now). rewrite EN in IH. simpl in IH.
  pose proof (Allow_fields lim now) as HA. rewrite EA in HA. simpl in HA.
  destruct IH as [-> ->]. destruct HA as (-> & -> & _). auto.
Qed.

(** With less than one token available, every immediate call is refused
    and the tokens stay as they are. *)
Lemma allowN_refused (m : nat) : forall (lim : rate.Limiter) (now : Q),
  (rate.TokensAt lim now < 1)%Q ->
  (allowN lim now m).2 = replicate m false /\
  (rate.TokensAt (allowN lim now m).1 now == rate.TokensAt lim now)%Q.
Proof.
  induction m as [|m IH]; intros lim now Hlt; simpl.
  - split; [reflexivity | lra].
  - destruct (Allow_spec lim now) as [Hres Htk].
    destruct (rate.Allow lim now) as [lim1 ok] eqn:EA. simpl in Hres, Htk.
    destruct (Qle_bool 1 (rate.TokensAt lim now)) eqn:E.
    { apply Qle_bool_iff in E. lra. }
    destruct (IH lim1 now) as [IH1 IH2]; [lra|].
    destruct (allowN lim1 now m) as [lim2 oks] eqn:EN. simpl in *.
    subst. split; [reflexivity | lra].
Qed.

(** With [n] whole tokens and a fraction [f] available, [n] immediate
    calls are allowed, all further ones refused, and [f] is left. *)
Lemma allowN_split (n : nat) : forall (m : nat) (lim : rate.Limiter) (now f : Q),
  (0 <= f)%Q -> (f < 1)%Q ->
  (rate.TokensAt lim now == inject_Z (Z.of_nat n) + f)%Q ->
  (allowN lim now (n + m)).2 = replicate n true ++ replicate m false /\
  (rate.TokensAt (allowN lim now (n + m)).1 now == f)%Q.
Proof.
  induction n as [|n IH]; intros m lim now f Hf0 Hf1 Htk.
  - assert (Hz : (inject_Z (Z.of_nat 0) == 0)%Q) by reflexivity.
    change (0 + m)%nat with m.
    destruct (allowN_refused m lim now) as [H1 H2]; [lra|].
    split; [exact H1 | lra].
  - rewrite Nat2Z.inj_succ, <- Z.add_1_r, inject_Z_plus in Htk.
    change (inject_Z 1) with 1%Q in Htk.
    assert (Hn : (0 <= inject_Z (Z.of_nat n))%Q).
    { change 0%Q with (inject_Z 0). rewrite <- Zle_Qle. lia. }
    simpl.
    destruct (Allow_spec lim now) as [Hres Hleft].
    destruct (rate.Allow lim now) as [lim1 ok] eqn:EA. simpl in Hres, Hleft.
    destruct (Qle_bool 1 (rate.TokensAt lim now)) eqn:E.
    2:{ apply Qle_bool_false in E. lra. }
    destruct (IH m lim1 now f Hf0 Hf1) as [IH1 IH2]; [lra|].
    destruct (allowN lim1 now (n + m)) as [lim2 oks] eqn:EN. simpl in *.
    subst. split; [reflexivity | exact IH2].
Qed.

(** ** The registry *)

Lemma GetLimiter_fields (rl : RateLimiter) (key : string) :
  rate (GetLimiter rl key).2 = rate rl /\ burst (GetLimiter rl key).2 = burst rl /\
  limiters (GetLimiter rl key).2 !! key = Some (GetLimiter rl key).1.
Proof.
  unfold GetLimiter. destruct (limiters rl !! key) eqn:E; simpl; auto.
  rewrite lookup_insert_eq. auto.
Qed.

Lemma GetLimiter_other (rl : RateLimiter) (key key' : string) :
  key <> key' ->
  limiters (GetLimiter rl key).2 !! key' = limiters rl !! key'.
Proof.
  intros Hne. unfold GetLimiter. destruct (limiters rl !! key); simpl; auto.
  by rewrite lookup_insert_ne.
Qed.

(** A request touches the bucket of its client only: it is looked up or
    created, asked once, and stored. *)
Lemma RateLimitHandler_bucket (rl : RateLimiter) (now : Q) (c : Context) :
  let a := rate.Allow (GetLimiter rl (gin.ClientIP c)).1 now in
  limiters (RateLimitHandler rl now c).1 !! gin.ClientIP c = Some a.1 /\
  passed (RateLimitHandler rl now c).2 = a.2 /\
  rate (RateLimitHandler rl now c).1 = rate rl /\
  burst (RateLimitHandler rl now c).1 = burst rl.
Proof.
  simpl. unfold RateLimitHandler.
  pose proof (GetLimiter_fields rl (gin.ClientIP c)) as (Hr & Hb & _).
  destruct (GetLimiter rl (gin.ClientIP c)) as [lim rl1]. simpl in *.
  destruct (rate.Allow lim now) as [lim' ok]. simpl.
  destruct ok; simpl; rewrite lookup_insert_eq; auto.
Qed.

Lemma RateLimitHandler_other (rl : RateLimiter) (now : Q) (c : Context) (key' : string) :
  gin.ClientIP c <> key' ->
  limiters (RateLimitHandler rl now c).1 !! key' = limiters rl !! key'.
Proof.
  intros Hne. unfold RateLimitHandler.
  pose proof (GetLimiter_other rl (gin.ClientIP c) key' Hne) as Ho.
  destruct (GetLimiter rl (gin.ClientIP c)) as [lim rl1]. simpl in *.
  destruct (rate.Allow lim now) as [lim' ok]. simpl.
  destruct ok; simpl; rewrite lookup_insert_ne; auto.
Qed.

(** Requests of one client at one instant are immediate calls on its
    bucket. *)
Lemma serve_allowN (c : Context) (now : Q) (k : nat) : forall rl : RateLimiter,
  (serve rl c (replicate k now)).2 = (allowN (GetLimiter rl (gin.ClientIP c)).1 now k).2 /\
  (GetLimiter (serve rl c (replicate k now)).1 (gin.ClientIP c)).1 =
    (allowN (GetLimiter rl (gin.ClientIP c)).1 now k).1.
Proof.
  induction k as [|k IH]; intros rl; simpl; [auto|].
  pose proof (RateLimitHandler_bucket rl now c) as (Hb & Hp & _). simpl in Hb, Hp.
  destruct (RateLimitHandler rl now c) as [rl1 o]. simpl in Hb, Hp.
  destruct (rate.Allow (GetLimiter rl (gin.ClientIP c)).1 now) as [lim1 ok]. simpl in *.
  specialize (IH rl1).
  assert (Hg : (GetLimiter rl1 (gin.ClientIP c)).1 = lim1).
  { unfold GetLimiter. by rewrite Hb. }
  rewrite Hg in IH.
  destruct (serve rl1 c (replicate k now)) as [rl2 os].
  destruct (allowN lim1 now k) as [lim2 oks]. simpl in *.
  destruct IH as [-> ->]. by rewrite Hp.
Qed.

(** ** Burst and refill (C1) *)

Lemma Qdiv_le_mult (a r w : Q) : (0 < r)%Q -> (a / r <= w)%Q -> (a <= w * r)%Q.
Proof.
  intros Hr Hle.
  assert (Heq : (a / r * r == a)%Q) by (field; lra).
  rewrite <- Heq. apply Qmult_le_compat_r; lra.
Qed.

Lemma Qlt_div_mult (a r w : Q) : (0 < r)%Q -> (w < a / r)%Q -> (w * r < a)%Q.
Proof.
  intros Hr Hlt.
  assert (Heq : (a / r * r == a)%Q) by (field; lra).
  rewrite <- Heq. apply Qmult_lt_compat_r; lra.
Qed.

Lemma GetLimiter_fresh (rl : RateLimiter) (key : string) :
  limiters rl !! key = None ->
  (GetLimiter rl key).1 = rate.NewLimiter (rate rl) (burst rl).
Proof. intros Hnone. unfold GetLimiter. by rewrite Hnone. Qed.

(** C1, as amended.  For a client key without a bucket, in a registry
    with burst [C >= 1] and rate [R > 0]: the bucket is created by the
    key's first lookup, holding exactly [C] tokens, a second lookup
    returns that bucket and creates nothing, the first request leaves
    the bucket in the registry, and that request is allowed; [C]
    immediate requests are allowed and the next one is refused; after waiting [w >= 1/R] seconds the next request is
    allowed; and when moreover [w < 2/R], exactly one more is allowed
    (the immediate one after it is refused). *)
Theorem C1_burst_then_refill (rl : RateLimiter) (c : Context) (C : nat) (t w : Q) :
  limiters rl !! gin.ClientIP c = None ->
  burst rl = Z.of_nat C -> (1 <= C)%nat ->
  (0 < rate rl)%Q -> (0 <= t)%Q -> (1 / rate rl <= w)%Q ->
  (GetLimiter rl (gin.ClientIP c)).1 = rate.NewLimiter (rate rl) (burst rl) /\
  rate.tokens (GetLimiter rl (gin.ClientIP c)).1 = inject_Z (Z.of_nat C) /\
  GetLimiter (GetLimiter rl (gin.ClientIP c)).2 (gin.ClientIP c) =
    GetLimiter rl (gin.ClientIP c) /\
  is_Some (limiters (RateLimitHandler rl t c).1 !! gin.ClientIP c) /\
  (serve rl c [t]).2 = [true] /\
  (serve rl c (replicate (C + 1) t)).2 = replicate C true ++ [false] /\
  (serve (serve rl c (replicate (C + 1) t)).1 c [(t + w)%Q]).2 = [true] /\
  ((w < 2 / rate rl)%Q \/ C = 1%nat ->
   (serve (serve rl c (replicate (C + 1) t)).1 c [(t + w)%Q; (t + w)%Q]).2 = [true; false]).
Proof.
  intros Hnone Hb HC HR Ht Hw.
  pose proof (GetLimiter_fresh rl _ Hnone) as Hnew.
  assert (HCq : (1 <= inject_Z (Z.of_nat C))%Q).
  { change 1%Q with (inject_Z 1). rewrite <- Zle_Qle. lia. }
  assert (Hfull : (rate.TokensAt (GetLimiter rl (gin.ClientIP c)).1 t
                   == inject_Z (Z.of_nat C))%Q).
  { rewrite Hnew, Hb. apply TokensAt_NewLimiter; lra. }
  assert (HwR : (1 <= w * rate rl)%Q) by (apply Qdiv_le_mult; assumption).
  split; [exact Hnew|]. split; [by rewrite Hnew, Hb|].
  split.
  { pose proof (GetLimiter_fields rl (gin.ClientIP c)) as (_ & _ & Hstored).
    unfold GetLimiter at 1. by rewrite Hstored, <- surjective_pairing. }
  split.
  { pose proof (RateLimitHandler_bucket rl t c) as (Hstored & _). simpl in Hstored.
    rewrite Hstored. eauto. }
  split.
  { destruct (serve_allowN c t 1 rl) as [Hs _]. simpl replicate in Hs. rewrite Hs.
    simpl. destruct (Allow_spec (GetLimiter rl (gin.ClientIP c)).1 t) as [Hres _].
    destruct (rate.Allow _ t) as [lim1 ok]. simpl in *. subst ok.
    f_equal. apply Qle_bool_iff. lra. }
  destruct (serve_allowN c t (C + 1) rl) as [Hs Hg].
  destruct (allowN_split C 1 (GetLimiter rl (gin.ClientIP c)).1 t 0) as [Hres Hleft];
    [lra | lra | lra |].
  destruct (allowN_fields (C + 1) (GetLimiter rl (gin.ClientIP c)).1 t) as [Hlim Hbur].
  split; [by rewrite Hs, Hres|].
  set (rl1 := (serve rl c (replicate (C + 1) t)).1) in *.
  set (lim1 := (GetLimiter rl1 (gin.ClientIP c)).1) in *.
  rewrite <- Hg in Hleft, Hlim, Hbur.
  rewrite Hnew in Hlim, Hbur. simpl in Hlim, Hbur. rewrite Hb in Hbur.
  assert (Hlater : (rate.TokensAt lim1 (t + w) ==
            if Qle_bool (0 + w * rate rl) (inject_Z (Z.of_nat C))
            then 0 + w * rate rl else inject_Z (Z.of_nat C))%Q).
  { pose proof (TokensAt_later lim1 t w) as Hl. simpl in Hl.
    rewrite Hbur, Hlim in Hl. rewrite Hl by lra.
    destruct (Qle_bool (rate.TokensAt lim1 t + w * rate rl) (inject_Z (Z.of_nat C))) eqn:E1;
    destruct (Qle_bool (0 + w * rate rl) (inject_Z (Z.of_nat C))) eqn:E2;
    try (apply Qle_bool_iff in E1); try (apply Qle_bool_false in E1);
    try (apply Qle_bool_iff in E2); try (apply Qle_bool_false in E2); lra. }
  split.
  { destruct (serve_allowN c (t + w) 1 rl1) as [Hs1 _]. simpl replicate in Hs1.
    rewrite Hs1. fold lim1. simpl.
    destruct (Allow_spec lim1 (t + w)) as [Hr1 _].
    destruct (rate.Allow lim1 (t + w)) as [lim2 ok]. simpl in *. subst ok.
    f_equal. apply Qle_bool_iff. rewrite Hlater. qcase; lra. }
  intros Hw2.
  assert (Hw2R : (w * rate rl < 2)%Q \/ C = 1%nat).
  { destruct Hw2 as [Hw2|HC1]; [left; by apply Qlt_div_mult | by right]. }
  destruct (serve_allowN c (t + w) 2 rl1) as [Hs2 _]. simpl replicate in Hs2.
  rewrite Hs2. fold lim1.
  assert (H1q : (inject_Z (Z.of_nat 1) == 1)%Q) by reflexivity.
  destruct (Qle_bool (0 + w * rate rl) (inject_Z (Z.of_nat C))) eqn:E.
  - apply Qle_bool_iff in E.
    destruct (allowN_split 1 1 lim1 (t + w) (w * rate rl - 1)) as [Hres1 _].
    + lra.
    + destruct Hw2R as [Hlt| ->]; lra.
    + rewrite Hlater. lra.
    + exact Hres1.
  - apply Qle_bool_false in E.
    assert (C = 1)%nat as ->.
    { destruct Hw2R as [Hlt|HC1]; [|exact HC1].
      assert (inject_Z (Z.of_nat C) < inject_Z 2)%Q as HC2.
      { change (inject_Z 2) with 2%Q. lra. }
      rewrite <- Zlt_Qlt in HC2. lia. }
    destruct (allowN_split 1 1 lim1 (t + w) 0) as [Hres1 _].
    + lra.
    + lra.
    + rewrite Hlater. lra.
    + exact Hres1.
Qed.

(** The strict limiter (one request per second, burst 2), a client
    without a bucket, three requests at instant 5 and two more after one
    second. *)
Lemma C1_burst_then_refill_witness :
  (serve StrictRateLimit (sample.client "10.0.0.7") [5; 5; 5]%Q).2 = [true; true; false] /\
  (serve (serve StrictRateLimit (sample.client "10.0.0.7") [5; 5; 5]%Q).1
         (sample.client "10.0.0.7") [5 + 1; 5 + 1]%Q).2 = [true; false].
Proof.
  destruct (C1_burst_then_refill StrictRateLimit (sample.client "10.0.0.7") 2 5 1)
    as (_ & _ & _ & _ & _ & Hburst & _ & Hone).
  - reflexivity.
  - reflexivity.
  - lia.
  - reflexivity.
  - discriminate.
  - discriminate.
  - split; [exact Hburst | apply Hone; left; reflexivity].
Defined.

(** C1 as stated fails: with burst 2 and one token per second, after the
    burst is used up and two seconds (at least [1/R]) have passed, two
    more requests are allowed, not exactly one. *)
Lemma C1_counterexample :
  (1 / rate StrictRateLimit <= 2)%Q /\
  (serve StrictRateLimit (sample.client "10.0.0.7") [0; 0; 0; 0 + 2; 0 + 2]%Q).2
  = [true; true; false; true; true].
Proof. split; [discriminate | vm_compute; reflexivity]. Qed.

(** ** The registry invariant (C8) and the sweep (C6) *)

Lemma Allow_tokens_le (lim : rate.Limiter) (now : Q) :
  (rate.tokens (rate.Allow lim now).1 <= inject_Z (rate.burst lim))%Q.
Proof.
  pose proof (TokensAt_le lim now) as Hle. unfold rate.Allow.
  destruct (Qle_bool 1 (rate.TokensAt lim now)); simpl; lra.
Qed.

Lemma registry_ok_GetLimiter (rl : RateLimiter) (key : string) :
  registry_ok rl ->
  registry_ok (GetLimiter rl key).2 /\
  rate.limit (GetLimiter rl key).1 = rate rl /\
  rate.burst (GetLimiter rl key).1 = burst rl.
Proof.
  intros Hok. unfold GetLimiter.
  destruct (limiters rl !! key) as [lim|] eqn:E; simpl.
  - destruct (Hok key lim E) as (? & ? & ?). auto.
  - split; [|auto]. intros key' lim' Hl. simpl in Hl.
    destruct (decide (key = key')) as [->|Hne].
    + rewrite lookup_insert_eq in Hl. inversion Hl; subst. simpl.
      repeat split; auto. lra.
    + rewrite lookup_insert_ne in Hl by done. exact (Hok key' lim' Hl).
Qed.

Lemma registry_ok_step (rl rl' : RateLimiter) :
  step rl rl' -> registry_ok rl ->
  registry_ok rl' /\ rate rl' = rate rl /\ burst rl' = burst rl.
Proof.
  intros Hstep Hok. destruct Hstep as [now c | key | now].
  - pose proof (RateLimitHandler_bucket rl now c) as (Hb & _ & Hr & Hbu). simpl in Hb.
    split; [|auto]. intros key' lim' Hl. rewrite Hr, Hbu.
    destruct (decide (gin.ClientIP c = key')) as [<-|Hne].
    + rewrite Hb in Hl. inversion Hl; subst lim'; clear Hl.
      destruct (registry_ok_GetLimiter rl (gin.ClientIP c) Hok) as (_ & Hlim & Hbur).
      destruct (Allow_fields (GetLimiter rl (gin.ClientIP c)).1 now) as (-> & -> & _).
      repeat split; auto. apply Allow_tokens_le.
    + rewrite RateLimitHandler_other in Hl by done. exact (Hok key' lim' Hl).
  - pose proof (GetLimiter_fields rl key) as (Hr & Hbu & _).
    destruct (registry_ok_GetLimiter rl key Hok) as (Hok' & _). auto.
  - split; [|auto]. intros key' lim' Hl. simpl in Hl.
    apply map_lookup_filter_Some in Hl as [Hl _]. exact (Hok key' lim' Hl).
Qed.

Lemma reachable_ok (rps : Q) (b : Z) (rl : RateLimiter) :
  reachable rps b rl -> registry_ok rl /\ rate rl = rps /\ burst rl = b.
Proof.
  unfold reachable. revert rl. apply rtc_ind_r.
  - split; [|auto]. intros key lim Hl. simpl in Hl. by rewrite lookup_empty in Hl.
  - intros y z _ Hstep (Hok & Hrate & Hburst).
    destruct (registry_ok_step y z Hstep Hok) as (Hok' & -> & ->). auto.
Qed.

(** C8.  In every registry the middleware can hold, whatever requests,
    lookups and sweeps led to it, no bucket holds more tokens than its
    capacity; the tokens a refill makes available at any instant are the
    stored ones plus elapsed time times rate, capped at the capacity;
    one more [Allow] leaves at most the capacity; and a bucket is
    created with exactly its capacity. *)
Theorem C8_tokens_within_capacity (rps : Q) (b : Z) (rl : RateLimiter)
  (key : string) (lim : rate.Limiter) :
  reachable rps b rl -> limiters rl !! key = Some lim ->
  rate.burst lim = b /\
  (rate.tokens lim <= inject_Z (rate.burst lim))%Q /\
  (forall t : Q,
     (rate.TokensAt lim t <= inject_Z (rate.burst lim))%Q /\
     (rate.TokensAt lim t <= rate.tokens lim + (t - rate.last lim) * rate.limit lim)%Q /\
     ((rate.TokensAt lim t == inject_Z (rate.burst lim))%Q \/
      (rate.TokensAt lim t == rate.tokens lim + (t - rate.last lim) * rate.limit lim)%Q)) /\
  (forall now : Q,
     (rate.tokens (rate.Allow lim now).1 <= inject_Z (rate.burst (rate.Allow lim now).1))%Q) /\
  rate.tokens (rate.NewLimiter rps b) = inject_Z (rate.burst (rate.NewLimiter rps b)).
Proof.
  intros Hreach Hl.
  destruct (reachable_ok rps b rl Hreach) as (Hok & Hrate & Hburst).
  destruct (Hok key lim Hl) as (Hlim & Hbur & Htok).
  split; [congruence|]. split; [exact Htok|]. split; [|split].
  - intros t. split; [apply TokensAt_le|].
    unfold rate.TokensAt. qcase; simpl; split; try lra; auto with qarith.
  - intros now. destruct (Allow_fields lim now) as (_ & -> & _). apply Allow_tokens_le.
  - reflexivity.
Qed.

Lemma serve_steps (c : Context) (instants : list Q) : forall rl : RateLimiter,
  rtc step rl (serve rl c instants).1.
Proof.
  induction instants as [|now rest IH]; intros rl; simpl; [apply rtc_refl|].
  destruct (RateLimitHandler rl now c) as [rl1 o] eqn:E.
  specialize (IH rl1). destruct (serve rl1 c rest) as [rl2 os]. simpl in *.
  eapply rtc_l; [|exact IH].
  replace rl1 with (RateLimitHandler rl now c).1 by (by rewrite E).
  apply step_request.
Qed.

(** A registry after one request, and the bucket it then holds. *)
Lemma C8_tokens_within_capacity_witness :
  exists lim : rate.Limiter,
    limiters (RateLimitHandler StrictRateLimit 5 (sample.client "10.0.0.7")).1
      !! "10.0.0.7" = Some lim /\
    (rate.tokens lim <= inject_Z (rate.burst lim))%Q.
Proof.
  eexists. split.
  - vm_compute. reflexivity.
  - eapply (C8_tokens_within_capacity 1 2
              (RateLimitHandler StrictRateLimit 5 (sample.client "10.0.0.7")).1
              "10.0.0.7").
    + apply rtc_once. apply step_request.
    + vm_compute. reflexivity.
Defined.

(** What a sweep does to one key. *)
Lemma CleanupLimiters_lookup (rl : RateLimiter) (now : string -> Q) (key : string) :
  limiters (CleanupLimiters rl now) !! key =
  match limiters rl !! key with
  | Some lim =>
      if Qeq_bool (rate.TokensAt lim (now key)) (inject_Z (burst rl)) then None else Some lim
  | None => None
  end.
Proof.
  simpl. rewrite map_lookup_filter.
  destruct (limiters rl !! key) as [lim|]; simpl; [|reflexivity].
  destruct (Qeq_bool (rate.TokensAt lim (now key)) (inject_Z (burst rl))) eqn:E;
    case_guard; simpl in *; congruence.
Qed.

(** C6.  A sweep of any registry the middleware can hold removes every
    bucket whose tokens, at the instant the sweep looks at it, equal its
    capacity, and keeps, unchanged, every bucket whose tokens at that
    instant are below its capacity; it adds no bucket. *)
Theorem C6_sweep_removes_full_buckets_only (rps : Q) (b : Z) (rl : RateLimiter)
  (now : string -> Q) (key : string) (lim : rate.Limiter) :
  reachable rps b rl -> limiters rl !! key = Some lim ->
  ((rate.TokensAt lim (now key) == inject_Z (rate.burst lim))%Q ->
   limiters (CleanupLimiters rl now) !! key = None) /\
  ((rate.TokensAt lim (now key) < inject_Z (rate.burst lim))%Q ->
   limiters (CleanupLimiters rl now) !! key = Some lim) /\
  (forall key' : string, limiters rl !! key' = None ->
   limiters (CleanupLimiters rl now) !! key' = None).
Proof.
  intros Hreach Hl.
  destruct (reachable_ok rps b rl Hreach) as (Hok & _ & _).
  destruct (Hok key lim Hl) as (_ & Hbur & _).
  repeat split.
  - intros Heq. rewrite CleanupLimiters_lookup, Hl, <- Hbur.
    apply Qeq_bool_iff in Heq. by rewrite Heq.
  - intros Hlt. rewrite CleanupLimiters_lookup, Hl, <- Hbur.
    destruct (Qeq_bool (rate.TokensAt lim (now key)) (inject_Z (rate.burst lim))) eqn:E;
      [|reflexivity].
    apply Qeq_bool_iff in E. lra.
  - intros key' Hnone. by rewrite CleanupLimiters_lookup, Hnone.
Qed.

(** Two clients of the strict limiter: one asked once at instant 0, the
    other twice at instant 299.  The sweep at instant 300 removes the
    bucket of the first, which has refilled, and keeps that of the
    second, which holds 1 of 2 tokens. *)
Lemma C6_sweep_removes_full_buckets_only_witness :
  let rl := (serve (serve StrictRateLimit (sample.client "10.0.0.1") [0]%Q).1
                   (sample.client "10.0.0.2") [299; 299]%Q).1 in
  is_Some (limiters rl !! "10.0.0.1") /\
  limiters (CleanupLimiters rl (fun _ => 300%Q)) !! "10.0.0.1" = None /\
  is_Some (limiters (CleanupLimiters rl (fun _ => 300%Q)) !! "10.0.0.2").
Proof.
  intros rl.
  assert (Hreach : reachable 1 2 rl).
  { unfold reachable, rl. eapply rtc_trans; apply serve_steps. }
  destruct (limiters rl !! "10.0.0.1") as [lim1|] eqn:E1; [|vm_compute in E1; discriminate].
  destruct (limiters rl !! "10.0.0.2") as [lim2|] eqn:E2; [|vm_compute in E2; discriminate].
  destruct (C6_sweep_removes_full_buckets_only 1 2 rl (fun _ => 300%Q)
              "10.0.0.1" lim1 Hreach E1) as (Hfull & _ & _).
  destruct (C6_sweep_removes_full_buckets_only 1 2 rl (fun _ => 300%Q)
              "10.0.0.2" lim2 Hreach E2) as (_ & Hkeep & _).
  vm_compute in E1, E2. inversion E1; subst lim1. inversion E2; subst lim2.
  split; [eauto|]. split.
  - apply Hfull. vm_compute. reflexivity.
  - eexists. apply Hkeep. vm_compute. reflexivity.
Defined.

(** ** Strings, slices and [filepath.Ext] *)

Lemma substring_none (s : string) : forall n : nat, String.substring n 0 s = "".
Proof. induction s as [|c s IH]; intros [|n]; simpl; auto. Qed.

Lemma substring_all (s : string) : String.substring 0 (String.length s) s = s.
Proof. induction s as [|c s IH]; simpl; [reflexivity | by rewrite IH]. Qed.

(** A string is its slice [s[:k]] followed by its slice [s[k:]]. *)
Lemma substring_split (s : string) : forall k : nat,
  (k <= String.length s)%nat ->
  String.substring 0 k s +:+ String.substring k (String.length s - k) s = s.
Proof.
  induction s as [|c s IH]; intros [|k] Hk; simpl in *; try reflexivity; try lia.
  - by rewrite substring_all.
  - unfold String.append; fold String.append. rewrite IH by lia. reflexivity.
Qed.

Lemma substring_tail_length (s : string) : forall k : nat,
  (k <= String.length s)%nat ->
  String.length (String.substring k (String.length s - k) s) = (String.length s - k)%nat.
Proof.
  induction s as [|c s IH]; intros [|k] Hk; simpl in *; try reflexivity; try lia.
  - by rewrite substring_all.
  - apply IH. lia.
Qed.

Lemma get_Some_lt (s : string) : forall (j : nat) (c : ascii),
  String.get j s = Some c -> (j < String.length s)%nat.
Proof.
  induction s as [|a s IH]; intros [|j] c Hg; simpl in *; try discriminate; try lia.
  apply IH in Hg. lia.
Qed.

(** Whatever [filepath.Ext] returns is a suffix [path[k:]] of the path. *)
Lemma Ext_loop_suffix (path : string) : forall i : nat,
  exists k : nat, (k <= String.length path)%nat /\
    filepath.Ext_loop path i = String.substring k (String.length path - k) path.
Proof.
  assert (Hempty : exists k : nat, (k <= String.length path)%nat /\
            "" = String.substring k (String.length path - k) path).
  { exists (String.length path). split; [lia|].
    by rewrite Nat.sub_diag, substring_none. }
  induction i as [|j IH]; simpl; [exact Hempty|].
  destruct (String.get j path) as [c|] eqn:Hg; [|exact Hempty].
  destruct (filepath.IsPathSeparator c); [exact Hempty|].
  destruct (Ascii.eqb c "."); [|exact IH].
  exists j. split; [|reflexivity]. apply get_Some_lt in Hg. lia.
Qed.

(** The name computed by [generateUniqueFilename] and the extension make
    up the original file name. *)
Lemma name_ext_split (originalFilename : string) :
  String.substring 0
    (String.length originalFilename - String.length (filepath.Ext originalFilename))
    originalFilename
  +:+ filepath.Ext originalFilename = originalFilename.
Proof.
  unfold filepath.Ext.
  destruct (Ext_loop_suffix originalFilename (String.length originalFilename))
    as (k & Hk & ->).
  rewrite substring_tail_length by exact Hk.
  replace (String.length originalFilename - (String.length originalFilename - k))%nat
    with k by lia.
  by apply substring_split.
Qed.

(** *** [filepath.Ext] of a path with something appended *)

Lemma length_append (p s : string) :
  String.length (p +:+ s) = (String.length p + String.length s)%nat.
Proof.
  induction p as [|a p IH]; [reflexivity|].
  unfold String.append; fold String.append. simpl. by rewrite IH.
Qed.

Lemma append_assoc (a b c : string) : (a +:+ b) +:+ c = a +:+ (b +:+ c).
Proof.
  induction a as [|x a IH]; [reflexivity|].
  unfold String.append; fold String.append. by rewrite IH.
Qed.

Lemma get_app_l (p s : string) : forall j : nat,
  (j < String.length p)%nat -> String.get j (p +:+ s) = String.get j p.
Proof.
  induction p as [|a p IH]; intros [|j] Hj; simpl in *; try lia; try reflexivity.
  unfold String.append; fold String.append. simpl. apply IH. lia.
Qed.

Lemma get_app_r (p s : string) (j : nat) :
  String.get (String.length p + j) (p +:+ s) = String.get j s.
Proof.
  induction p as [|a p IH]; [reflexivity|].
  unfold String.append; fold String.append. simpl. exact IH.
Qed.

Lemma substring_head (s : string) : forall (j : nat) (c : ascii),
  String.get j s = Some c ->
  String.substring j (String.length s - j) s =
  String c (String.substring (S j) (String.length s - S j) s).
Proof.
  induction s as [|a s IH]; intros [|j] c Hg; simpl in *; try discriminate.
  - inversion Hg; subst. by rewrite Nat.sub_0_r.
  - by apply IH.
Qed.

Lemma substring_app_l (p s : string) : forall j : nat,
  (j <= String.length p)%nat ->
  String.substring j (String.length (p +:+ s) - j) (p +:+ s) =
  String.substring j (String.length p - j) p +:+ s.
Proof.
  induction p as [|a p IH]; intros j Hj.
  - simpl in Hj. assert (j = 0)%nat as -> by lia.
    change ("" +:+ s) with s. by rewrite Nat.sub_0_r, substring_all.
  - destruct j as [|j].
    + by rewrite !Nat.sub_0_r, !substring_all.
    + unfold String.append; fold String.append. simpl. apply IH. simpl in Hj. lia.
Qed.

Lemma plain_get (s : string) : forall (j : nat) (c : ascii),
  filepath.plain s = true -> String.get j s = Some c -> filepath.stops c = false.
Proof.
  induction s as [|a s IH]; intros [|j] c Hp Hg; simpl in *; try discriminate.
  - inversion Hg; subst. apply andb_prop in Hp as [Ha _]. by destruct (filepath.stops c).
  - apply andb_prop in Hp as [_ Hs]. by apply (IH j).
Qed.

Lemma plain_app (a b : string) :
  filepath.plain (a +:+ b) = filepath.plain a && filepath.plain b.
Proof.
  induction a as [|x a IH]; [reflexivity|].
  unfold String.append; fold String.append. simpl. by rewrite IH, andb_assoc.
Qed.

(** Over a plain tail the loop runs through to the end of the head. *)
Lemma Ext_loop_tail (p s : string) : filepath.plain s = true ->
  forall i : nat, (i <= String.length s)%nat ->
    filepath.Ext_loop (p +:+ s) (String.length p + i) =
    filepath.Ext_loop (p +:+ s) (String.length p).
Proof.
  intros Hplain. induction i as [|i IH]; intros Hi.
  - by rewrite Nat.add_0_r.
  - rewrite Nat.add_succ_r. simpl. rewrite get_app_r.
    destruct (String.get i s) as [c|] eqn:Hg.
    + pose proof (plain_get s i c Hplain Hg) as Hstop.
      unfold filepath.stops in Hstop. apply orb_false_elim in Hstop as [-> ->].
      apply IH. lia.
    + exfalso. assert (Hnone : String.get i s = None -> (String.length s <= i)%nat).
      { clear. revert i. induction s as [|a s IHs]; intros [|i] Hn; simpl in *;
          try lia; try discriminate. apply IHs in Hn. lia. }
      apply Hnone in Hg. lia.
Qed.

(** Inside the head the loop does what it does on the head alone, with
    the tail appended to an extension it finds. *)
Lemma Ext_loop_head (p s : string) : forall i : nat,
  (i <= String.length p)%nat ->
  filepath.Ext_loop (p +:+ s) i =
  match filepath.Ext_loop p i with
  | EmptyString => EmptyString
  | String c e => String c e +:+ s
  end.
Proof.
  induction i as [|j IH]; intros Hi; simpl; [reflexivity|].
  rewrite get_app_l by lia.
  destruct (String.get j p) as [c|] eqn:Hg; [|reflexivity].
  destruct (filepath.IsPathSeparator c); [reflexivity|].
  destruct (Ascii.eqb c "."); [|apply IH; lia].
  rewrite substring_app_l by lia.
  by rewrite (substring_head p j c Hg).
Qed.

Lemma Ext_app_plain (p s : string) : filepath.plain s = true ->
  filepath.Ext (p +:+ s) =
  match filepath.Ext p with
  | EmptyString => EmptyString
  | String c e => String c e +:+ s
  end.
Proof.
  intros Hplain. unfold filepath.Ext.
  rewrite length_append, (Ext_loop_tail p s Hplain) by lia.
  by apply Ext_loop_head.
Qed.

(** An extension is empty or a dot followed by a plain string. *)
Lemma Ext_loop_shape (path : string) : forall i : nat,
  filepath.plain (String.substring i (String.length path - i) path) = true ->
  filepath.Ext_loop path i = "" \/
  exists r : string, filepath.Ext_loop path i = String "." r /\ filepath.plain r = true.
Proof.
  induction i as [|j IH]; intros Hplain; simpl; [by left|].
  destruct (String.get j path) as [c|] eqn:Hg; [|by left].
  destruct (filepath.IsPathSeparator c) eqn:Hsep; [by left|].
  rewrite (substring_head path j c Hg) in IH.
  destruct (Ascii.eqb_spec c ".") as [->|Hne].
  - right. rewrite (substring_head path j _ Hg). eauto.
  - apply IH. simpl. rewrite Hplain. unfold filepath.stops. rewrite Hsep. simpl.
    by destruct (Ascii.eqb_spec c ".").
Qed.

Lemma Ext_shape (path : string) :
  filepath.Ext path = "" \/
  exists r : string, filepath.Ext path = String "." r /\ filepath.plain r = true.
Proof.
  apply Ext_loop_shape. by rewrite Nat.sub_diag, substring_none.
Qed.

Lemma Ext_dot (q r : string) : filepath.plain r = true ->
  filepath.Ext (q +:+ String "." r) = String "." r.
Proof.
  intros Hplain.
  assert (Hsplit : q +:+ String "." r = (q +:+ ".") +:+ r).
  { by rewrite append_assoc. }
  assert (Hdot : filepath.Ext (q +:+ ".") = ".").
  { assert (Hlen : String.length (q +:+ ".") = S (String.length q)).
    { rewrite length_append. simpl. lia. }
    pose proof (get_app_r q "." 0) as Hg. rewrite Nat.add_0_r in Hg.
    pose proof (substring_app_l q "." (String.length q) (Nat.le_refl _)) as Hs.
    rewrite Hlen, Nat.sub_diag, substring_none in Hs.
    unfold filepath.Ext. rewrite Hlen. simpl. rewrite Hg. simpl. rewrite Hlen.
    exact Hs. }
  rewrite Hsplit, (Ext_app_plain _ r Hplain), Hdot. reflexivity.
Qed.

(** *** Decimal and hexadecimal digits are plain *)

Lemma plain_pretty_N_go (x : N) : forall s : string,
  filepath.plain s = true -> filepath.plain (pretty_N_go x s) = true.
Proof.
  induction (N.lt_wf_0 x) as [x _ IH]. intros s Hs.
  destruct (decide (x = 0)%N) as [->|Hx]; [by rewrite pretty_N_go_0|].
  rewrite pretty_N_go_step by lia. apply IH.
  - apply N.div_lt; lia.
  - simpl. rewrite Hs. unfold pretty_N_char. by repeat case_match.
Qed.

Lemma plain_d (n : Z) : filepath.plain (fmt.d n) = true.
Proof.
  unfold fmt.d, pretty, pretty_Z.
  assert (Hpos : forall q : positive, filepath.plain (pretty q) = true).
  { intros q. unfold pretty, pretty_positive, pretty, pretty_N.
    destruct (decide (N.pos q = 0%N)); [reflexivity|]. by apply plain_pretty_N_go. }
  destruct n as [|q|q]; [reflexivity | apply Hpos |].
  rewrite plain_app. by rewrite Hpos.
Qed.

Lemma plain_Hex (id : primitive.ObjectID) : filepath.plain (primitive.Hex id) = true.
Proof.
  induction id as [|c id IH]; [reflexivity|].
  simpl. rewrite IH.
  by destruct c as [[] [] [] [] [] [] [] []].
Qed.

(** ** Unique file names (C9) *)

Lemma append_nil_r (a : string) : a +:+ "" = a.
Proof.
  induction a as [|x a IH]; [reflexivity|].
  unfold String.append; fold String.append. by rewrite IH.
Qed.

(** The extension survives the renaming: [filepath.Ext] of the generated
    name is [filepath.Ext] of the original one. *)
Lemma Ext_generated (name : string) (timestamp : Z) (oid : primitive.ObjectID)
  (originalFilename : string) :
  name +:+ filepath.Ext originalFilename = originalFilename ->
  filepath.Ext (name +:+ "_" +:+ fmt.d timestamp +:+ "_" +:+ primitive.Hex oid
                +:+ filepath.Ext originalFilename)
  = filepath.Ext originalFilename.
Proof.
  intros Hsplit.
  destruct (Ext_shape originalFilename) as [He | (r & He & Hr)].
  - rewrite He in *. rewrite append_nil_r in Hsplit. subst name.
    rewrite Ext_app_plain, He; [reflexivity|].
    rewrite !plain_app, plain_d, plain_Hex. reflexivity.
  - rewrite He.
    replace (name +:+ "_" +:+ fmt.d timestamp +:+ "_" +:+ primitive.Hex oid +:+ String "." r)
      with ((name +:+ "_" +:+ fmt.d timestamp +:+ "_" +:+ primitive.Hex oid) +:+ String "." r)
      by (by rewrite !append_assoc).
    by apply Ext_dot.
Qed.

(** C9.  For every original file name, in every world and on every
    platform, the name generated by the middleware (and by the handler's
    copy of the function) is the original name without its extension,
    an underscore, the Unix time read at generation, an underscore, the
    hexadecimal form of a freshly generated ObjectID, and the original
    extension; the original name is that base name followed by that
    extension, the extension is a suffix of the generated name, and it
    is the extension [filepath.Ext] finds in the generated name. *)
Theorem C9_unique_filename_shape `{env.Platform} (w : env.World) (originalFilename : string) :
  exists name : string,
    originalFilename = name +:+ filepath.Ext originalFilename /\
    (middleware.generateUniqueFilename w originalFilename).1 =
      name +:+ "_" +:+ fmt.d (env.Unix (env.Now (env.reads w))) +:+ "_"
           +:+ primitive.Hex (env.NewObjectID (S (env.reads w)))
           +:+ filepath.Ext originalFilename /\
    (exists stem : string,
       (middleware.generateUniqueFilename w originalFilename).1 =
         stem +:+ filepath.Ext originalFilename) /\
    filepath.Ext (middleware.generateUniqueFilename w originalFilename).1 =
      filepath.Ext originalFilename /\
    handlers.generateUniqueFilename w originalFilename =
      middleware.generateUniqueFilename w originalFilename.
Proof.
  eexists. split; [symmetry; apply name_ext_split|].
  split; [reflexivity|]. split; [|split; [|reflexivity]].
  - simpl. eexists. rewrite <- !append_assoc. reflexivity.
  - simpl. apply Ext_generated, name_ext_split.
Qed.

Example generateUniqueFilename_sample :
  (@middleware.generateUniqueFilename sample.platform sample.world0 "holiday.photo.JPG").1
  = "holiday.photo_1700000000_4f626a65637449442d30010a.JPG".
Proof. vm_compute. reflexivity. Qed.

Example Ext_samples :
  filepath.Ext "a/b.c/readme" = "" /\ filepath.Ext "archive.tar.gz" = ".gz" /\
  filepath.Ext ".profile" = ".profile" /\ filepath.Ext "dir/" = "".
Proof. vm_compute. auto. Qed.

(** ** Upload validation (C4, C5) *)

Section UploadProperties.
Context `{env.Platform}.

(** A file is accepted exactly when it passes the three checks, in the
    order size, extension, content type, and can be opened and read. *)
Lemma validateFile_None_iff (fileHeader : multipart.FileHeader) (config : FileUploadConfig) :
  validateFile fileHeader config = None <->
  multipart.Size fileHeader <= MaxFileSize config /\
  contains (AllowedExts config)
    (env.ToLower (filepath.Ext (multipart.Filename fileHeader))) = true /\
  exists file : string,
    multipart.Open fileHeader = Some file /\ file <> "" /\
    contains (AllowedTypes config) (sniffed file) = true.
Proof.
  unfold validateFile, sniffed.
  destruct (Z.gtb_spec (multipart.Size fileHeader) (MaxFileSize config)) as [Hgt|Hle].
  { split; [discriminate | intros (? & _); lia]. }
  destruct (contains (AllowedExts config) _) eqn:Hext; simpl.
  2:{ split; [discriminate | intros (_ & ? & _); discriminate]. }
  destruct (multipart.Open fileHeader) as [file|] eqn:Hopen.
  2:{ split; [discriminate | intros (_ & _ & f & ? & _); discriminate]. }
  unfold multipart.Read. simpl.
  destruct file as [|a file]; simpl.
  { split; [discriminate | intros (_ & _ & f & Hf & Hne & _)].
    inversion Hf; subst. done. }
  destruct (contains (AllowedTypes config) _) eqn:Htype; simpl.
  - split; [|done]. intros _. split; [lia|]. split; [done|].
    eexists. split; [reflexivity|]. split; [done|]. exact Htype.
  - split; [discriminate|]. intros (_ & _ & f & Hf & _ & Hc).
    inversion Hf; subst. simpl in Hc. congruence.
Qed.

(** C5.  A file one byte larger than [MaxFileSize] is rejected with the
    size error, whatever its name and content; a file of exactly
    [MaxFileSize] bytes is never given the size error, and it is
    accepted exactly when its extension is allowed, it can be opened and
    read, and its sniffed content type is allowed. *)
Theorem C5_size_limit_is_inclusive (fileHeader : multipart.FileHeader)
  (config : FileUploadConfig) :
  (multipart.Size fileHeader = MaxFileSize config + 1 ->
   validateFile fileHeader config = Some (sizeError config)) /\
  (multipart.Size fileHeader = MaxFileSize config ->
   validateFile fileHeader config <> Some (sizeError config) /\
   (validateFile fileHeader config = None <->
    contains (AllowedExts config)
      (env.ToLower (filepath.Ext (multipart.Filename fileHeader))) = true /\
    exists file : string,
      multipart.Open fileHeader = Some file /\ file <> "" /\
      contains (AllowedTypes config) (sniffed file) = true)).
Proof.
  split.
  - intros Hsize. unfold validateFile, sizeError.
    destruct (Z.gtb_spec (multipart.Size fileHeader) (MaxFileSize config)); [done | lia].
  - intros Hsize. split.
    + unfold validateFile, sizeError.
      destruct (Z.gtb_spec (multipart.Size fileHeader) (MaxFileSize config)); [lia|].
      destruct (negb (contains (AllowedExts config) _)); [discriminate|].
      destruct (multipart.Open fileHeader) as [file|]; [|discriminate].
      destruct (multipart.Read file 512) as [buffer readOK].
      destruct (negb readOK); [discriminate|].
      destruct (negb (contains (AllowedTypes config) _)); discriminate.
    + rewrite validateFile_None_iff. split.
      * intros (_ & Hrest). exact Hrest.
      * intros Hrest. split; [lia | exact Hrest].
Qed.

(** C4.  The sniffed type of a part is computed from a 512-byte buffer
    whose front is the first (at most 512) bytes of the part, and from
    nothing else.  Whenever that type is not among the allowed types the
    file is rejected; when the size and extension checks pass and the
    part is not empty, it is rejected with the content-type error, so
    the verdict past the extension check is the same for two parts with
    the same bytes, whatever their names and declared types. *)
Theorem C4_content_type_is_sniffed_from_bytes (fileHeader : multipart.FileHeader)
  (config : FileUploadConfig) (file : string) :
  multipart.Open fileHeader = Some file ->
  contains (AllowedTypes config) (sniffed file) = false ->
  (multipart.Read file 512).1 =
    String.substring 0 (Nat.min 512 (String.length file)) file
    +:+ multipart.zeros (512 - Nat.min 512 (String.length file)) /\
  validateFile fileHeader config <> None /\
  (multipart.Size fileHeader <= MaxFileSize config ->
   contains (AllowedExts config)
     (env.ToLower (filepath.Ext (multipart.Filename fileHeader))) = true ->
   file <> "" ->
   validateFile fileHeader config = Some (typeError config (sniffed file)) /\
   forall other : multipart.FileHeader,
     multipart.Open other = Some file ->
     multipart.Size other <= MaxFileSize config ->
     contains (AllowedExts config)
       (env.ToLower (filepath.Ext (multipart.Filename other))) = true ->
     validateFile other config = validateFile fileHeader config).
Proof.
  intros Hopen Htype.
  assert (Hrej : forall fh : multipart.FileHeader,
            multipart.Open fh = Some file ->
            multipart.Size fh <= MaxFileSize config ->
            contains (AllowedExts config)
              (env.ToLower (filepath.Ext (multipart.Filename fh))) = true ->
            file <> "" ->
            validateFile fh config = Some (typeError config (sniffed file))).
  { intros fh Ho Hsize Hext Hne. unfold validateFile, typeError.
    destruct (Z.gtb_spec (multipart.Size fh) (MaxFileSize config)); [lia|].
    rewrite Hext, Ho. cbn [negb]. unfold sniffed in *.
    destruct (multipart.Read file 512) as [buffer readOK] eqn:HR.
    assert (readOK = true) as ->.
    { unfold multipart.Read in HR. inversion HR. destruct file; [done | reflexivity]. }
    cbn [negb fst] in *. by rewrite Htype. }
  split; [reflexivity|]. split.
  - intros Hnone. apply validateFile_None_iff in Hnone as (_ & _ & f & Hf & _ & Hc).
    rewrite Hopen in Hf. inversion Hf; subst. congruence.
  - intros Hsize Hext Hne. split; [by apply Hrej|].
    intros other Ho Hs He. rewrite !Hrej by assumption. reflexivity.
Qed.

End UploadProperties.

(** The executable named [setup.jpg] passes the extension check of the
    image configuration and is rejected by the content-type check. *)
Lemma C4_content_type_is_sniffed_from_bytes_witness :
  contains (AllowedExts ImageUploadConfig)
    (strs.asciiToLower (filepath.Ext (multipart.Filename sample.executable))) = true /\
  @validateFile sample.platform sample.executable ImageUploadConfig =
    Some "file type 'application/octet-stream' not allowed. Allowed types: [image/jpeg image/png image/gif image/webp]".
Proof.
  split; [reflexivity|].
  destruct (@C4_content_type_is_sniffed_from_bytes sample.platform
              sample.executable ImageUploadConfig sample.elf eq_refl eq_refl)
    as (_ & _ & Hrej).
  destruct Hrej as [Hrej _].
  - discriminate.
  - reflexivity.
  - discriminate.
  - exact Hrej.
Defined.

(** With a limit of 8 bytes, the 9-byte picture is rejected for its size
    and the 8-byte picture is accepted. *)
Lemma C5_size_limit_is_inclusive_witness :
  @validateFile sample.platform sample.bigger sample.tiny =
    Some "file size exceeds maximum allowed size of 8 bytes" /\
  @validateFile sample.platform sample.picture sample.tiny = None.
Proof.
  split.
  - apply (@C5_size_limit_is_inclusive sample.platform sample.bigger sample.tiny).
    reflexivity.
  - apply (@C5_size_limit_is_inclusive sample.platform sample.picture sample.tiny).
    + reflexivity.
    + split; [reflexivity|]. exists (sample.jpegSig +:+ "12345").
      split; [reflexivity|]. split; [discriminate | reflexivity].
Defined.

(** ** The upload middleware (C2, C10) *)

Section MiddlewareProperties.
Context `{env.Platform}.

Lemma validateFiles_None_iff (files : list multipart.FileHeader) (config : FileUploadConfig) :
  validateFiles files config = None <->
  Forall (fun fh => validateFile fh config = None) files.
Proof.
  induction files as [|fh rest IH]; simpl.
  - split; [constructor | reflexivity].
  - destruct (validateFile fh config) eqn:E.
    + split; [discriminate|]. intros HF. inversion HF; subst. congruence.
    + rewrite IH. split; [by constructor|]. intros HF. by inversion HF.
Qed.

(** What the saving loop answers: on success the paths given plus one
    normalised path per file, each under the upload directory; on
    failure a 500 with one of two tags. *)
Lemma saveFiles_result (config : FileUploadConfig) (files : list multipart.FileHeader) :
  forall (w : env.World) (savedPaths : list string),
  match (saveFiles files config w savedPaths).1 with
  | inr paths =>
      exists new : list string,
        paths = savedPaths ++ new /\ length new = length files /\
        Forall (fun p => exists filename : string,
                  p = env.ToSlash (env.Join (UploadPath config) filename)) new
  | inl (code, obj) =>
      code = http.StatusInternalServerError /\ Success obj = false /\
      (Error obj = Some "DIRECTORY_CREATION_FAILED" \/ Error obj = Some "FILE_SAVE_FAILED")
  end.
Proof.
  induction files as [|fh rest IH]; intros w savedPaths; simpl.
  - exists []. rewrite app_nil_r. auto.
  - destruct (env.mkdirSucceeds w (UploadPath config)); simpl; [|auto].
    match goal with
    | |- context [env.saveSucceeds ?w' fh ?p] => destruct (env.saveSucceeds w' fh p)
    end; simpl; [|auto].
    match goal with
    | |- context [saveFiles rest config ?w' ?acc] => specialize (IH w' acc)
    end.
    destruct (saveFiles rest config _ _).1 as [[code obj]|paths]; [exact IH|].
    destruct IH as (new & -> & Hlen & HF).
    eexists (_ :: new). rewrite <- app_assoc. simpl.
    split; [reflexivity|]. split; [by rewrite Hlen|].
    constructor; [eauto | exact HF].
Qed.

(** C2.  For a request whose form parses: if any file under the
    configured field fails any check of [validateFile], the middleware
    answers 400 and leaves the world as it found it (no directory is
    created, no file is saved, not even the files that passed);
    conversely, whenever the middleware changes the world at all, every
    file of the request has passed every check. *)
Theorem C2_validation_precedes_persistence (config : FileUploadConfig) (w : env.World)
  (c : Context) (form : multipart.Form) :
  gin.MultipartForm c = Some form ->
  ((exists fh : multipart.FileHeader,
      fh ∈ default [] (multipart.File form !! FieldName config) /\
      validateFile fh config <> None) ->
   (FileUploadMiddleware config w c).2 = w /\
   exists obj : models.APIResponse,
     (FileUploadMiddleware config w c).1 = gin.JSON http.StatusBadRequest obj) /\
  ((FileUploadMiddleware config w c).2 <> w ->
   Forall (fun fh => validateFile fh config = None)
          (default [] (multipart.File form !! FieldName config))).
Proof.
  intros Hform. unfold FileUploadMiddleware.
  assert (Hparse : http.ParseMultipartForm (gin.Request c) = true).
  { unfold http.ParseMultipartForm. unfold gin.MultipartForm in Hform. by rewrite Hform. }
  rewrite Hparse, Hform. cbn [negb].
  set (files := default [] (multipart.File form !! FieldName config)).
  destruct (Required config && (Z.of_nat (length files) =? 0)); cbn [fst snd].
  { split; [eauto | done]. }
  destruct (Z.of_nat (length files) >? MaxFiles config); cbn [fst snd].
  { split; [eauto | done]. }
  destruct (validateFiles files config) as [err|] eqn:Hval; cbn [fst snd].
  { split; [eauto | done]. }
  apply validateFiles_None_iff in Hval. split; [|auto].
  intros (fh & Hin & Hbad). exfalso. apply Hbad.
  rewrite Forall_forall in Hval. by apply Hval.
Qed.

(** C10.  Whenever the middleware passes a request on, the value it has
    stored under [uploadedFiles] is a [[]string] holding one normalised
    path under the upload directory per uploaded file; the handler's
    assertion of that value to [[]*multipart.FileHeader] fails, so
    [UploadFile] panics on the context the middleware hands it. *)
Theorem C10_handler_assertion_fails (config : FileUploadConfig) (w w' : env.World)
  (c c' : Context) :
  FileUploadMiddleware config w c = (gin.Next c', w') ->
  (exists (savedPaths : list string) (form : multipart.Form),
     gin.Get c' "uploadedFiles" = Some (VStrings savedPaths) /\
     gin.MultipartForm c = Some form /\
     length savedPaths = length (default [] (multipart.File form !! FieldName config)) /\
     Forall (fun p => exists filename : string,
               p = env.ToSlash (env.Join (UploadPath config) filename)) savedPaths) /\
  (forall w'' : env.World, handlers.UploadFile w'' c' = (gin.Panic, w'')).
Proof.
  unfold FileUploadMiddleware.
  destruct (negb (http.ParseMultipartForm (gin.Request c))); [discriminate|].
  destruct (gin.MultipartForm c) as [form|]; [|discriminate].
  set (files := default [] (multipart.File form !! FieldName config)).
  destruct (Required config && (Z.of_nat (length files) =? 0)); [discriminate|].
  destruct (Z.of_nat (length files) >? MaxFiles config); [discriminate|].
  destruct (validateFiles files config); [discriminate|].
  pose proof (saveFiles_result config files w []) as Hsave.
  destruct (saveFiles files config w []) as [[[code obj]|paths] w1]; [discriminate|].
  simpl in Hsave. destruct Hsave as (new & -> & Hlen & HF).
  intros Heq. inversion Heq; subst c' w'; clear Heq.
  assert (Hget : gin.Get
            (gin.Set_ (gin.Set_ c "uploadedFiles" (VStrings new))
                      "uploadConfig" (VFileUploadConfig config))
            "uploadedFiles" = Some (VStrings new)).
  { unfold gin.Get, gin.Set_. simpl.
    rewrite lookup_insert_ne by discriminate. apply lookup_insert_eq. }
  split.
  - exists new, form. auto.
  - intros w''. unfold handlers.UploadFile. by rewrite Hget.
Qed.

End MiddlewareProperties.

(** Two files under the image configuration for up to five files: the
    picture passes every check, the executable does not; the request is
    answered 400 and nothing is written. *)
Lemma C2_validation_precedes_persistence_witness :
  @validateFile sample.platform sample.picture (sample.tiny) = None /\
  (@FileUploadMiddleware sample.platform sample.tiny sample.world0
     (sample.upload "images" [sample.picture; sample.executable])).2 = sample.world0.
Proof.
  split; [reflexivity|].
  eapply (@C2_validation_precedes_persistence sample.platform sample.tiny sample.world0
            (sample.upload "images" [sample.picture; sample.executable])).
  - reflexivity.
  - exists sample.executable. split.
    + vm_compute. apply list_elem_of_further, list_elem_of_here.
    + discriminate.
Defined.

(** The same upload without the executable is passed on, the picture is
    saved once, and the handler panics on the resulting context. *)
Lemma C10_handler_assertion_fails_witness :
  exists (c' : Context) (w' w'' : env.World),
    @FileUploadMiddleware sample.platform sample.tiny sample.world0
      (sample.upload "images" [sample.picture]) = (gin.Next c', w') /\
    env.saves w' =
      [(sample.picture,
        "./uploads/images/cat_1700000000_4f626a65637449442d30010a.JPG")] /\
    gin.Get c' "uploadedFiles" =
      Some (VStrings ["./uploads/images/cat_1700000000_4f626a65637449442d30010a.JPG"]) /\
    @handlers.UploadFile sample.platform w' c' = (gin.Panic, w'').
Proof.
  eexists. eexists. eexists.
  split; [vm_compute; reflexivity|].
  split; [vm_compute; reflexivity|].
  split; [vm_compute; reflexivity|].
  refine (proj2 (@C10_handler_assertion_fails sample.platform sample.tiny sample.world0 _
                   (sample.upload "images" [sample.picture]) _ _) _).
  vm_compute. reflexivity.
Defined.

(** ** Authentication (C3) and the shape of rejections (C7) *)

Lemma HasPrefix_app (p s : string) : strs.HasPrefix (p +:+ s) p = true.
Proof.
  unfold strs.HasPrefix. induction p as [|a p IH]; simpl.
  - by destruct s.
  - unfold String.append; fold String.append.
    destruct (ascii_dec a a); [exact IH | done].
Qed.

Lemma TrimPrefix_app (p s : string) : strs.TrimPrefix (p +:+ s) p = s.
Proof.
  unfold strs.TrimPrefix. rewrite HasPrefix_app, length_append.
  replace (String.length p + String.length s - String.length p)%nat
    with (String.length s) by lia.
  induction p as [|a p IH]; simpl.
  - apply substring_all.
  - unfold String.append; fold String.append. exact IH.
Qed.

Lemma HasPrefix_inv (p : string) : forall h : string,
  strs.HasPrefix h p = true -> h = p +:+ strs.TrimPrefix h p.
Proof.
  assert (Hex : forall h, String.prefix p h = true -> exists t, h = p +:+ t).
  { induction p as [|a p IH]; intros h Hp.
    - exists h. reflexivity.
    - destruct h as [|b h]; simpl in Hp; [discriminate|].
      destruct (ascii_dec a b) as [->|]; [|discriminate].
      destruct (IH h Hp) as [t ->]. exists t. reflexivity. }
  intros h Hp. destruct (Hex h Hp) as [t ->]. by rewrite TrimPrefix_app.
Qed.

Section AuthProperties.
Context {E : Type} `{utils.TokenCodec E}.

(** C3.  A request without an Authorization header reads as the empty
    header and is answered 401; a header that is not the exact bytes
    [Bearer ] followed by something is answered 401; for a header
    [Bearer ] followed by [token], the token is verified against the
    configured secret: every verification error, whatever its kind, is
    answered by one and the same 401 body, and success passes the request
    on with the identity, the e-mail address and the role of the claims
    in the context. *)
Theorem C3_bearer_authentication (cfg : config.Config) (c : Context) :
  (http.Header (gin.Request c) !! "Authorization" = None ->
   gin.GetHeader c "Authorization" = "") /\
  (gin.GetHeader c "Authorization" = "" ->
   AuthMidddleware cfg c =
     rejection http.StatusUnauthorized "Authorization header is required" None) /\
  (gin.GetHeader c "Authorization" <> "" ->
   (forall token : string, gin.GetHeader c "Authorization" <> "Bearer " +:+ token) ->
   AuthMidddleware cfg c =
     rejection http.StatusUnauthorized "Invalid authorization heade" None) /\
  (forall token : string,
   gin.GetHeader c "Authorization" = "Bearer " +:+ token ->
   match utils.ValidateToken token (config.Secret (config.JWT cfg)) with
   | inr _ =>
       AuthMidddleware cfg c =
         rejection http.StatusUnauthorized "Invalid or expired token" None
   | inl claims =>
       exists c' : Context,
         AuthMidddleware cfg c = gin.Next c' /\
         gin.Get c' "user_id" = Some (VObjectID (utils.UserID claims)) /\
         gin.Get c' "user_email" = Some (VString (utils.Email claims)) /\
         gin.Get c' "user_role" = Some (VString (utils.Role claims))
   end).
Proof.
  unfold AuthMidddleware, rejection. repeat split.
  - intros Hnone. unfold gin.GetHeader, http.Get. by rewrite Hnone.
  - intros ->. reflexivity.
  - intros Hne Hnb.
    destruct (String.eqb_spec (gin.GetHeader c "Authorization") ""); [done|].
    destruct (strs.HasPrefix (gin.GetHeader c "Authorization") "Bearer ") eqn:Hp;
      [|reflexivity].
    apply HasPrefix_inv in Hp. by apply Hnb in Hp.
  - intros token ->.
    change (String.eqb ("Bearer " +:+ token) "") with false.
    rewrite HasPrefix_app, TrimPrefix_app. cbn [negb].
    destruct (utils.ValidateToken token (config.Secret (config.JWT cfg))) as [claims|e];
      [|reflexivity].
    eexists. split; [reflexivity|].
    unfold gin.Get, gin.Set_. simpl.
    rewrite !lookup_insert_eq.
    rewrite lookup_insert_ne by discriminate. rewrite lookup_insert_ne by discriminate.
    rewrite lookup_insert_eq. rewrite lookup_insert_ne by discriminate.
    rewrite lookup_insert_eq. auto.
Qed.

End AuthProperties.

(** Requests with no header, with a lower-case scheme, and with an
    expired, a forged and a garbled token all get a 401, the last three
    the same one; the valid token passes with the role of its claims. *)
Lemma C3_bearer_authentication_witness :
  @AuthMidddleware _ sample.codec sample.cfg (sample.client "10.0.0.7") =
    rejection 401 "Authorization header is required" None /\
  @AuthMidddleware _ sample.codec sample.cfg (sample.authorized "bearer valid") =
    rejection 401 "Invalid authorization heade" None /\
  @AuthMidddleware _ sample.codec sample.cfg (sample.authorized "Bearer expired") =
    rejection 401 "Invalid or expired token" None /\
  @AuthMidddleware _ sample.codec sample.cfg (sample.authorized "Bearer forged") =
    rejection 401 "Invalid or expired token" None /\
  @AuthMidddleware _ sample.codec sample.cfg (sample.authorized "Bearer x.y") =
    rejection 401 "Invalid or expired token" None /\
  exists c' : Context,
    @AuthMidddleware _ sample.codec sample.cfg (sample.authorized "Bearer valid") =
      gin.Next c' /\
    gin.Get c' "user_role" = Some (VString "admin").
Proof.
  split.
  { apply (@C3_bearer_authentication _ sample.codec sample.cfg (sample.client "10.0.0.7")).
    reflexivity. }
  split.
  { apply (@C3_bearer_authentication _ sample.codec sample.cfg
             (sample.authorized "bearer valid")).
    - discriminate.
    - intros token Heq. vm_compute in Heq. discriminate. }
  split.
  { exact (proj2 (proj2 (proj2 (@C3_bearer_authentication _ sample.codec sample.cfg
             (sample.authorized "Bearer expired")))) "expired" eq_refl). }
  split.
  { exact (proj2 (proj2 (proj2 (@C3_bearer_authentication _ sample.codec sample.cfg
             (sample.authorized "Bearer forged")))) "forged" eq_refl). }
  split.
  { exact (proj2 (proj2 (proj2 (@C3_bearer_authentication _ sample.codec sample.cfg
             (sample.authorized "Bearer x.y")))) "x.y" eq_refl). }
  destruct (proj2 (proj2 (proj2 (@C3_bearer_authentication _ sample.codec sample.cfg
             (sample.authorized "Bearer valid")))) "valid" eq_refl)
    as (c' & Hnext & _ & _ & Hrole).
  exists c'. split; [exact Hnext | exact Hrole].
Defined.

Ltac bad_request :=
  let Heq := fresh "Heq" in
  intros Heq; inversion Heq; subst; simpl;
  split; [reflexivity|]; left; split; [reflexivity|]; auto.

Section RejectionProperties.
Context {E : Type} `{utils.TokenCodec E} `{env.Platform}.

Lemma AuthMidddleware_rejection (cfg : config.Config) (c : Context)
  (code : Z) (obj : APIResponse) :
  AuthMidddleware cfg c = gin.JSON code obj ->
  code = http.StatusUnauthorized /\ Success obj = false /\ Error obj = None.
Proof.
  unfold AuthMidddleware.
  destruct (String.eqb _ ""); [intros Heq; by inversion Heq|].
  destruct (negb _); [intros Heq; by inversion Heq|].
  destruct (utils.ValidateToken _ _); [discriminate|].
  intros Heq; by inversion Heq.
Qed.

Lemma RequireRole_rejection (roles : list string) (c : Context)
  (code : Z) (obj : APIResponse) :
  RequireRole roles c = gin.JSON code obj ->
  code = http.StatusForbidden /\ Success obj = false /\ Error obj = None.
Proof.
  unfold RequireRole.
  destruct (gin.Get c "user_role") as [[role| | | |]|]; try discriminate.
  - destruct (roleAmong role roles); [discriminate|]. intros Heq; by inversion Heq.
  - intros Heq; by inversion Heq.
Qed.

Lemma RateLimitHandler_rejection (rl : RateLimiter) (now : Q) (c : Context)
  (code : Z) (obj : APIResponse) :
  (RateLimitHandler rl now c).2 = gin.JSON code obj ->
  code = http.StatusTooManyRequests /\ Success obj = false /\
  Error obj = Some "RATE_LIMIT_EXCEEDED".
Proof.
  unfold RateLimitHandler.
  destruct (GetLimiter rl (gin.ClientIP c)) as [lim rl1].
  destruct (rate.Allow lim now) as [lim' ok].
  destruct ok; simpl; [discriminate|]. intros Heq; by inversion Heq.
Qed.

Lemma FileUploadMiddleware_rejection (config : FileUploadConfig) (w : env.World)
  (c : Context) (code : Z) (obj : APIResponse) :
  (FileUploadMiddleware config w c).1 = gin.JSON code obj ->
  Success obj = false /\
  ((code = http.StatusBadRequest /\
    (Error obj = Some "INVALID_FORM_DATA" \/ Error obj = Some "FILE_REQUIRED" \/
     Error obj = Some "TOO_MANY_FILES" \/
     (Error obj = Some "FILE_VALIDATION_FAILED" /\
      exists form : multipart.Form,
        gin.MultipartForm c = Some form /\
        validateFiles (default [] (multipart.File form !! FieldName config)) config
          = Some (Message obj)))) \/
   (code = http.StatusInternalServerError /\
    (Error obj = Some "DIRECTORY_CREATION_FAILED" \/ Error obj = Some "FILE_SAVE_FAILED"))).
Proof.
  unfold FileUploadMiddleware.
  destruct (negb _); [bad_request|].
  destruct (gin.MultipartForm c) as [form|]; [|bad_request].
  set (files := default [] (multipart.File form !! FieldName config)).
  destruct (Required config && _); [bad_request|].
  destruct (Z.of_nat (length files) >? MaxFiles config); [bad_request|].
  destruct (validateFiles files config) as [err|] eqn:Hval.
  { intros Heq; inversion Heq; simpl. split; [done|]. left. split; [done|].
    right. right. right. split; [done|]. exists form. auto. }
  pose proof (saveFiles_result config files w []) as Hsave.
  destruct (saveFiles files config w []) as [[[code' obj']|paths] w1];
    simpl in *; [|discriminate].
  intros Heq; inversion Heq; subst. destruct Hsave as (-> & Hs & He). auto.
Qed.

(** C7, as amended.  Every rejection by a gatekeeper stage is a JSON
    body with [success] false and a message, with status 401 from
    authentication (missing header, bad scheme, token not verified), 403
    from role authorization, 429 from the rate limiter, and 400 from the
    upload middleware when the form or a file fails validation (500 when
    storing fails).  The rate limiter and the upload middleware put a
    machine-readable tag in [error]; authentication and role
    authorization leave [error] empty. *)
Theorem C7_rejections_by_stage (code : Z) (obj : APIResponse) :
  (forall (cfg : config.Config) (c : Context),
     AuthMidddleware cfg c = gin.JSON code obj ->
     code = 401 /\ Success obj = false /\ Error obj = None) /\
  (forall (roles : list string) (c : Context),
     RequireRole roles c = gin.JSON code obj ->
     code = 403 /\ Success obj = false /\ Error obj = None) /\
  (forall (rl : RateLimiter) (now : Q) (c : Context),
     (RateLimitHandler rl now c).2 = gin.JSON code obj ->
     code = 429 /\ Success obj = false /\ Error obj = Some "RATE_LIMIT_EXCEEDED") /\
  (forall (config : FileUploadConfig) (w : env.World) (c : Context),
     (FileUploadMiddleware config w c).1 = gin.JSON code obj ->
     Success obj = false /\
     ((code = 400 /\
       (Error obj = Some "INVALID_FORM_DATA" \/ Error obj = Some "FILE_REQUIRED" \/
        Error obj = Some "TOO_MANY_FILES" \/
        (Error obj = Some "FILE_VALIDATION_FAILED" /\
         exists form : multipart.Form,
           gin.MultipartForm c = Some form /\
           validateFiles (default [] (multipart.File form !! FieldName config)) config
             = Some (Message obj)))) \/
      (code = 500 /\
       (Error obj = Some "DIRECTORY_CREATION_FAILED" \/
        Error obj = Some "FILE_SAVE_FAILED")))).
Proof.
  split; [intros cfg c; apply AuthMidddleware_rejection|].
  split; [intros roles c; apply RequireRole_rejection|].
  split; [intros rl now c; apply RateLimitHandler_rejection|].
  intros config w c. apply FileUploadMiddleware_rejection.
Qed.

End RejectionProperties.

(** A request without a header is answered 401 with an empty [error],
    a request by a plain user to an admin route 403 with an empty
    [error], the third request of a burst 429 with its tag, and the
    upload with the executable 400 with its tag. *)
Lemma C7_rejections_by_stage_witness :
  (exists obj : APIResponse,
     @AuthMidddleware _ sample.codec sample.cfg (sample.client "10.0.0.7") = gin.JSON 401 obj /\
     Success obj = false /\ Error obj = None) /\
  (exists obj : APIResponse,
     RequireRole ["admin"]
       (gin.Set_ (sample.client "10.0.0.7") "user_role" (VString "user")) = gin.JSON 403 obj /\
     Success obj = false /\ Error obj = None) /\
  (exists obj : APIResponse,
     (RateLimitHandler (serve StrictRateLimit (sample.client "10.0.0.7") [0; 0]%Q).1 0
        (sample.client "10.0.0.7")).2 = gin.JSON 429 obj /\
     Success obj = false /\ Error obj = Some "RATE_LIMIT_EXCEEDED") /\
  (exists obj : APIResponse,
     (@FileUploadMiddleware sample.platform sample.tiny sample.world0
        (sample.upload "images" [sample.picture; sample.executable])).1 = gin.JSON 400 obj /\
     Success obj = false).
Proof.
  split.
  { eexists. split; [reflexivity|].
    exact (proj2 (proj1 (@C7_rejections_by_stage _ sample.codec sample.platform 401 _)
                   sample.cfg (sample.client "10.0.0.7") eq_refl)). }
  split.
  { eexists. split; [reflexivity|].
    exact (proj2 (proj1 (proj2 (@C7_rejections_by_stage _ sample.codec sample.platform 403 _))
                   ["admin"]
                   (gin.Set_ (sample.client "10.0.0.7") "user_role" (VString "user"))
                   eq_refl)). }
  split.
  { eexists. split; [vm_compute; reflexivity|].
    refine (proj2 (proj1 (proj2 (proj2
              (@C7_rejections_by_stage _ sample.codec sample.platform 429 _)))
              (serve StrictRateLimit (sample.client "10.0.0.7") [0; 0]%Q).1 0%Q
              (sample.client "10.0.0.7") _)).
    vm_compute. reflexivity. }
  eexists. split; [vm_compute; reflexivity|].
  refine (proj1 (proj2 (proj2 (proj2
            (@C7_rejections_by_stage _ sample.codec sample.platform 400 _)))
            sample.tiny sample.world0
            (sample.upload "images" [sample.picture; sample.executable]) _)).
  vm_compute. reflexivity.
Defined.

(** C7 as stated fails: the 401 of a request without an Authorization
    header and the 403 of a role mismatch carry no error tag at all
    (neither Unauthorized nor Forbidden nor any other). *)
Lemma C7_counterexample :
  (exists obj : APIResponse,
     @AuthMidddleware _ sample.codec sample.cfg (sample.client "10.0.0.7") = gin.JSON 401 obj /\
     Error obj = None) /\
  (exists obj : APIResponse,
     RequireRole ["admin"]
       (gin.Set_ (sample.client "10.0.0.7") "user_role" (VString "user")) = gin.JSON 403 obj /\
     Error obj = None).
Proof. split; eexists; split; reflexivity. Qed.

(** * Part III: further properties of the middleware *)

Import traces.

(** ** Clients do not interfere (rate_limit.go) *)

(** A request, written out: the bucket of the client is asked once and
    stored under the client's key. *)
Lemma RateLimitHandler_unfold (rl : RateLimiter) (now : Q) (c : Context) :
  RateLimitHandler rl now c =
  (mkRateLimiter
     (<[gin.ClientIP c := (rate.Allow (bucketOf rl (gin.ClientIP c)) now).1]> (limiters rl))
     (rate rl) (burst rl),
   if (rate.Allow (bucketOf rl (gin.ClientIP c)) now).2
   then gin.Next c
   else rejection 429 "Rate limit exceeded. Please try again later."
          (Some "RATE_LIMIT_EXCEEDED")).
Proof.
  unfold RateLimitHandler, bucketOf, GetLimiter.
  destruct (limiters rl !! gin.ClientIP c) as [lim|] eqn:E; simpl.
  - destruct (rate.Allow lim now) as [lim' ok]. simpl. by destruct ok.
  - destruct (rate.Allow (rate.NewLimiter (rate rl) (burst rl)) now) as [lim' ok]. simpl.
    rewrite insert_insert_eq. by destruct ok.
Qed.

Lemma bucketOf_eq (rl : RateLimiter) (key : string) :
  bucketOf rl key =
  match limiters rl !! key with
  | Some lim => lim
  | None => rate.NewLimiter (rate rl) (burst rl)
  end.
Proof. unfold bucketOf, GetLimiter. by destruct (limiters rl !! key). Qed.

Lemma bucketOf_other (rl : RateLimiter) (now : Q) (c : Context) (key : string) :
  gin.ClientIP c <> key ->
  bucketOf (RateLimitHandler rl now c).1 key = bucketOf rl key.
Proof.
  intros Hne. rewrite !bucketOf_eq.
  pose proof (RateLimitHandler_bucket rl now c) as (_ & _ & Hr & Hb).
  rewrite (RateLimitHandler_other rl now c key Hne), Hr, Hb. reflexivity.
Qed.

(** Requests of one client are calls of [Allow] on its bucket; they leave
    the buckets of all other keys, the rate and the burst as they were. *)
Lemma serve_allowSeq (c : Context) (instants : list Q) : forall rl : RateLimiter,
  (serve rl c instants).2 = (allowSeq (bucketOf rl (gin.ClientIP c)) instants).2 /\
  bucketOf (serve rl c instants).1 (gin.ClientIP c) =
    (allowSeq (bucketOf rl (gin.ClientIP c)) instants).1 /\
  (forall key : string, gin.ClientIP c <> key ->
     limiters (serve rl c instants).1 !! key = limiters rl !! key) /\
  rate (serve rl c instants).1 = rate rl /\ burst (serve rl c instants).1 = burst rl.
Proof.
  induction instants as [|now rest IH]; intros rl; simpl; [auto|].
  pose proof (RateLimitHandler_bucket rl now c) as (Hb & Hp & Hr & Hbu). simpl in Hb, Hp.
  pose proof (RateLimitHandler_other rl now c) as Ho.
  destruct (RateLimitHandler rl now c) as [rl1 o]. simpl in Hb, Hp, Hr, Hbu, Ho.
  fold (bucketOf rl (gin.ClientIP c)) in Hb, Hp.
  destruct (rate.Allow (bucketOf rl (gin.ClientIP c)) now) as [lim1 ok]. simpl in *.
  specialize (IH rl1).
  assert (Hg : bucketOf rl1 (gin.ClientIP c) = lim1).
  { rewrite bucketOf_eq. by rewrite Hb. }
  rewrite Hg in IH.
  destruct (serve rl1 c rest) as [rl2 os].
  destruct (allowSeq lim1 rest) as [lim2 oks]. simpl in *.
  destruct IH as (-> & -> & Hother & -> & ->).
  rewrite Hp. repeat split; auto.
  intros key Hne. rewrite Hother by done. by apply Ho.
Qed.

(** X1.  Requests of clients with different keys do not interfere: what
    the second client is answered, for any sequence of its requests, is
    the same whether or not the first client has made requests before,
    and two requests of different clients leave the same registry in
    either order. *)
Theorem X1_clients_do_not_interfere (rl : RateLimiter) (c1 c2 : Context)
  (t1 t2 : Q) (instants1 instants2 : list Q) :
  gin.ClientIP c1 <> gin.ClientIP c2 ->
  (serve (serve rl c1 instants1).1 c2 instants2).2 = (serve rl c2 instants2).2 /\
  (RateLimitHandler (RateLimitHandler rl t1 c1).1 t2 c2).2 = (RateLimitHandler rl t2 c2).2 /\
  (RateLimitHandler (RateLimitHandler rl t1 c1).1 t2 c2).1 =
    (RateLimitHandler (RateLimitHandler rl t2 c2).1 t1 c1).1.
Proof.
  intros Hne.
  assert (Hne' : gin.ClientIP c2 <> gin.ClientIP c1) by congruence.
  split; [|split].
  - destruct (serve_allowSeq c2 instants2 (serve rl c1 instants1).1) as (-> & _).
    destruct (serve_allowSeq c2 instants2 rl) as (-> & _).
    destruct (serve_allowSeq c1 instants1 rl) as (_ & _ & Hother & Hr & Hb).
    rewrite !bucketOf_eq. by rewrite Hother, Hr, Hb.
  - rewrite (RateLimitHandler_unfold (RateLimitHandler rl t1 c1).1 t2 c2).
    rewrite (RateLimitHandler_unfold rl t2 c2). simpl.
    by rewrite bucketOf_other.
  - rewrite (RateLimitHandler_unfold (RateLimitHandler rl t1 c1).1 t2 c2).
    rewrite (RateLimitHandler_unfold (RateLimitHandler rl t2 c2).1 t1 c1).
    rewrite !bucketOf_other by done.
    rewrite (RateLimitHandler_unfold rl t1 c1), (RateLimitHandler_unfold rl t2 c2). simpl.
    f_equal. by apply insert_insert_ne.
Qed.

(** Two clients of the strict limiter: the second is refused its third
    immediate request whether or not the first has used up its burst. *)
Lemma X1_clients_do_not_interfere_witness :
  (serve (serve StrictRateLimit (sample.client "10.0.0.1") [0; 0; 0]%Q).1
         (sample.client "10.0.0.2") [1; 1; 1]%Q).2 = [true; true; false].
Proof.
  destruct (X1_clients_do_not_interfere StrictRateLimit (sample.client "10.0.0.1")
              (sample.client "10.0.0.2") 0 0 [0; 0; 0]%Q [1; 1; 1]%Q) as (Hseq & _).
  - discriminate.
  - rewrite Hseq. vm_compute. reflexivity.
Defined.

(** ** How many requests a client is granted (rate_limit.go) *)






(** ** Sweeps and later requests (rate_limit.go) *)






(** ** Idle clients are evicted (rate_limit.go) *)

(** Along requests at ascending instants a bucket keeps a non-negative
    token count, and remembers the instant of the last request. *)
Lemma allowSeq_state (instants : list Q) : forall (t : Q) (lim : rate.Limiter),
  (0 <= rate.limit lim)%Q -> 0 <= rate.burst lim ->
  (0 <= rate.tokens lim)%Q -> (rate.last lim <= t)%Q -> ascending t instants ->
  rate.limit (allowSeq lim (t :: instants)).1 = rate.limit lim /\
  rate.burst (allowSeq lim (t :: instants)).1 = rate.burst lim /\
  rate.last (allowSeq lim (t :: instants)).1 = lastOf t instants /\
  (0 <= rate.tokens (allowSeq lim (t :: instants)).1)%Q.
Proof.
  induction instants as [|t' rest IH]; intros t lim HR HB Htok Hlast Hasc.
  - assert (HBq : (0 <= inject_Z (rate.burst lim))%Q).
    { change 0%Q with (inject_Z 0). by rewrite <- Zle_Qle. }
    assert (Hgap : (0 <= (t - rate.last lim) * rate.limit lim)%Q).
    { apply Qmult_le_0_compat; lra. }
    simpl. unfold rate.Allow, rate.TokensAt.
    repeat qcase; simpl; repeat split; lra.
  - destruct Hasc as [Hle Hasc].
    change (allowSeq lim (t :: t' :: rest))
      with (let '(lim1, ok) := rate.Allow lim t in
            let '(lim2, oks) := allowSeq lim1 (t' :: rest) in (lim2, ok :: oks)).
    change (lastOf t (t' :: rest)) with (lastOf t' rest).
    pose proof (Allow_fields lim t) as (Hlim & Hbur & Hl).
    assert (Htok1 : (0 <= rate.tokens (rate.Allow lim t).1)%Q).
    { assert (HBq : (0 <= inject_Z (rate.burst lim))%Q).
      { change 0%Q with (inject_Z 0). by rewrite <- Zle_Qle. }
      assert (Hgap : (0 <= (t - rate.last lim) * rate.limit lim)%Q).
      { apply Qmult_le_0_compat; lra. }
      unfold rate.Allow, rate.TokensAt. repeat qcase; simpl; lra. }
    destruct (rate.Allow lim t) as [lim1 ok]. simpl in Hlim, Hbur, Hl, Htok1.
    specialize (IH t' lim1). rewrite Hlim, Hbur, Hl in IH.
    specialize (IH HR HB Htok1 Hle Hasc).
    destruct (allowSeq lim1 (t' :: rest)) as [lim2 oks]. exact IH.
Qed.

(** Once a client has made a request its bucket is in the registry, and
    further requests keep it there. *)
Lemma serve_keeps (c : Context) (instants : list Q) : forall rl : RateLimiter,
  instants <> [] \/ is_Some (limiters rl !! gin.ClientIP c) ->
  is_Some (limiters (serve rl c instants).1 !! gin.ClientIP c).
Proof.
  induction instants as [|now rest IH]; intros rl Hcase.
  - destruct Hcase as [Hne|Hsome]; [done | exact Hsome].
  - simpl. pose proof (RateLimitHandler_bucket rl now c) as (Hb & _). simpl in Hb.
    destruct (RateLimitHandler rl now c) as [rl1 o]. simpl in Hb.
    specialize (IH rl1 (or_intror (ex_intro _ _ Hb))).
    by destruct (serve rl1 c rest).
Qed.

(** X4.  A client that is new to the registry, makes requests at
    instants that do not go back in time and then stays away for
    [burst / rate] seconds is forgotten by the next sweep: its bucket has
    refilled completely and is removed. *)
Theorem X4_idle_client_is_evicted (rl : RateLimiter) (c : Context)
  (t : Q) (instants : list Q) (now : string -> Q) :
  limiters rl !! gin.ClientIP c = None ->
  (0 < rate rl)%Q -> 0 <= burst rl -> (0 <= t)%Q -> ascending t instants ->
  (lastOf t instants + inject_Z (burst rl) / rate rl <= now (gin.ClientIP c))%Q ->
  is_Some (limiters (serve rl c (t :: instants)).1 !! gin.ClientIP c) /\
  limiters (CleanupLimiters (serve rl c (t :: instants)).1 now) !! gin.ClientIP c = None.
Proof.
  intros Hnone HR HB Ht Hasc Hidle.
  destruct (serve_allowSeq c (t :: instants) rl) as (_ & Hbucket & _ & Hrate & Hburst).
  assert (Hfresh : bucketOf rl (gin.ClientIP c) = rate.NewLimiter (rate rl) (burst rl)).
  { rewrite bucketOf_eq. by rewrite Hnone. }
  rewrite Hfresh in Hbucket.
  destruct (allowSeq_state instants t (rate.NewLimiter (rate rl) (burst rl)))
    as (Hlim & Hbur & Hlast & Htok);
    [simpl; lra | exact HB | | simpl; lra | exact Hasc |].
  { simpl. change 0%Q with (inject_Z 0). by rewrite <- Zle_Qle. }
  rewrite <- Hbucket in Hlim, Hbur, Hlast, Htok.
  unfold rate.NewLimiter in Hlim, Hbur. cbn [rate.limit rate.burst] in Hlim, Hbur.
  assert (Hstored : is_Some (limiters (serve rl c (t :: instants)).1 !! gin.ClientIP c)).
  { apply serve_keeps. by left. }
  split; [exact Hstored|].
  rewrite CleanupLimiters_lookup.
  destruct (limiters (serve rl c (t :: instants)).1 !! gin.ClientIP c) as [lim|] eqn:El;
    [|reflexivity].
  rewrite bucketOf_eq, El in Hlim, Hbur, Hlast, Htok.
  assert (Hneed : (inject_Z (burst rl) <= (now (gin.ClientIP c) - rate.last lim) * rate rl)%Q).
  { apply Qdiv_le_mult; [exact HR|]. rewrite Hlast. lra. }
  rewrite Hburst.
  assert (Hfull : (rate.TokensAt lim (now (gin.ClientIP c)) == inject_Z (burst rl))%Q).
  { unfold rate.TokensAt. rewrite Hlim, Hbur. qcase; [lra | reflexivity]. }
  apply Qeq_bool_iff in Hfull. by rewrite Hfull.
Qed.

(** A new client of the strict limiter asks at instants 0 and 1 and is
    gone after the sweep at instant 3 = 1 + 2/1. *)
Lemma X4_idle_client_is_evicted_witness :
  limiters (CleanupLimiters (serve StrictRateLimit (sample.client "10.0.0.9") [0; 1]%Q).1
              (fun _ => 3%Q)) !! "10.0.0.9" = None.
Proof.
  apply (X4_idle_client_is_evicted StrictRateLimit (sample.client "10.0.0.9") 0 [1%Q]
           (fun _ => 3%Q)).
  - reflexivity.
  - reflexivity.
  - discriminate.
  - discriminate.
  - simpl. split; [discriminate | exact I].
  - discriminate.
Defined.

(** ** Authentication fails closed (auth.go) *)

Import authctx.

Lemma roleAmong_iff (role : string) (roles : list string) :
  roleAmong role roles = true <-> role ∈ roles.
Proof.
  induction roles as [|r rest IH]; simpl.
  - split; [discriminate | intros Hin; inversion Hin].
  - destruct (String.eqb_spec role r) as [->|Hne].
    + split; [intros _; apply list_elem_of_here | reflexivity].
    + rewrite IH. split; [apply list_elem_of_further|].
      intros Hin. inversion Hin; subst; [done | assumption].
Qed.

Section AuthFurther.
Context {E : Type} `{utils.TokenCodec E}.

Lemma AuthMidddleware_no_panic (cfg : config.Config) (c : Context) :
  AuthMidddleware cfg c <> gin.Panic.
Proof.
  unfold AuthMidddleware.
  destruct (String.eqb _ ""); [discriminate|].
  destruct (negb _); [discriminate|].
  destruct (utils.ValidateToken _ _); discriminate.
Qed.

(** What is known of a request that the middleware has passed on. *)
Lemma AuthMidddleware_passed (cfg : config.Config) (c c' : Context) :
  AuthMidddleware cfg c = gin.Next c' ->
  exists (token : string) (claims : utils.Claims),
    gin.GetHeader c "Authorization" = "Bearer " +:+ token /\
    utils.ValidateToken token (config.Secret (config.JWT cfg)) = inl claims /\
    c' = gin.Set_ (gin.Set_ (gin.Set_ c "user_id" (VObjectID (utils.UserID claims)))
                     "user_email" (VString (utils.Email claims)))
           "user_role" (VString (utils.Role claims)).
Proof.
  unfold AuthMidddleware.
  destruct (String.eqb _ ""); [discriminate|].
  destruct (strs.HasPrefix (gin.GetHeader c "Authorization") "Bearer ") eqn:Hp;
    [|discriminate].
  cbn [negb]. apply HasPrefix_inv in Hp.
  destruct (utils.ValidateToken _ _) as [claims|e] eqn:Hv; [|discriminate].
  intros Heq. inversion Heq; subst c'; clear Heq.
  exists (strs.TrimPrefix (gin.GetHeader c "Authorization") "Bearer "), claims. auto.
Qed.

(** A verified bearer token gets the request passed on. *)
Lemma AuthMidddleware_accepts (cfg : config.Config) (c : Context)
  (token : string) (claims : utils.Claims) :
  gin.GetHeader c "Authorization" = "Bearer " +:+ token ->
  utils.ValidateToken token (config.Secret (config.JWT cfg)) = inl claims ->
  exists c' : Context, AuthMidddleware cfg c = gin.Next c'.
Proof.
  intros Hh Hv. unfold AuthMidddleware. rewrite Hh.
  change (String.eqb ("Bearer " +:+ token) "") with false.
  rewrite HasPrefix_app, TrimPrefix_app. cbn [negb]. rewrite Hv. eauto.
Qed.

Lemma keys_after_auth (c : Context) (claims : utils.Claims) :
  let c' := gin.Set_ (gin.Set_ (gin.Set_ c "user_id" (VObjectID (utils.UserID claims)))
                        "user_email" (VString (utils.Email claims)))
              "user_role" (VString (utils.Role claims)) in
  gin.Get c' "user_id" = Some (VObjectID (utils.UserID claims)) /\
  gin.Get c' "user_email" = Some (VString (utils.Email claims)) /\
  gin.Get c' "user_role" = Some (VString (utils.Role claims)) /\
  (forall key : string,
     key <> "user_id" -> key <> "user_email" -> key <> "user_role" ->
     gin.Get c' key = gin.Get c key).
Proof.
  unfold gin.Get, gin.Set_. simpl.
  rewrite !lookup_insert_eq.
  rewrite (lookup_insert_ne _ "user_role" "user_id") by discriminate.
  rewrite (lookup_insert_ne _ "user_email" "user_id") by discriminate.
  rewrite (lookup_insert_ne _ "user_role" "user_email") by discriminate.
  rewrite !lookup_insert_eq.
  repeat split; try reflexivity.
  intros key H1 H2 H3. by rewrite !lookup_insert_ne by done.
Qed.

(** X5.  The authentication middleware passes a request on only when its
    Authorization header is [Bearer ] followed by a token that
    [ValidateToken] accepts under the configured secret; the context
    passed on is the incoming one with [user_id], [user_email] and
    [user_role] set from the claims, every other key and the request as
    they were; and the middleware never panics. *)
Theorem X5_authentication_fails_closed (cfg : config.Config) (c c' : Context) :
  AuthMidddleware cfg c <> gin.Panic /\
  (AuthMidddleware cfg c = gin.Next c' ->
   exists (token : string) (claims : utils.Claims),
     gin.GetHeader c "Authorization" = "Bearer " +:+ token /\
     utils.ValidateToken token (config.Secret (config.JWT cfg)) = inl claims /\
     gin.Get c' "user_id" = Some (VObjectID (utils.UserID claims)) /\
     gin.Get c' "user_email" = Some (VString (utils.Email claims)) /\
     gin.Get c' "user_role" = Some (VString (utils.Role claims)) /\
     (forall key : string,
        key <> "user_id" -> key <> "user_email" -> key <> "user_role" ->
        gin.Get c' key = gin.Get c key) /\
     gin.Request c' = gin.Request c /\ gin.ClientIP c' = gin.ClientIP c).
Proof.
  split; [apply AuthMidddleware_no_panic|].
  intros Hauth.
  destruct (AuthMidddleware_passed cfg c c' Hauth) as (token & claims & Hh & Hv & ->).
  destruct (keys_after_auth c claims) as (Hid & Hem & Hro & Hrest).
  exists token, claims. repeat split; assumption || reflexivity.
Qed.

Lemma RequireRole_passes_iff (roles : list string) (ctx ctx' : Context) :
  RequireRole roles ctx = gin.Next ctx' <->
  ctx' = ctx /\
  exists role : string, gin.Get ctx "user_role" = Some (VString role) /\ role ∈ roles.
Proof.
  unfold RequireRole.
  destruct (gin.Get ctx "user_role") as [[role|l|l|cf|id]|] eqn:Hg.
  2-6: (split; [discriminate | intros (_ & r & Hr & _); discriminate]).
  destruct (roleAmong role roles) eqn:Hr.
  - apply roleAmong_iff in Hr.
    split; [intros Heq; inversion Heq; eauto | intros [-> _]; reflexivity].
  - split; [discriminate|]. intros (_ & r & Heq & Hin). inversion Heq; subst.
    apply roleAmong_iff in Hin. congruence.
Qed.

Lemma RequireRole_panics_iff (roles : list string) (ctx : Context) :
  RequireRole roles ctx = gin.Panic <->
  exists v : Value, gin.Get ctx "user_role" = Some v /\
                    forall role : string, v <> VString role.
Proof.
  unfold RequireRole.
  destruct (gin.Get ctx "user_role") as [[role|l|l|cf|id]|] eqn:Hg.
  2-5: (split; [intros _; eexists; split; [reflexivity | intros r; discriminate]
               | reflexivity]).
  - split.
    + destruct (roleAmong role roles); discriminate.
    + intros (v & Hv & Hns). inversion Hv; subst. by destruct (Hns role).
  - split; [discriminate | intros (v & Hv & _); discriminate].
Qed.

(** X6.  [RequireRole] passes a request on exactly when the context
    holds a string under [user_role] that is one of the allowed roles,
    and then passes the context on unchanged; without the key, or with
    a role that is not allowed (always, when no role is allowed), it
    answers 403; it panics exactly when the key holds something that is
    not a string. *)
Theorem X6_role_check (roles : list string) (ctx ctx' : Context) :
  (RequireRole roles ctx = gin.Next ctx' <->
   ctx' = ctx /\
   exists role : string, gin.Get ctx "user_role" = Some (VString role) /\ role ∈ roles) /\
  (gin.Get ctx "user_role" = None ->
   RequireRole roles ctx = rejection 403 "Unauthorized access" None) /\
  (forall role : string,
     gin.Get ctx "user_role" = Some (VString role) -> role ∉ roles ->
     RequireRole roles ctx = rejection 403 "Insufficient permissions" None) /\
  (RequireRole roles ctx = gin.Panic <->
   exists v : Value, gin.Get ctx "user_role" = Some v /\
                     forall role : string, v <> VString role).
Proof.
  split; [apply RequireRole_passes_iff|]. split; [|split].
  - intros Hnone. unfold RequireRole. by rewrite Hnone.
  - intros role Hrole Hnot. unfold RequireRole. rewrite Hrole.
    destruct (roleAmong role roles) eqn:Hr; [|reflexivity].
    apply roleAmong_iff in Hr. done.
  - apply RequireRole_panics_iff.
Qed.

(** X7.  The chain in front of the protected routes,
    [AuthMidddleware] then [RequireRole]: a request reaches the handler
    exactly when it carries [Bearer ] and a token that verifies with a
    role among the allowed ones; every other request is answered 401 or
    403 with [success] false; the chain never panics. *)
Theorem X7_protected_routes (cfg : config.Config) (roles : list string) (c : Context) :
  protected cfg roles c <> gin.Panic /\
  ((exists c' : Context, protected cfg roles c = gin.Next c') <->
   exists (token : string) (claims : utils.Claims),
     gin.GetHeader c "Authorization" = "Bearer " +:+ token /\
     utils.ValidateToken token (config.Secret (config.JWT cfg)) = inl claims /\
     utils.Role claims ∈ roles) /\
  (forall (code : Z) (obj : APIResponse),
     protected cfg roles c = gin.JSON code obj ->
     (code = 401 \/ code = 403) /\ Success obj = false).
Proof.
  unfold protected, andThen.
  destruct (AuthMidddleware cfg c) as [c1|code1 obj1|] eqn:Hauth.
  - destruct (AuthMidddleware_passed cfg c c1 Hauth) as (token & claims & Hh & Hv & Hc1).
    assert (Hrole : gin.Get c1 "user_role" = Some (VString (utils.Role claims))).
    { subst c1. apply keys_after_auth. }
    split; [|split].
    + intros Hp. apply RequireRole_panics_iff in Hp as (v & Hv' & Hns).
      rewrite Hrole in Hv'. inversion Hv'; subst v. by destruct (Hns (utils.Role claims)).
    + split.
      * intros (c' & Hn). exists token, claims. split; [exact Hh|]. split; [exact Hv|].
        apply RequireRole_passes_iff in Hn as (_ & r & Hr & Hin). rewrite Hrole in Hr.
        inversion Hr; subst. exact Hin.
      * intros (token' & claims' & Hh' & Hv'' & Hin).
        rewrite Hh in Hh'. apply String.app_inj in Hh'. subst token'.
        rewrite Hv in Hv''. inversion Hv''; subst claims'.
        exists c1. apply RequireRole_passes_iff. split; [reflexivity|]. eauto.
    + intros code obj Hj.
      destruct (RequireRole_rejection roles c1 code obj Hj) as (-> & Hs & _). auto.
  - destruct (AuthMidddleware_rejection cfg c code1 obj1 Hauth) as (-> & Hs & _).
    split; [discriminate|]. split.
    + split; [intros (c' & Hn); discriminate|].
      intros (token & claims & Hh & Hv & _).
      destruct (AuthMidddleware_accepts cfg c token claims Hh Hv) as (c' & Hn).
      congruence.
    + intros code obj Heq. inversion Heq; subst. auto.
  - by destruct (AuthMidddleware_no_panic cfg c).
Qed.

(** X8.  The identity round trip: on every context that
    [AuthMidddleware] passes on, [GetUserId] returns the user id of the
    verified claims; on a context without [user_id] it returns its
    error, and it panics only on a value that is not an ObjectID. *)
Theorem X8_user_id_round_trip (cfg : config.Config) (c c' : Context) :
  (AuthMidddleware cfg c = gin.Next c' ->
   exists (token : string) (claims : utils.Claims),
     gin.GetHeader c "Authorization" = "Bearer " +:+ token /\
     utils.ValidateToken token (config.Secret (config.JWT cfg)) = inl claims /\
     GetUserId c' = Ok (utils.UserID claims)) /\
  (gin.Get c "user_id" = None <-> GetUserId c = Err "user ID not found in context") /\
  (GetUserId c = Panics <->
   exists v : Value, gin.Get c "user_id" = Some v /\
                     forall id : primitive.ObjectID, v <> VObjectID id).
Proof.
  split; [|split].
  - intros Hauth.
    destruct (AuthMidddleware_passed cfg c c' Hauth) as (token & claims & Hh & Hv & ->).
    destruct (keys_after_auth c claims) as (Hid & _).
    exists token, claims. split; [exact Hh|]. split; [exact Hv|].
    unfold GetUserId. by rewrite Hid.
  - unfold GetUserId. destruct (gin.Get c "user_id") as [[s|l|l|cf|id]|];
      split; try discriminate; reflexivity.
  - unfold GetUserId. destruct (gin.Get c "user_id") as [[s|l|l|cf|id]|].
    1-4: (split; [intros _; eexists; split; [reflexivity | intros i; discriminate]
                 | reflexivity]).
    + split; [discriminate|]. intros (v & Hv & Hns). inversion Hv; subst.
      by destruct (Hns id).
    + split; [discriminate|]. intros (v & Hv & _). discriminate.
Qed.

End AuthFurther.

(** The valid sample token is accepted and leaves the admin's identity in
    the context. *)
Lemma X5_authentication_fails_closed_witness :
  @AuthMidddleware _ sample.codec sample.cfg (sample.authorized "Bearer valid") =
    gin.Next fixtures.adminCtx /\
  gin.Get fixtures.adminCtx "user_role" = Some (VString "admin") /\
  gin.Request fixtures.adminCtx = gin.Request (sample.authorized "Bearer valid").
Proof.
  assert (Hauth : @AuthMidddleware _ sample.codec sample.cfg
                    (sample.authorized "Bearer valid") = gin.Next fixtures.adminCtx)
    by reflexivity.
  destruct (proj2 (@X5_authentication_fails_closed _ sample.codec sample.cfg
                     (sample.authorized "Bearer valid") fixtures.adminCtx) Hauth)
    as (token & claims & _ & _ & _ & _ & _ & _ & Hreq & _).
  split; [exact Hauth|]. split; [reflexivity | exact Hreq].
Defined.

(** The admin's context passes the admin check and is answered 403 by a
    check for another role. *)
Lemma X6_role_check_witness :
  RequireRole ["admin"] fixtures.adminCtx = gin.Next fixtures.adminCtx /\
  RequireRole ["auditor"] fixtures.adminCtx =
    rejection 403 "Insufficient permissions" None.
Proof.
  split.
  - apply (proj1 (X6_role_check ["admin"] fixtures.adminCtx fixtures.adminCtx)).
    split; [reflexivity|]. exists "admin". split; [reflexivity|]. apply list_elem_of_here.
  - apply (proj1 (proj2 (proj2 (X6_role_check ["auditor"] fixtures.adminCtx
                                  fixtures.adminCtx))) "admin").
    + reflexivity.
    + intros Hin. inversion Hin as [|? ? ? Hin']; subst. inversion Hin'.
Defined.

(** The valid sample token of the admin reaches an admin-only handler. *)
Lemma X7_protected_routes_witness :
  exists c' : Context,
    @adminOnly _ sample.codec sample.cfg (sample.authorized "Bearer valid") = gin.Next c'.
Proof.
  apply (proj1 (proj2 (@X7_protected_routes _ sample.codec sample.cfg ["admin"]
                         (sample.authorized "Bearer valid")))).
  exists "valid", sample.admin.
  split; [reflexivity|]. split; [reflexivity|]. apply list_elem_of_here.
Defined.

(** After authentication with the valid sample token, [GetUserId] gives
    the admin's id. *)
Lemma X8_user_id_round_trip_witness :
  exists (token : string) (claims : utils.Claims),
    gin.GetHeader (sample.authorized "Bearer valid") "Authorization" = "Bearer " +:+ token /\
    @utils.ValidateToken _ sample.codec token (config.Secret (config.JWT sample.cfg))
      = inl claims /\
    GetUserId fixtures.adminCtx = Ok (utils.UserID claims).
Proof.
  apply (proj1 (@X8_user_id_round_trip _ sample.codec sample.cfg
                  (sample.authorized "Bearer valid") fixtures.adminCtx)).
  reflexivity.
Defined.

(** ** What an accepted upload leaves behind (file_upload.go) *)

Import uploads.

Section UploadFurther.
Context `{env.Platform}.

Lemma generateUniqueFilename_eq (w : env.World) (originalFilename : string) :
  middleware.generateUniqueFilename w originalFilename =
  (String.substring 0
     (String.length originalFilename - String.length (filepath.Ext originalFilename))
     originalFilename
   +:+ "_" +:+ fmt.d (env.Unix (env.Now (env.reads w))) +:+ "_"
   +:+ primitive.Hex (env.NewObjectID (S (env.reads w)))
   +:+ filepath.Ext originalFilename,
   env.mkWorld (env.events w) (S (S (env.reads w)))).
Proof. reflexivity. Qed.

Lemma generateUniqueFilename_Ext (w : env.World) (originalFilename : string) :
  filepath.Ext (middleware.generateUniqueFilename w originalFilename).1 =
  filepath.Ext originalFilename.
Proof. rewrite generateUniqueFilename_eq. simpl. apply Ext_generated, name_ext_split. Qed.

(** One round of the saving loop. *)
Lemma saveFiles_cons (config : FileUploadConfig) (fileHeader : multipart.FileHeader)
  (rest : list multipart.FileHeader) (w : env.World) (savedPaths : list string) :
  saveFiles (fileHeader :: rest) config w savedPaths =
  let w1 := env.mkWorld
              (env.events w ++ [env.EvMkdirAll (UploadPath config)
                                  (env.mkdirSucceeds w (UploadPath config))])
              (env.reads w) in
  if negb (env.mkdirSucceeds w (UploadPath config))
  then (inl (http.StatusInternalServerError,
             {| Success := false; Message := "Failed to create upload directory";
                Data := None; Error := Some "DIRECTORY_CREATION_FAILED" |}), w1)
  else
    let filename := (middleware.generateUniqueFilename w1 (multipart.Filename fileHeader)).1 in
    let w2 := (middleware.generateUniqueFilename w1 (multipart.Filename fileHeader)).2 in
    let path := env.Join (UploadPath config) filename in
    let w3 := env.mkWorld
                (env.events w2 ++ [env.EvSaveUploadedFile fileHeader path
                                     (env.saveSucceeds w2 fileHeader path)])
                (env.reads w2) in
    if negb (env.saveSucceeds w2 fileHeader path)
    then (inl (http.StatusInternalServerError,
               {| Success := false; Message := "Failed to save file";
                  Data := None; Error := Some "FILE_SAVE_FAILED" |}), w3)
    else saveFiles rest config w3 (savedPaths ++ [env.ToSlash path]).
Proof. reflexivity. Qed.

(** When the saving loop succeeds: one generated name per file, keeping
    the file's extension; per file a directory creation and a save, both
    successful, and nothing else; the paths of the names appended to the
    list; the clock and the ObjectID generator each read once per file. *)
Lemma saveFiles_success (config : FileUploadConfig) (files : list multipart.FileHeader) :
  forall (w w' : env.World) (savedPaths paths : list string),
  saveFiles files config w savedPaths = (inr paths, w') ->
  exists names : list string,
    length names = length files /\
    paths = savedPaths ++ map (savedPath config) names /\
    env.events w' = env.events w ++ concat (zip_with (persist config) files names) /\
    Forall2 (fun fh name => filepath.Ext name = filepath.Ext (multipart.Filename fh))
            files names /\
    env.reads w' = (env.reads w + 2 * length files)%nat.
Proof.
  induction files as [|fh rest IH]; intros w w' savedPaths paths Hsave.
  - simpl in Hsave. inversion Hsave; subst. exists []. simpl.
    rewrite !app_nil_r. repeat split; auto with lia.
  - rewrite saveFiles_cons in Hsave. cbv zeta in Hsave.
    destruct (env.mkdirSucceeds w (UploadPath config)) eqn:Hmk; [|discriminate].
    cbn [negb] in Hsave.
    set (w1 := env.mkWorld (env.events w ++ [env.EvMkdirAll (UploadPath config) true])
                 (env.reads w)) in *.
    pose proof (generateUniqueFilename_Ext w1 (multipart.Filename fh)) as Hext.
    pose proof (generateUniqueFilename_eq w1 (multipart.Filename fh)) as Hgen.
    destruct (middleware.generateUniqueFilename w1 (multipart.Filename fh)) as [filename w2].
    cbn [fst snd] in *. inversion Hgen as [[Hname Hw2]]. clear Hgen.
    destruct (env.saveSucceeds w2 fh (env.Join (UploadPath config) filename)) eqn:Hsv;
      [|discriminate].
    cbn [negb] in Hsave. apply IH in Hsave as (names & Hlen & Hpaths & Hev & HF & Hreads).
    exists (filename :: names). simpl in *.
    split; [by rewrite Hlen|]. split.
    { rewrite Hpaths, <- app_assoc. reflexivity. }
    split.
    { rewrite Hev, Hw2. simpl. rewrite <- !app_assoc. reflexivity. }
    split; [constructor; assumption|].
    rewrite Hreads, Hw2. simpl. lia.
Qed.

(** When the saving loop fails: some files, fewer than all, have been
    stored as in the successful case, and they are followed by a failed
    directory creation or by a directory creation and a failed save of
    the next file. *)
Lemma saveFiles_failure (config : FileUploadConfig) (files : list multipart.FileHeader) :
  forall (w w' : env.World) (savedPaths : list string) (code : Z) (obj : APIResponse),
  saveFiles files config w savedPaths = (inl (code, obj), w') ->
  exists (names : list string) (fh : multipart.FileHeader) (dst : string),
    files !! length names = Some fh /\
    (env.events w' =
       env.events w ++ concat (zip_with (persist config) files names)
       ++ [env.EvMkdirAll (UploadPath config) false] \/
     env.events w' =
       env.events w ++ concat (zip_with (persist config) files names)
       ++ [env.EvMkdirAll (UploadPath config) true;
           env.EvSaveUploadedFile fh dst false]).
Proof.
  induction files as [|fh rest IH]; intros w w' savedPaths code obj Hsave.
  - simpl in Hsave. discriminate.
  - rewrite saveFiles_cons in Hsave. cbv zeta in Hsave.
    destruct (env.mkdirSucceeds w (UploadPath config)) eqn:Hmk; cbn [negb] in Hsave.
    2:{ inversion Hsave; subst. exists [], fh, "". simpl. split; [reflexivity|]. by left. }
    set (w1 := env.mkWorld (env.events w ++ [env.EvMkdirAll (UploadPath config) true])
                 (env.reads w)) in *.
    pose proof (generateUniqueFilename_eq w1 (multipart.Filename fh)) as Hgen.
    destruct (middleware.generateUniqueFilename w1 (multipart.Filename fh)) as [filename w2].
    cbn [fst snd] in *. inversion Hgen as [[Hname Hw2]]. clear Hgen.
    destruct (env.saveSucceeds w2 fh (env.Join (UploadPath config) filename)) eqn:Hsv;
      cbn [negb] in Hsave.
    2:{ inversion Hsave; subst w'. exists [], fh, (env.Join (UploadPath config) filename).
        simpl. split; [reflexivity|]. right.
        rewrite Hw2. simpl. rewrite <- app_assoc. reflexivity. }
    apply IH in Hsave as (names & fh' & dst & Hidx & Hev).
    exists (filename :: names), fh', dst. simpl. split; [exact Hidx|].
    rewrite Hw2 in Hev. simpl in Hev. rewrite <- !app_assoc in Hev. simpl in Hev.
    destruct Hev as [Hev|Hev]; [left | right]; rewrite Hev; reflexivity.
Qed.

Lemma stored_app (w : env.World) (evs : list env.Event) :
  stored (env.mkWorld (env.events w ++ evs) (env.reads w)) =
  stored w ++ stored (env.mkWorld evs 0).
Proof. unfold stored. simpl. apply omap_app. Qed.

Lemma stored_persist (config : FileUploadConfig) :
  forall (files : list multipart.FileHeader) (names : list string) (tail : list env.Event),
  omap (fun e => match e with
                 | env.EvSaveUploadedFile f p true => Some (f, p)
                 | _ => None
                 end)
       (concat (zip_with (persist config) files names) ++ tail) =
  zip_with (fun fh name => (fh, env.Join (UploadPath config) name)) files names
  ++ omap (fun e => match e with
                    | env.EvSaveUploadedFile f p true => Some (f, p)
                    | _ => None
                    end) tail.
Proof.
  induction files as [|fh rest IH]; intros [|name names] tail; simpl; try reflexivity.
  by rewrite IH.
Qed.

(** The gate in front of the loops of the middleware: when the form
    parses, the file count is acceptable and every file validates, the
    middleware is its saving loop. *)
Lemma FileUploadMiddleware_saving (config : FileUploadConfig) (w : env.World) (c : Context) :
  (FileUploadMiddleware config w c).2 <> w \/
  (exists c' : Context, (FileUploadMiddleware config w c).1 = gin.Next c') \/
  (exists obj : APIResponse, (FileUploadMiddleware config w c).1 = gin.JSON 500 obj) ->
  exists form : multipart.Form,
    gin.MultipartForm c = Some form /\
    (Required config && (Z.of_nat (length (default [] (multipart.File form !! FieldName config))) =? 0)) = false /\
    Z.of_nat (length (default [] (multipart.File form !! FieldName config))) <= MaxFiles config /\
    Forall (fun fh => validateFile fh config = None)
           (default [] (multipart.File form !! FieldName config)) /\
    FileUploadMiddleware config w c =
    match saveFiles (default [] (multipart.File form !! FieldName config)) config w [] with
    | (inl (code, obj), w') => (gin.JSON code obj, w')
    | (inr savedPaths, w') =>
        (gin.Next (gin.Set_ (gin.Set_ c "uploadedFiles" (VStrings savedPaths))
                     "uploadConfig" (VFileUploadConfig config)), w')
    end.
Proof.
  unfold FileUploadMiddleware.
  destruct (negb (http.ParseMultipartForm (gin.Request c))).
  { intros [Hw|[(c' & Hn)|(obj & Hj)]]; [done | discriminate | discriminate]. }
  destruct (gin.MultipartForm c) as [form|].
  2:{ intros [Hw|[(c' & Hn)|(obj & Hj)]]; [done | discriminate | discriminate]. }
  set (files := default [] (multipart.File form !! FieldName config)).
  destruct (Required config && (Z.of_nat (length files) =? 0)) eqn:Hreq.
  { intros [Hw|[(c' & Hn)|(obj & Hj)]]; [done | discriminate | discriminate]. }
  destruct (Z.gtb_spec (Z.of_nat (length files)) (MaxFiles config)) as [Hgt|Hle].
  { intros [Hw|[(c' & Hn)|(obj & Hj)]]; [done | discriminate | discriminate]. }
  destruct (validateFiles files config) as [err|] eqn:Hval.
  { intros [Hw|[(c' & Hn)|(obj & Hj)]]; [done | discriminate | discriminate]. }
  intros _. exists form. split; [reflexivity|]. split; [exact Hreq|].
  split; [exact Hle|]. split; [by apply validateFiles_None_iff|].
  reflexivity.
Qed.

(** X9.  What an accepted upload leaves behind.  Whenever the upload
    middleware passes a request on, every file of the request has passed
    validation, and for each file, in order, the upload directory was
    created and the file was saved under a generated name that has the
    file's own extension, with nothing else done to the file system; the
    list stored under [uploadedFiles] holds the normalised paths of
    exactly these names, [uploadConfig] holds the configuration, and all
    other keys of the context are as they were. *)
Theorem X9_accepted_upload_effects (config : FileUploadConfig) (w w' : env.World)
  (c c' : Context) :
  FileUploadMiddleware config w c = (gin.Next c', w') ->
  exists (form : multipart.Form) (names : list string),
    gin.MultipartForm c = Some form /\
    let files := default [] (multipart.File form !! FieldName config) in
    length names = length files /\
    Forall (fun fh => validateFile fh config = None) files /\
    Forall2 (fun fh name => filepath.Ext name = filepath.Ext (multipart.Filename fh))
            files names /\
    env.events w' = env.events w ++ concat (zip_with (persist config) files names) /\
    stored w' = stored w ++
      zip_with (fun fh name => (fh, env.Join (UploadPath config) name)) files names /\
    gin.Get c' "uploadedFiles" = Some (VStrings (map (savedPath config) names)) /\
    gin.Get c' "uploadConfig" = Some (VFileUploadConfig config) /\
    (forall key : string, key <> "uploadedFiles" -> key <> "uploadConfig" ->
       gin.Get c' key = gin.Get c key).
Proof.
  intros Hmw.
  destruct (FileUploadMiddleware_saving config w c) as (form & Hform & _ & _ & Hval & Heq).
  { right. left. exists c'. by rewrite Hmw. }
  rewrite Hmw in Heq.
  destruct (saveFiles (default [] (multipart.File form !! FieldName config)) config w [])
    as [[[code obj]|paths] w1] eqn:Hsave; [discriminate|].
  inversion Heq; subst c' w1; clear Heq.
  apply saveFiles_success in Hsave as (names & Hlen & Hpaths & Hev & HF & _).
  exists form, names. split; [exact Hform|]. cbv zeta.
  split; [exact Hlen|]. split; [exact Hval|]. split; [exact HF|].
  split; [exact Hev|]. split.
  { unfold stored. rewrite Hev, omap_app.
    pose proof (stored_persist config
                  (default [] (multipart.File form !! FieldName config)) names []) as Hp.
    rewrite !app_nil_r in Hp. by rewrite Hp. }
  simpl in Hpaths. subst paths.
  unfold gin.Get, gin.Set_. simpl.
  rewrite lookup_insert_ne by discriminate. rewrite !lookup_insert_eq.
  repeat split. intros key H1 H2. by rewrite !lookup_insert_ne by done.
Qed.

(** X10.  No roll-back.  Whenever the upload middleware answers 500,
    storing has stopped at one of the request's files: the files before
    it stay stored under their generated names, that file and the ones
    after it are not stored, and the tag tells whether the directory
    creation or the save failed. *)
Theorem X10_failed_save_keeps_earlier_files (config : FileUploadConfig)
  (w w' : env.World) (c : Context) (obj : APIResponse) :
  FileUploadMiddleware config w c = (gin.JSON 500 obj, w') ->
  exists (form : multipart.Form) (names : list string),
    gin.MultipartForm c = Some form /\
    let files := default [] (multipart.File form !! FieldName config) in
    (length names < length files)%nat /\
    stored w' = stored w ++
      zip_with (fun fh name => (fh, env.Join (UploadPath config) name))
               (take (length names) files) names /\
    (Error obj = Some "DIRECTORY_CREATION_FAILED" \/ Error obj = Some "FILE_SAVE_FAILED").
Proof.
  intros Hmw.
  destruct (FileUploadMiddleware_saving config w c) as (form & Hform & _ & _ & _ & Heq).
  { right. right. exists obj. by rewrite Hmw. }
  rewrite Hmw in Heq.
  pose proof (saveFiles_result config
                (default [] (multipart.File form !! FieldName config)) w []) as Hres.
  destruct (saveFiles (default [] (multipart.File form !! FieldName config)) config w [])
    as [[[code obj']|paths] w1] eqn:Hsave; [|discriminate].
  inversion Heq; subst code obj' w1; clear Heq.
  simpl in Hres. destruct Hres as (_ & _ & Htag).
  apply saveFiles_failure in Hsave as (names & fh & dst & Hidx & Hev).
  exists form, names. split; [exact Hform|]. cbv zeta.
  assert (Hlt : (length names < length (default [] (multipart.File form !! FieldName config)))%nat).
  { by apply lookup_lt_Some in Hidx. }
  split; [exact Hlt|]. split; [|exact Htag].
  assert (Hzip : forall (files : list multipart.FileHeader) (ns : list string),
            zip_with (fun fh name => (fh, env.Join (UploadPath config) name)) files ns =
            zip_with (fun fh name => (fh, env.Join (UploadPath config) name))
                     (take (length ns) files) ns).
  { clear. induction files as [|f fs IHf]; intros [|n ns]; simpl; try reflexivity.
    by rewrite <- IHf. }
  unfold stored.
  destruct Hev as [Hev|Hev]; rewrite Hev, omap_app, stored_persist; simpl;
    rewrite app_nil_r; by rewrite <- Hzip.
Qed.

End UploadFurther.

(** One picture under the image configuration: it is stored once, under
    a generated name. *)
Lemma X9_accepted_upload_effects_witness :
  exists (c' : Context) (w' : env.World) (names : list string),
    @FileUploadMiddleware sample.platform sample.tiny sample.world0
      (sample.upload "images" [sample.picture]) = (gin.Next c', w') /\
    length names = 1%nat /\
    stored w' =
      zip_with (fun fh name => (fh, "./uploads/images" +:+ "/" +:+ name))
               [sample.picture] names.
Proof.
  assert (Hrun : exists (c' : Context) (w' : env.World),
            @FileUploadMiddleware sample.platform sample.tiny sample.world0
              (sample.upload "images" [sample.picture]) = (gin.Next c', w')).
  { eexists. eexists. vm_compute. reflexivity. }
  destruct Hrun as (c' & w' & Hrun).
  destruct (@X9_accepted_upload_effects sample.platform sample.tiny sample.world0 w'
              (sample.upload "images" [sample.picture]) c' Hrun)
    as (form & names & Hform & Hlen & _ & _ & _ & Hstored & _).
  inversion Hform; subst form.
  exists c', w', names. split; [exact Hrun|]. split; [exact Hlen | exact Hstored].
Defined.

(** Two pictures on the flaky platform: the first stays stored, the
    second is not, and the request is answered 500. *)
Lemma X10_failed_save_keeps_earlier_files_witness :
  exists (obj : APIResponse) (w' : env.World) (names : list string),
    @FileUploadMiddleware fixtures2.flaky sample.tiny sample.world0
      (sample.upload "images" [sample.picture; sample.picture]) = (gin.JSON 500 obj, w') /\
    stored w' =
      zip_with (fun fh name => (fh, "./uploads/images" +:+ "/" +:+ name))
               (take (length names) [sample.picture; sample.picture]) names /\
    stored w' <> [].
Proof.
  assert (Hrun : exists (obj : APIResponse) (w' : env.World),
            (@FileUploadMiddleware fixtures2.flaky sample.tiny sample.world0
               (sample.upload "images" [sample.picture; sample.picture])
             = (gin.JSON 500 obj, w')) /\ stored w' <> []).
  { eexists. eexists. split; [vm_compute; reflexivity | vm_compute; discriminate]. }
  destruct Hrun as (obj & w' & Hrun & Hne).
  destruct (@X10_failed_save_keeps_earlier_files fixtures2.flaky sample.tiny sample.world0 w'
              (sample.upload "images" [sample.picture; sample.picture]) obj Hrun)
    as (form & names & Hform & _ & Hstored & _).
  inversion Hform; subst form.
  exists obj, w', names. split; [exact Hrun|]. split; [exact Hstored | exact Hne].
Defined.

(** ** Uploads without files, and empty files (file_upload.go) *)

Section UploadEdges.
Context `{env.Platform}.

(** X11.  An upload that holds no file under the configured field (the
    field is missing from the form, or has no parts) never touches the
    file system: it is answered 400 FILE_REQUIRED when the configuration
    requires a file, it is passed on with an empty list of paths when
    the file is optional, and an optional upload is answered 400
    TOO_MANY_FILES when the configured maximum is negative. *)
Theorem X11_upload_without_files (config : FileUploadConfig) (w : env.World)
  (c : Context) (form : multipart.Form) :
  gin.MultipartForm c = Some form ->
  (multipart.File form !! FieldName config = None \/
   multipart.File form !! FieldName config = Some []) ->
  (Required config = true ->
   FileUploadMiddleware config w c =
     (rejection 400 ("File field '" +:+ FieldName config +:+ "' is required")
        (Some "FILE_REQUIRED"), w)) /\
  (Required config = false -> 0 <= MaxFiles config ->
   FileUploadMiddleware config w c =
     (gin.Next (gin.Set_ (gin.Set_ c "uploadedFiles" (VStrings []))
                  "uploadConfig" (VFileUploadConfig config)), w)) /\
  (Required config = false -> MaxFiles config < 0 ->
   FileUploadMiddleware config w c =
     (rejection 400 ("Maximum " +:+ fmt.d (MaxFiles config) +:+ " files allowed")
        (Some "TOO_MANY_FILES"), w)).
Proof.
  intros Hform Hfiles. unfold FileUploadMiddleware, rejection.
  assert (Hparse : http.ParseMultipartForm (gin.Request c) = true).
  { unfold http.ParseMultipartForm. unfold gin.MultipartForm in Hform. by rewrite Hform. }
  assert (Hnil : default [] (multipart.File form !! FieldName config) = []).
  { by destruct Hfiles as [-> | ->]. }
  rewrite Hparse, Hform, Hnil. cbn [negb length].
  change (Z.of_nat 0) with 0. change (0 =? 0) with true.
  repeat split.
  - intros ->. reflexivity.
  - intros -> Hmax. cbn [andb].
    destruct (Z.gtb_spec 0 (MaxFiles config)); [lia | reflexivity].
  - intros -> Hmax. cbn [andb].
    destruct (Z.gtb_spec 0 (MaxFiles config)); [reflexivity | lia].
Qed.

(** X12.  A part without bytes, or one that cannot be opened, is never
    accepted, whatever the configuration allows: once the size and
    extension checks pass, an empty part is rejected because it cannot
    be read, a part that does not open because it cannot be opened. *)
Theorem X12_empty_file_is_rejected (fileHeader : multipart.FileHeader)
  (config : FileUploadConfig) :
  (multipart.Open fileHeader = None \/ multipart.Open fileHeader = Some "" ->
   validateFile fileHeader config <> None) /\
  (multipart.Size fileHeader <= MaxFileSize config ->
   contains (AllowedExts config)
     (env.ToLower (filepath.Ext (multipart.Filename fileHeader))) = true ->
   (multipart.Open fileHeader = Some "" ->
    validateFile fileHeader config = Some "failed to read file for validation") /\
   (multipart.Open fileHeader = None ->
    validateFile fileHeader config = Some "failed to open file for validation")).
Proof.
  split.
  - intros Hopen Hnone.
    apply validateFile_None_iff in Hnone as (_ & _ & file & Hf & Hne & _).
    destruct Hopen as [Ho|Ho]; rewrite Ho in Hf; [discriminate|].
    inversion Hf; subst. done.
  - intros Hsize Hext. unfold validateFile.
    destruct (Z.gtb_spec (multipart.Size fileHeader) (MaxFileSize config)); [lia|].
    rewrite Hext. cbn [negb]. split; intros ->; reflexivity.
Qed.

End UploadEdges.

(** A form without the field [images], under the image configuration. *)
Lemma X11_upload_without_files_witness :
  (@FileUploadMiddleware sample.platform sample.tiny sample.world0
     (sample.upload "avatar" [sample.picture])).1 =
  rejection 400 "File field 'images' is required" (Some "FILE_REQUIRED").
Proof.
  destruct (@X11_upload_without_files sample.platform sample.tiny sample.world0
              (sample.upload "avatar" [sample.picture])
              (multipart.mkForm {[ "avatar" := [sample.picture] ]}) eq_refl)
    as (Hreq & _).
  - left. vm_compute. reflexivity.
  - by rewrite Hreq.
Defined.

(** A picture file without bytes. *)
Lemma X12_empty_file_is_rejected_witness :
  @validateFile sample.platform
    (multipart.mkFileHeader "cat.jpg" [] 0 (Some "")) ImageUploadConfig =
  Some "failed to read file for validation".
Proof.
  apply (@X12_empty_file_is_rejected sample.platform
           (multipart.mkFileHeader "cat.jpg" [] 0 (Some "")) ImageUploadConfig).
  - discriminate.
  - reflexivity.
  - reflexivity.
Defined.

(** ** Generated names do not collide (file_upload.go) *)

Lemma lacks_app (ch : ascii) (a b : string) :
  lacks ch (a +:+ b) = lacks ch a && lacks ch b.
Proof.
  induction a as [|x a IH]; [reflexivity|].
  unfold String.append; fold String.append. simpl. by rewrite IH, andb_assoc.
Qed.

Lemma lacks_pretty_N_go (x : N) : forall s : string,
  lacks "_" s = true -> lacks "_" (pretty_N_go x s) = true.
Proof.
  induction (N.lt_wf_0 x) as [x _ IH]. intros s Hs.
  destruct (decide (x = 0)%N) as [->|Hx]; [by rewrite pretty_N_go_0|].
  rewrite pretty_N_go_step by lia. apply IH.
  - apply N.div_lt; lia.
  - simpl. rewrite Hs. unfold pretty_N_char. by repeat case_match.
Qed.

Lemma lacks_d (n : Z) : lacks "_" (fmt.d n) = true.
Proof.
  unfold fmt.d, pretty, pretty_Z.
  assert (Hpos : forall q : positive, lacks "_" (pretty q) = true).
  { intros q. unfold pretty, pretty_positive, pretty, pretty_N.
    destruct (decide (N.pos q = 0%N)); [reflexivity|]. by apply lacks_pretty_N_go. }
  destruct n as [|q|q]; [reflexivity | apply Hpos |].
  rewrite lacks_app. by rewrite Hpos.
Qed.

Lemma lacks_Hex (id : primitive.ObjectID) : lacks "_" (primitive.Hex id) = true.
Proof.
  induction id as [|c id IH]; [reflexivity|].
  simpl. rewrite IH.
  by destruct c as [[] [] [] [] [] [] [] []].
Qed.

(** Two digits are read back as the byte they were written from. *)
Lemma unhex_hexdigits (c : ascii) :
  fixtures2.unhex (primitive.hexdigit (N_of_ascii c / 16))
                  (primitive.hexdigit (N_of_ascii c mod 16)) = c.
Proof. by destruct c as [[] [] [] [] [] [] [] []]. Qed.

Lemma Hex_inj (a : primitive.ObjectID) : forall b : primitive.ObjectID,
  primitive.Hex a = primitive.Hex b -> a = b.
Proof.
  induction a as [|x a IH]; intros [|y b] Heq; simpl in Heq; try discriminate.
  - reflexivity.
  - inversion Heq as [[Hhi Hlo Hrest]].
    rewrite <- (unhex_hexdigits x), <- (unhex_hexdigits y), Hhi, Hlo.
    f_equal. by apply IH.
Qed.

(** A string is cut in one way only at its last occurrence of a byte. *)
Lemma split_at_last (ch : ascii) (a : string) : forall (b h h' : string),
  lacks ch h = true -> lacks ch h' = true ->
  a +:+ String ch h = b +:+ String ch h' -> a = b /\ h = h'.
Proof.
  assert (Hhas : forall x y : string, lacks ch (x +:+ String ch y) = false).
  { intros x y. rewrite lacks_app. simpl. rewrite Ascii.eqb_refl. simpl.
    by rewrite andb_false_r. }
  induction a as [|x a IH]; intros [|y b] h h' Hh Hh' Heq.
  - inversion Heq. auto.
  - change ("" +:+ String ch h) with (String ch h) in Heq.
    unfold String.append in Heq; fold String.append in Heq.
    inversion Heq; subst. by rewrite Hhas in Hh.
  - change ("" +:+ String ch h') with (String ch h') in Heq.
    unfold String.append in Heq; fold String.append in Heq.
    inversion Heq; subst. by rewrite Hhas in Hh'.
  - unfold String.append in Heq; fold String.append in Heq.
    inversion Heq; subst. destruct (IH b h h' Hh Hh') as [-> ->]; auto.
Qed.

Lemma append_cancel_r (e : string) (a : string) : forall b : string,
  a +:+ e = b +:+ e -> a = b.
Proof.
  induction a as [|x a IH]; intros [|y b] Heq.
  - reflexivity.
  - apply (f_equal String.length) in Heq.
    change ("" +:+ e) with e in Heq.
    unfold String.append in Heq; fold String.append in Heq. simpl in Heq.
    rewrite length_append in Heq. lia.
  - apply (f_equal String.length) in Heq.
    change ("" +:+ e) with e in Heq.
    unfold String.append in Heq; fold String.append in Heq. simpl in Heq.
    rewrite length_append in Heq. lia.
  - unfold String.append in Heq; fold String.append in Heq.
    inversion Heq; subst. f_equal. by apply IH.
Qed.

(** The parts of a generated name can be read back from it. *)
Lemma generated_name_inj (name1 name2 : string) (ts1 ts2 : Z)
  (oid1 oid2 : primitive.ObjectID) (orig1 orig2 : string) :
  name1 +:+ filepath.Ext orig1 = orig1 ->
  name2 +:+ filepath.Ext orig2 = orig2 ->
  name1 +:+ "_" +:+ fmt.d ts1 +:+ "_" +:+ primitive.Hex oid1 +:+ filepath.Ext orig1 =
  name2 +:+ "_" +:+ fmt.d ts2 +:+ "_" +:+ primitive.Hex oid2 +:+ filepath.Ext orig2 ->
  orig1 = orig2 /\ ts1 = ts2 /\ oid1 = oid2.
Proof.
  intros H1 H2 Heq.
  assert (Hext : filepath.Ext orig1 = filepath.Ext orig2).
  { rewrite <- (Ext_generated name1 ts1 oid1 orig1 H1).
    rewrite <- (Ext_generated name2 ts2 oid2 orig2 H2). by rewrite Heq. }
  rewrite Hext in Heq, H1.
  replace (name1 +:+ "_" +:+ fmt.d ts1 +:+ "_" +:+ primitive.Hex oid1 +:+ filepath.Ext orig2)
    with ((name1 +:+ "_" +:+ fmt.d ts1 +:+ "_" +:+ primitive.Hex oid1) +:+ filepath.Ext orig2)
    in Heq by (by rewrite !append_assoc).
  replace (name2 +:+ "_" +:+ fmt.d ts2 +:+ "_" +:+ primitive.Hex oid2 +:+ filepath.Ext orig2)
    with ((name2 +:+ "_" +:+ fmt.d ts2 +:+ "_" +:+ primitive.Hex oid2) +:+ filepath.Ext orig2)
    in Heq by (by rewrite !append_assoc).
  apply append_cancel_r in Heq.
  replace (name1 +:+ "_" +:+ fmt.d ts1 +:+ "_" +:+ primitive.Hex oid1)
    with ((name1 +:+ "_" +:+ fmt.d ts1) +:+ String "_" (primitive.Hex oid1))
    in Heq by (by rewrite !append_assoc).
  replace (name2 +:+ "_" +:+ fmt.d ts2 +:+ "_" +:+ primitive.Hex oid2)
    with ((name2 +:+ "_" +:+ fmt.d ts2) +:+ String "_" (primitive.Hex oid2))
    in Heq by (by rewrite !append_assoc).
  apply split_at_last in Heq as [Hhead Hhex]; try apply lacks_Hex.
  change (name1 +:+ "_" +:+ fmt.d ts1) with (name1 +:+ String "_" (fmt.d ts1)) in Hhead.
  change (name2 +:+ "_" +:+ fmt.d ts2) with (name2 +:+ String "_" (fmt.d ts2)) in Hhead.
  apply split_at_last in Hhead as [Hname Hd]; try apply lacks_d.
  split; [congruence|]. split.
  - unfold fmt.d in Hd. by apply (inj pretty) in Hd.
  - by apply Hex_inj.
Qed.

(** X13.  Generated file names do not collide: when two calls of
    [generateUniqueFilename] return the same name, they were given the
    same original file name, read the same Unix second and drew the same
    ObjectID; so names generated with different ObjectIDs differ. *)
Theorem X13_generated_names_do_not_collide `{env.Platform} (w1 w2 : env.World)
  (originalFilename1 originalFilename2 : string) :
  (middleware.generateUniqueFilename w1 originalFilename1).1 =
  (middleware.generateUniqueFilename w2 originalFilename2).1 ->
  originalFilename1 = originalFilename2 /\
  env.Unix (env.Now (env.reads w1)) = env.Unix (env.Now (env.reads w2)) /\
  env.NewObjectID (S (env.reads w1)) = env.NewObjectID (S (env.reads w2)).
Proof.
  rewrite !generateUniqueFilename_eq. cbn [fst].
  apply generated_name_inj; apply name_ext_split.
Qed.

(** The same picture name generated at two readings of the sample
    platform: the names differ, as the ObjectIDs do. *)
Lemma X13_generated_names_do_not_collide_witness :
  (@middleware.generateUniqueFilename sample.platform sample.world0 "cat.JPG").1 <>
  (@middleware.generateUniqueFilename sample.platform (env.mkWorld [] 2) "cat.JPG").1.
Proof.
  intros Heq.
  apply (@X13_generated_names_do_not_collide sample.platform sample.world0
           (env.mkWorld [] 2) "cat.JPG" "cat.JPG") in Heq as (_ & _ & Hid).
  vm_compute in Hid. discriminate.
Defined.

(** ** The file handler on a context of file headers (file handler) *)

Section FileHandlerFurther.
Context `{env.Platform}.

Lemma handlers_processFiles_cons (uploadConfig : FileUploadConfig)
  (fileHeader : multipart.FileHeader) (rest : list multipart.FileHeader)
  (w : env.World) (infos : list JSONValue) :
  handlers.processFiles (fileHeader :: rest) uploadConfig w infos =
  let filename := (middleware.generateUniqueFilename w (multipart.Filename fileHeader)).1 in
  let w1 := (middleware.generateUniqueFilename w (multipart.Filename fileHeader)).2 in
  let path := env.Join (UploadPath uploadConfig) filename in
  let w2 := env.mkWorld
              (env.events w1 ++ [env.EvSaveUploadedFile fileHeader path
                                   (env.saveSucceeds w1 fileHeader path)])
              (env.reads w1) in
  if negb (env.saveSucceeds w1 fileHeader path)
  then (inl (http.StatusInternalServerError,
             {| Success := false; Message := "Failed to save file";
                Data := None; Error := Some "FILE_SAVE_FAILED" |}), w2)
  else
    handlers.processFiles rest uploadConfig
      (env.mkWorld (env.events w2) (S (env.reads w2)))
      (infos ++ [JObject [("original_name", JString (multipart.Filename fileHeader));
                          ("filename", JString filename);
                          ("size", JNumber (multipart.Size fileHeader));
                          ("path", JString path);
                          ("uploaded_at", JTime (env.Now (env.reads w2)))]]).
Proof. reflexivity. Qed.

(** When the loop of the handler succeeds: one save per header, under a
    generated name with the header's extension, and one file info per
    header appended. *)
Lemma handlers_processFiles_success (uploadConfig : FileUploadConfig)
  (files : list multipart.FileHeader) :
  forall (w w' : env.World) (infos result : list JSONValue),
  handlers.processFiles files uploadConfig w infos = (inr result, w') ->
  exists names : list string,
    length names = length files /\
    length result = (length infos + length files)%nat /\
    Forall2 (fun fh name => filepath.Ext name = filepath.Ext (multipart.Filename fh))
            files names /\
    env.events w' = env.events w ++
      zip_with (fun fh name =>
                  env.EvSaveUploadedFile fh (env.Join (UploadPath uploadConfig) name) true)
               files names.
Proof.
  induction files as [|fh rest IH]; intros w w' infos result Hrun.
  - simpl in Hrun. inversion Hrun; subst. exists []. simpl.
    rewrite app_nil_r. repeat split; auto with lia.
  - rewrite handlers_processFiles_cons in Hrun. cbv zeta in Hrun.
    pose proof (generateUniqueFilename_Ext w (multipart.Filename fh)) as Hext.
    pose proof (generateUniqueFilename_eq w (multipart.Filename fh)) as Hgen.
    destruct (middleware.generateUniqueFilename w (multipart.Filename fh)) as [filename w1].
    cbn [fst snd] in *. inversion Hgen as [[Hname Hw1]]. clear Hgen.
    destruct (env.saveSucceeds w1 fh (env.Join (UploadPath uploadConfig) filename)) eqn:Hsv;
      [|discriminate].
    cbn [negb] in Hrun. apply IH in Hrun as (names & Hlen & Hres & HF & Hev).
    exists (filename :: names). simpl in *.
    split; [by rewrite Hlen|]. split.
    { rewrite Hres, length_app. simpl. lia. }
    split; [constructor; assumption|].
    rewrite Hev, Hw1. simpl. rewrite <- app_assoc. reflexivity.
Qed.

Lemma handlers_processFiles_failure (uploadConfig : FileUploadConfig)
  (files : list multipart.FileHeader) :
  forall (w w' : env.World) (infos : list JSONValue) (code : Z) (obj : APIResponse),
  handlers.processFiles files uploadConfig w infos = (inl (code, obj), w') ->
  code = 500 /\ Success obj = false.
Proof.
  induction files as [|fh rest IH]; intros w w' infos code obj Hrun; [discriminate|].
  rewrite handlers_processFiles_cons in Hrun. cbv zeta in Hrun.
  destruct (negb _); [by inversion Hrun|]. by apply IH in Hrun.
Qed.

(** X14.  [UploadFile] answers 400 NO_FILES, without touching the file
    system, when the context holds nothing under [uploadedFiles].  When
    the context holds file headers and an upload configuration and the
    handler answers 200, it has created the upload directory once and
    saved every header, in order, under a generated name with the
    header's extension, and it reports as many files as it was given,
    without validating any of them. *)
Theorem X14_file_handler (w w' : env.World) (c : Context)
  (files : list multipart.FileHeader) (uploadConfig : FileUploadConfig)
  (obj : APIResponse) :
  (gin.Get c "uploadedFiles" = None ->
   handlers.UploadFile w c = (rejection 400 "No files found" (Some "NO_FILES"), w)) /\
  (gin.Get c "uploadedFiles" = Some (VFileHeaders files) ->
   gin.Get c "uploadConfig" = Some (VFileUploadConfig uploadConfig) ->
   handlers.UploadFile w c = (gin.JSON 200 obj, w') ->
   exists (names : list string) (infos : list JSONValue),
     length names = length files /\ length infos = length files /\
     Forall2 (fun fh name => filepath.Ext name = filepath.Ext (multipart.Filename fh))
             files names /\
     env.events w' = env.events w ++
       env.EvMkdirAll (UploadPath uploadConfig) true ::
       zip_with (fun fh name =>
                   env.EvSaveUploadedFile fh (env.Join (UploadPath uploadConfig) name) true)
                files names /\
     Success obj = true /\
     Data obj = Some (JObject [("files", match infos with
                                          | [] => JNull
                                          | _ => JArray infos
                                          end);
                               ("count", JNumber (Z.of_nat (length files)))])).
Proof.
  unfold handlers.UploadFile, rejection. split.
  - intros ->. reflexivity.
  - intros -> ->.
    unfold env.MkdirAll.
    destruct (env.mkdirSucceeds w (UploadPath uploadConfig)) eqn:Hmk; cbn [negb].
    2:{ intros Heq. inversion Heq. }
    set (w1 := env.mkWorld (env.events w ++ [env.EvMkdirAll (UploadPath uploadConfig) true])
                 (env.reads w)).
    destruct (handlers.processFiles files uploadConfig w1 [])
      as [[[code obj']|infos] w2] eqn:Hrun.
    + intros Heq. inversion Heq; subst.
      apply handlers_processFiles_failure in Hrun as [Hcode _]. discriminate.
    + intros Heq. inversion Heq; subst w2 obj; clear Heq.
      apply handlers_processFiles_success in Hrun as (names & Hlen & Hres & HF & Hev).
      exists names, infos. simpl in Hres.
      split; [exact Hlen|]. split; [exact Hres|]. split; [exact HF|]. split.
      { rewrite Hev. unfold w1. simpl. rewrite <- app_assoc. reflexivity. }
      split; [reflexivity|]. simpl. by rewrite Hres.
Qed.

End FileHandlerFurther.

(** A context that holds a picture's header and the image configuration:
    the handler saves the picture and reports one file. *)
Lemma X14_file_handler_witness :
  exists (obj : APIResponse) (w' : env.World) (names : list string),
    @handlers.UploadFile sample.platform sample.world0
      (gin.Set_ (gin.Set_ (sample.client "10.0.0.7") "uploadedFiles"
                   (VFileHeaders [sample.picture]))
         "uploadConfig" (VFileUploadConfig sample.tiny)) = (gin.JSON 200 obj, w') /\
    length names = 1%nat /\
    env.events w' =
      env.EvMkdirAll "./uploads/images" true ::
      zip_with (fun fh name =>
                  env.EvSaveUploadedFile fh ("./uploads/images" +:+ "/" +:+ name) true)
               [sample.picture] names.
Proof.
  assert (Hrun : exists (obj : APIResponse) (w' : env.World),
            @handlers.UploadFile sample.platform sample.world0
              (gin.Set_ (gin.Set_ (sample.client "10.0.0.7") "uploadedFiles"
                           (VFileHeaders [sample.picture]))
                 "uploadConfig" (VFileUploadConfig sample.tiny)) = (gin.JSON 200 obj, w')).
  { eexists. eexists. vm_compute. reflexivity. }
  destruct Hrun as (obj & w' & Hrun).
  destruct (proj2 (@X14_file_handler sample.platform sample.world0 w'
              (gin.Set_ (gin.Set_ (sample.client "10.0.0.7") "uploadedFiles"
                           (VFileHeaders [sample.picture]))
                 "uploadConfig" (VFileUploadConfig sample.tiny))
              [sample.picture] sample.tiny obj) eq_refl eq_refl Hrun)
    as (names & infos & Hlen & _ & _ & Hev & _).
  exists obj, w', names. split; [exact Hrun|]. split; [exact Hlen | exact Hev].
Defined.


(** * Part IV: the user services and handlers *)

Section ServiceProperties.
Context {DB : Type} `{interfaces.UserRepository DB} `{interfaces.Helpers}.

Import apperrors interfaces usermodels services userhandlers.

(** The outcomes of the service's lookup by id. *)
Lemma GetByID_cases (db : DB) (id : primitive.ObjectID) :
  GetByID_ db id =
  match GetByID db id with
  | (inl user, db1) => (inl (ToResponse user), db1)
  | (inr ErrNoDocuments, db1) => (inr (App ErrUserNotFound), db1)
  | (inr _, db1) => (inr (App ErrInternalServer), db1)
  end.
Proof.
  unfold GetByID_. destruct (GetByID db id) as [[user|[]] db1]; reflexivity.
Qed.

(** X15 (List and ListUsers).  Whatever a client sends as page and
    limit, the store is asked for a page that is at least 1 and for
    between 1 and 100 users: a page below 1 becomes 1, a limit outside
    1..100 becomes 10, and values within the bounds are kept.  The
    listing reports this page and limit, the total of the store, and one
    response per user in the order of the store; a failure of the store
    is a 500 with the tag INTERNAL. *)
Theorem X15_listing_is_clamped (db : DB) (c : Route) :
  exists page limit : Z,
    1 <= page /\ 1 <= limit <= 100 /\
    page = Z.max 1 (Atoi (DefaultQuery c "page" "1")) /\
    (1 <= Atoi (DefaultQuery c "limit" "10") <= 100 ->
     limit = Atoi (DefaultQuery c "limit" "10")) /\
    (~ 1 <= Atoi (DefaultQuery c "limit" "10") <= 100 -> limit = 10) /\
    ListUsers db c =
    match List db page limit with
    | (inr _, db1) =>
        (Answer 500 false "Internal server error" None (Some "INTERNAL"), db1)
    | (inl (users, total), db1) =>
        (Listing 200
           {| usermodels.Success := true;
              usermodels.Message := "Users retrieved successfully";
              usermodels.Data := map ToResponse users;
              Pagination_ := {| Page := page; Limit := limit; Total := total;
                                TotalPages := ceilOfQuotient total limit |} |}, db1)
    end.
Proof.
  unfold ListUsers, List_.
  set (p := Atoi (DefaultQuery c "page" "1")).
  set (l := Atoi (DefaultQuery c "limit" "10")).
  exists (if p <? 1 then 1 else p), (if (l <? 1) || (l >? 100) then 10 else l).
  assert (Hp : (if p <? 1 then 1 else p) = Z.max 1 p) by (destruct (Z.ltb_spec p 1); lia).
  assert (Hl : 1 <= (if (l <? 1) || (l >? 100) then 10 else l) <= 100).
  { destruct (Z.ltb_spec l 1); [simpl; lia|].
    rewrite Z.gtb_ltb. destruct (Z.ltb_spec 100 l); simpl; lia. }
  split; [rewrite Hp; lia|]. split; [exact Hl|]. split; [exact Hp|].
  split.
  { intros Hin. destruct (Z.ltb_spec l 1); [lia|].
    rewrite Z.gtb_ltb. destruct (Z.ltb_spec 100 l); [lia|]. reflexivity. }
  split.
  { intros Hout. destruct (Z.ltb_spec l 1); [reflexivity|].
    rewrite Z.gtb_ltb. destruct (Z.ltb_spec 100 l); [reflexivity|]. lia. }
  destruct (List db _ _) as [[[users total]|err] db1]; reflexivity.
Qed.

Lemma applyUpdate_fields (user : User.t) (req : UpdateUserRequest.t) :
  let user' := applyUpdate user req in
  User.ID user' = User.ID user /\
  User.Password user' = User.Password user /\
  User.CreatedAt user' = User.CreatedAt user /\
  User.UpdatedAt user' = User.UpdatedAt user /\
  User.Username user' =
    (if String.eqb (UpdateUserRequest.Username req) "" then User.Username user
     else UpdateUserRequest.Username req) /\
  User.Email user' =
    (if String.eqb (UpdateUserRequest.Email req) "" then User.Email user
     else UpdateUserRequest.Email req) /\
  User.FirstName user' =
    (if String.eqb (UpdateUserRequest.FirstName req) "" then User.FirstName user
     else UpdateUserRequest.FirstName req) /\
  User.LastName user' =
    (if String.eqb (UpdateUserRequest.LastName req) "" then User.LastName user
     else UpdateUserRequest.LastName req) /\
  User.Role user' =
    (if String.eqb (UpdateUserRequest.Role req) "" then User.Role user
     else UpdateUserRequest.Role req) /\
  User.Avatar user' =
    (if String.eqb (UpdateUserRequest.Avatar req) "" then User.Avatar user
     else UpdateUserRequest.Avatar req) /\
  User.IsActive user' = default (User.IsActive user) (UpdateUserRequest.IsActive req).
Proof.
  unfold applyUpdate.
  destruct (String.eqb (UpdateUserRequest.Username req) ""),
    (String.eqb (UpdateUserRequest.Email req) ""),
    (String.eqb (UpdateUserRequest.FirstName req) ""),
    (String.eqb (UpdateUserRequest.LastName req) ""),
    (String.eqb (UpdateUserRequest.Role req) ""),
    (String.eqb (UpdateUserRequest.Avatar req) ""),
    (UpdateUserRequest.IsActive req);
    destruct user; repeat split; reflexivity.
Qed.

Lemma User_eq (u v : User.t) :
  User.ID u = User.ID v -> User.Username u = User.Username v ->
  User.Email u = User.Email v -> User.Password u = User.Password v ->
  User.FirstName u = User.FirstName v -> User.LastName u = User.LastName v ->
  User.Role u = User.Role v -> User.Avatar u = User.Avatar v ->
  User.IsActive u = User.IsActive v -> User.CreatedAt u = User.CreatedAt v ->
  User.UpdatedAt u = User.UpdatedAt v -> u = v.
Proof. destruct u, v; simpl; intros; congruence. Qed.

(** A field that the request repeats, or leaves out, stays as it is: an
    update with the values the user already has changes nothing. *)
Lemma applyUpdate_same (user : User.t) (req : UpdateUserRequest.t) :
  applyUpdate (applyUpdate user req) req = applyUpdate user req.
Proof.
  pose proof (applyUpdate_fields user req) as Hf.
  pose proof (applyUpdate_fields (applyUpdate user req) req) as Hg.
  cbv zeta in Hf, Hg.
  destruct Hf as (F1 & F2 & F3 & F4 & F5 & F6 & F7 & F8 & F9 & F10 & F11).
  destruct Hg as (G1 & G2 & G3 & G4 & G5 & G6 & G7 & G8 & G9 & G10 & G11).
  apply User_eq; try assumption.
  - rewrite G5. destruct (String.eqb (UpdateUserRequest.Username req) ""); congruence.
  - rewrite G6. destruct (String.eqb (UpdateUserRequest.Email req) ""); congruence.
  - rewrite G7. destruct (String.eqb (UpdateUserRequest.FirstName req) ""); congruence.
  - rewrite G8. destruct (String.eqb (UpdateUserRequest.LastName req) ""); congruence.
  - rewrite G9. destruct (String.eqb (UpdateUserRequest.Role req) ""); congruence.
  - rewrite G10. destruct (String.eqb (UpdateUserRequest.Avatar req) ""); congruence.
  - rewrite G11. destruct (UpdateUserRequest.IsActive req); simpl in *; congruence.
Qed.

(** X16 (Update).  For a user the store holds, the service hands the
    store a user with the same id, password hash and time stamps; each
    text field is the one of the request when the request gives it and
    the stored one when the request leaves it empty, so an update cannot
    blank a field; [IsActive] changes only when the request carries it.
    A request with nothing in it hands the stored user back unchanged,
    and applying a request a second time changes nothing more.  The
    answer is the user as the store leaves it, or a 500. *)
Theorem X16_update_merges_fields (db db1 : DB) (id : primitive.ObjectID)
  (req : UpdateUserRequest.t) (user : User.t) :
  GetByID db id = (inl user, db1) ->
  exists user' : User.t,
    Update_ db id req =
      match Update db1 user' with
      | (inr _, db2) => (inr (App ErrInternalServer), db2)
      | (inl stored, db2) => (inl (ToResponse stored), db2)
      end /\
    User.ID user' = User.ID user /\
    User.Password user' = User.Password user /\
    User.CreatedAt user' = User.CreatedAt user /\
    User.UpdatedAt user' = User.UpdatedAt user /\
    User.Username user' =
      (if String.eqb (UpdateUserRequest.Username req) "" then User.Username user
       else UpdateUserRequest.Username req) /\
    User.Email user' =
      (if String.eqb (UpdateUserRequest.Email req) "" then User.Email user
       else UpdateUserRequest.Email req) /\
    User.FirstName user' =
      (if String.eqb (UpdateUserRequest.FirstName req) "" then User.FirstName user
       else UpdateUserRequest.FirstName req) /\
    User.LastName user' =
      (if String.eqb (UpdateUserRequest.LastName req) "" then User.LastName user
       else UpdateUserRequest.LastName req) /\
    User.Role user' =
      (if String.eqb (UpdateUserRequest.Role req) "" then User.Role user
       else UpdateUserRequest.Role req) /\
    User.Avatar user' =
      (if String.eqb (UpdateUserRequest.Avatar req) "" then User.Avatar user
       else UpdateUserRequest.Avatar req) /\
    User.IsActive user' = default (User.IsActive user) (UpdateUserRequest.IsActive req) /\
    (req = UpdateUserRequest.mk "" "" "" "" "" "" None -> user' = user) /\
    applyUpdate user' req = user'.
Proof.
  intros Hget. exists (applyUpdate user req).
  split; [unfold Update_; rewrite Hget; reflexivity|].
  pose proof (applyUpdate_fields user req) as Hf. cbv zeta in Hf.
  destruct Hf as (F1 & F2 & F3 & F4 & F5 & F6 & F7 & F8 & F9 & F10 & F11).
  repeat (split; [assumption|]).
  split; [|apply applyUpdate_same].
  intros ->. destruct user; reflexivity.
Qed.

(** X17 (Login).  A login succeeds exactly when the store holds a user
    with the e-mail of the request, the user is active, the password
    matches the stored hash, and a token can be generated; the token is
    the one generated for the id, e-mail and role of that user with the
    secret of the service and a lifetime of 24 hours, and the response
    describes that user.  The expiry the service was configured with
    plays no part: a service with any other expiry answers the same. *)
Theorem X17_login_succeeds_iff (s : AuthService) (db db' : DB) (req : LoginRequest.t)
  (resp : AuthResponse) :
  (Login s db req = (inl resp, db') <->
   exists user : User.t,
     GetByEmail db (LoginRequest.Email req) = (inl user, db') /\
     User.IsActive user = true /\
     CheckPasswordHash (LoginRequest.Password req) (User.Password user) = true /\
     GenerateJWT (User.ID user) (User.Email user) (User.Role user) (jwtSecret s)
       (24 * 3600 * 1000000000) = inl (Token resp) /\
     User_ resp = ToResponse user) /\
  (forall expiry : string,
     Login (mkAuthService (jwtSecret s) expiry) db req = Login s db req).
Proof.
  split; [|reflexivity].
  unfold Login. change day with (24 * 3600 * 1000000000).
  destruct (GetByEmail db _) as [[user|err] db1].
  - destruct (User.IsActive user) eqn:Hact; cbn [negb].
    + destruct (CheckPasswordHash _ _) eqn:Hpw; cbn [negb].
      * destruct (GenerateJWT _ _ _ _ _) as [token|e] eqn:Hjwt.
        -- split.
           ++ intros Heq. inversion Heq; subst. exists user. by rewrite Hjwt.
           ++ intros (u & Hu & _ & _ & Hj & Hr). inversion Hu; subst.
              rewrite Hjwt in Hj. inversion Hj; subst.
              destruct resp; simpl in *; subst; reflexivity.
        -- split; [discriminate|].
           intros (u & Hu & _ & _ & Hj & _). inversion Hu; subst. congruence.
      * split; [discriminate|].
        intros (u & Hu & _ & Hc & _). inversion Hu; subst. congruence.
    + split; [discriminate|].
      intros (u & Hu & Ha & _). inversion Hu; subst. congruence.
  - split; [destruct err; discriminate|].
    intros (u & Hu & _). discriminate.
Qed.

(** X18 (Login).  A login that fails has called the store once, for the
    lookup by e-mail, and fails with one of three errors.  An unknown
    e-mail and a wrong password give the same error, 401
    INVALID_CREDENTIALS.  An account that is not active gives 401
    UNAUTHORIZED whatever the password, and this error is given for no
    other reason. *)
Theorem X18_login_errors (s : AuthService) (db db' : DB) (req : LoginRequest.t)
  (err : error) :
  Login s db req = (inr err, db') ->
  db' = (GetByEmail db (LoginRequest.Email req)).2 /\
  (err = App ErrInvalidCredentials \/ err = App ErrUnAuthorized \/
   err = App ErrInternalServer) /\
  (GetByEmail db (LoginRequest.Email req) = (inr ErrNoDocuments, db') ->
   err = App ErrInvalidCredentials) /\
  (forall user : User.t,
     GetByEmail db (LoginRequest.Email req) = (inl user, db') ->
     User.IsActive user = true ->
     CheckPasswordHash (LoginRequest.Password req) (User.Password user) = false ->
     err = App ErrInvalidCredentials) /\
  (err = App ErrUnAuthorized <->
   exists user : User.t,
     GetByEmail db (LoginRequest.Email req) = (inl user, db') /\
     User.IsActive user = false).
Proof.
  unfold Login.
  destruct (GetByEmail db _) as [[user|e] db1].
  - destruct (User.IsActive user) eqn:Hact; cbn [negb].
    + destruct (CheckPasswordHash _ _) eqn:Hpw; cbn [negb].
      * destruct (GenerateJWT _ _ _ _ _) as [token|e]; [discriminate|].
        intros Heq; inversion Heq; subst. simpl.
        split; [reflexivity|]. split; [auto|]. split; [discriminate|].
        split; [intros u Hu; inversion Hu; subst; congruence|].
        split; [discriminate|].
        intros (u & Hu & Ha). inversion Hu; subst. congruence.
      * intros Heq; inversion Heq; subst. simpl.
        split; [reflexivity|]. split; [auto|]. split; [discriminate|].
        split; [reflexivity|].
        split; [discriminate|].
        intros (u & Hu & Ha). inversion Hu; subst. congruence.
    + intros Heq; inversion Heq; subst. simpl.
      split; [reflexivity|]. split; [auto|]. split; [discriminate|].
      split; [intros u Hu; inversion Hu; subst; congruence|].
      split; [eauto|reflexivity].
  - destruct e; intros Heq; inversion Heq; subst; simpl;
      (split; [reflexivity|]); (split; [auto|]);
      (split; [intros Hu; try reflexivity; discriminate|]);
      (split; [intros u Hu; discriminate|]);
      (split; [discriminate|intros (u & Hu & _); discriminate]).
Qed.

(** X19 (Create).  Creating a user is refused with 409 USER_EXISTS
    exactly when the lookup by e-mail finds a user, or fails and the
    lookup by user name finds one; the store is then left as the lookups
    left it.  A lookup that fails for any reason, not only because there
    is no such user, counts as the name being free. *)
Theorem X19_create_refuses_duplicates (db db' : DB) (req : CreateUserRequest.t) :
  Create_ db req = (inr (App ErrUserExists), db') <->
  (exists user : User.t,
     GetByEmail db (CreateUserRequest.Email req) = (inl user, db')) \/
  (exists (err : error) (db1 : DB) (user : User.t),
     GetByEmail db (CreateUserRequest.Email req) = (inr err, db1) /\
     GetByUsername db1 (CreateUserRequest.Username req) = (inl user, db')).
Proof.
  unfold Create_.
  destruct (GetByEmail db _) as [[u|e] db1].
  - split.
    + intros Heq; inversion Heq; subst. left. eauto.
    + intros [(u' & Hu)|(e & d & u' & Hu & _)]; [|discriminate].
      inversion Hu; subst. reflexivity.
  - destruct (GetByUsername db1 _) as [[u|e2] db2] eqn:Hname.
    + split.
      * intros Heq; inversion Heq; subst. right. eauto.
      * intros [(u' & Hu)|(e' & d & u' & Hu & Hn)]; [discriminate|].
        inversion Hu; subst. rewrite Hname in Hn. inversion Hn; subst. reflexivity.
    + split.
      * destruct (HashPassword _) as [h|e3]; [|discriminate].
        destruct (Create db2 _) as [[u|e4] db3]; discriminate.
      * intros [(u' & Hu)|(e' & d & u' & Hu & Hn)]; [discriminate|].
        inversion Hu; subst. rewrite Hname in Hn. discriminate.
Qed.

(** X20 (Register and Create).  Registering is creating the user and
    then generating a token for the id, e-mail and role of the created
    user, with a lifetime of 24 hours: an error of the creation is the
    error of the registration, and the user is created with the hash of
    the password, active, whatever the request says.  When the token
    cannot be generated the registration fails with 500 INTERNAL although
    the store already holds the user. *)
Theorem X20_register_creates_then_signs (s : AuthService) (db : DB)
  (req : CreateUserRequest.t) :
  Register s db req =
  match Create_ db req with
  | (inr err, db') => (inr err, db')
  | (inl created, db') =>
      match GenerateJWT (UserResponse.ID created) (UserResponse.Email created)
              (UserResponse.Role created) (jwtSecret s) (24 * 3600 * 1000000000) with
      | inr _ => (inr (App ErrInternalServer), db')
      | inl token => (inl (mkAuthResponse token created), db')
      end
  end /\
  (forall (created : UserResponse.t) (db' : DB),
     Create_ db req = (inl created, db') ->
     exists (hashedPassword : string) (db2 : DB) (user : User.t),
       HashPassword (CreateUserRequest.Password req) = inl hashedPassword /\
       Create db2 {| User.ID := NilObjectID;
                     User.Username := CreateUserRequest.Username req;
                     User.Email := CreateUserRequest.Email req;
                     User.Password := hashedPassword;
                     User.FirstName := CreateUserRequest.FirstName req;
                     User.LastName := CreateUserRequest.LastName req;
                     User.Role := CreateUserRequest.Role req;
                     User.Avatar := "";
                     User.IsActive := true;
                     User.CreatedAt := 0;
                     User.UpdatedAt := 0 |} = (inl user, db') /\
       created = ToResponse user).
Proof.
  split.
  - unfold Register, Create_. change day with (24 * 3600 * 1000000000).
    destruct (GetByEmail db _) as [[u|e] db1]; [reflexivity|].
    destruct (GetByUsername db1 _) as [[u|e2] db2]; [reflexivity|].
    destruct (HashPassword _) as [h|e3]; [|reflexivity].
    destruct (Create db2 _) as [[u|e4] db3]; reflexivity.
  - intros created db'. unfold Create_.
    destruct (GetByEmail db _) as [[u|e] db1]; [discriminate|].
    destruct (GetByUsername db1 _) as [[u|e2] db2]; [discriminate|].
    destruct (HashPassword _) as [h|e3]; [|discriminate].
    destruct (Create db2 _) as [[u|e4] db3] eqn:Hc; [|discriminate].
    intros Heq; inversion Heq; subst. exists h, db2, u. auto.
Qed.

(** X21 (GetUser and GetByID).  The answers of the route that shows a
    user: 400 without a call of the store when the id of the path is
    not an ObjectID; 200 with the user when the store holds it; 404
    USER_NOT_FOUND when the store has no such document; 500 INTERNAL for
    every other error of the store. *)
Theorem X21_get_user_answers (db : DB) (c : Route) :
  GetUser db c =
  match ObjectIDFromHex (Param c "id") with
  | inr _ => (Answer 400 false "Invalid user ID" None None, db)
  | inl id =>
      match GetByID db id with
      | (inl user, db1) =>
          (Answer 200 true "User retrieved successfully" (Some (ToResponse user)) None, db1)
      | (inr ErrNoDocuments, db1) =>
          (Answer 404 false "User not found" None (Some "USER_NOT_FOUND"), db1)
      | (inr _, db1) =>
          (Answer 500 false "Internal server error" None (Some "INTERNAL"), db1)
      end
  end.
Proof.
  unfold GetUser. destruct (ObjectIDFromHex _) as [id|e]; [|reflexivity].
  rewrite GetByID_cases. destruct (GetByID db id) as [[user|[]] db1]; reflexivity.
Qed.

(** X22 (DeleteUser and Delete).  The store is asked to delete only a
    user that a lookup has just found: with a malformed id the store is
    not called at all, and when the lookup fails the answer is 404
    USER_NOT_FOUND or 500 INTERNAL and the store is as the lookup left
    it.  The answer is 200 exactly when the id is well formed, the
    lookup finds the user and the deletion returns no error.  An error
    of the deletion itself reaches the handler as it is: one that is
    not an application error, be it that the document is gone, gives a
    500 without an error tag. *)
Theorem X22_delete_user_answers (db : DB) (c : Route) :
  DeleteUser db c =
  match ObjectIDFromHex (Param c "id") with
  | inr _ => (Answer 400 false "Invalid user ID" None None, db)
  | inl id =>
      match GetByID db id with
      | (inr ErrNoDocuments, db1) =>
          (Answer 404 false "User not found" None (Some "USER_NOT_FOUND"), db1)
      | (inr _, db1) =>
          (Answer 500 false "Internal server error" None (Some "INTERNAL"), db1)
      | (inl _, db1) =>
          match Delete db1 id with
          | (None, db2) => (Answer 200 true "User deleted successfully" None None, db2)
          | (Some (App e), db2) =>
              (Answer (Code e) false (apperrors.Message e) None (Some (Type_ e)), db2)
          | (Some _, db2) =>
              (Answer 500 false "Internal server error" None None, db2)
          end
      end
  end.
Proof.
  unfold DeleteUser. destruct (ObjectIDFromHex _) as [id|e]; [|reflexivity].
  unfold Delete_. destruct (GetByID db id) as [[user|[]] db1]; try reflexivity.
  destruct (Delete db1 id) as [[[]|] db2]; reflexivity.
Qed.

End ServiceProperties.

Section ProfileRoute.
Context {DB : Type} `{interfaces.UserRepository DB} `{interfaces.Helpers}.
Context {E : Type} `{utils.TokenCodec E}.

Import apperrors interfaces usermodels services userhandlers.

(** X23 (the profile route: AuthMidddleware, GetUserId, GetProfile,
    GetByID).  Behind the authentication middleware the profile handler
    looks up the user whose id is in the claims of the token, whatever
    the context held under [user_id] before: it answers 200 with that
    user, 404 when the store has no such user, or 500; it never panics
    on the type assertion and never gives its own 401. *)
Theorem X23_profile_of_the_token_owner (cfg : config.Config) (db : DB) (c : Route)
  (token : string) (claims : utils.Claims) :
  gin.GetHeader (context c) "Authorization" = "Bearer " +:+ token ->
  utils.ValidateToken token (config.Secret (config.JWT cfg)) = inl claims ->
  guarded (AuthMidddleware cfg) GetProfile db c =
  match GetByID db (utils.UserID claims) with
  | (inl user, db1) =>
      (Answer 200 true "Profile retrieved successfully" (Some (ToResponse user)) None, db1)
  | (inr ErrNoDocuments, db1) =>
      (Answer 404 false "User not found" None (Some "USER_NOT_FOUND"), db1)
  | (inr _, db1) =>
      (Answer 500 false "Internal server error" None (Some "INTERNAL"), db1)
  end.
Proof.
  intros Hh Hv. unfold guarded, AuthMidddleware. rewrite Hh.
  change (String.eqb ("Bearer " +:+ token) "") with false.
  rewrite HasPrefix_app, TrimPrefix_app. cbn [negb]. rewrite Hv.
  unfold GetProfile. cbn [context]. unfold authctx.GetUserId.
  pose proof (keys_after_auth (context c) claims) as Hk. cbv zeta in Hk.
  destruct Hk as (-> & _).
  rewrite GetByID_cases.
  destruct (GetByID db _) as [[user|[]] db1]; reflexivity.
Qed.

End ProfileRoute.

(** A page of 0 and a limit of 500 list the first page with ten users a
    page. *)
Lemma X15_listing_is_clamped_witness :
  @userhandlers.ListUsers _ fixtures3.memory fixtures3.helpers fixtures3.users
    (userhandlers.mkRoute fixtures.adminCtx ∅ {[ "page" := "0"; "limit" := "500" ]}) =
  (userhandlers.Listing 200
     {| usermodels.Success := true;
        usermodels.Message := "Users retrieved successfully";
        usermodels.Data := map usermodels.ToResponse fixtures3.users;
        usermodels.Pagination_ :=
          {| usermodels.Page := 1; usermodels.Limit := 10;
             usermodels.Total := 2; usermodels.TotalPages := 1 |} |},
   fixtures3.users).
Proof.
  destruct (@X15_listing_is_clamped _ fixtures3.memory fixtures3.helpers fixtures3.users
              (userhandlers.mkRoute fixtures.adminCtx ∅
                 {[ "page" := "0"; "limit" := "500" ]}))
    as (p & l & _ & _ & Hp & _ & Hl & Heq).
  rewrite Heq.
  assert (l = 10) as -> by (apply Hl; change (~ 1 <= 500 <= 100); lia).
  subst p. reflexivity.
Defined.

(** An update of the e-mail and the activity of the sample admin keeps
    the id and the user name. *)
Lemma X16_update_merges_fields_witness :
  @interfaces.GetByID _ fixtures3.memory fixtures3.users "admin-000001" =
    (inl fixtures3.root, fixtures3.users) /\
  exists user' : User.t,
    User.ID user' = "admin-000001" /\ User.Username user' = "root" /\
    User.Email user' = "new@example.org" /\ User.IsActive user' = false.
Proof.
  split; [reflexivity|].
  destruct (@X16_update_merges_fields _ fixtures3.memory fixtures3.users fixtures3.users
              "admin-000001"
              (UpdateUserRequest.mk "" "new@example.org" "" "" "" "" (Some false))
              fixtures3.root eq_refl)
    as (user' & _ & Hid & _ & _ & _ & Hname & Hmail & _ & _ & _ & _ & Hact & _).
  exists user'. split; [exact Hid|]. split; [exact Hname|]. split; [exact Hmail | exact Hact].
Defined.

(** The sample admin logs in with the right password. *)
Lemma X17_login_succeeds_iff_witness :
  exists resp : usermodels.AuthResponse,
    @services.Login _ fixtures3.memory fixtures3.helpers fixtures3.service fixtures3.users
      (LoginRequest.mk "root@example.org" "secret") = (inl resp, fixtures3.users) /\
    usermodels.User_ resp = usermodels.ToResponse fixtures3.root.
Proof.
  eexists (usermodels.mkAuthResponse _ (usermodels.ToResponse fixtures3.root)).
  split; [|reflexivity].
  apply (proj1 (@X17_login_succeeds_iff _ fixtures3.memory fixtures3.helpers
                  fixtures3.service fixtures3.users fixtures3.users
                  (LoginRequest.mk "root@example.org" "secret") _)).
  exists fixtures3.root. repeat split; reflexivity.
Defined.

(** The sample guest is not active: the login is refused as
    unauthorized, with any password. *)
Lemma X18_login_errors_witness :
  @services.Login _ fixtures3.memory fixtures3.helpers fixtures3.service fixtures3.users
    (LoginRequest.mk "guest@example.org" "no idea") =
    (inr (apperrors.App apperrors.ErrUnAuthorized), fixtures3.users) /\
  exists user : User.t,
    @interfaces.GetByEmail _ fixtures3.memory fixtures3.users "guest@example.org" =
      (inl user, fixtures3.users) /\
    User.IsActive user = false.
Proof.
  split; [reflexivity|].
  destruct (@X18_login_errors _ fixtures3.memory fixtures3.helpers fixtures3.service
              fixtures3.users fixtures3.users
              (LoginRequest.mk "guest@example.org" "no idea")
              (apperrors.App apperrors.ErrUnAuthorized) eq_refl)
    as (_ & _ & _ & _ & Hiff).
  apply Hiff. reflexivity.
Defined.

(** A second user with the e-mail of the sample admin is refused. *)
Lemma X19_create_refuses_duplicates_witness :
  @services.Create_ _ fixtures3.memory fixtures3.helpers fixtures3.users
    (CreateUserRequest.mk "other" "root@example.org" "pw" "O" "Ther" "user" None) =
  (inr (apperrors.App apperrors.ErrUserExists), fixtures3.users).
Proof.
  apply (proj2 (@X19_create_refuses_duplicates _ fixtures3.memory fixtures3.helpers
                  fixtures3.users fixtures3.users
                  (CreateUserRequest.mk "other" "root@example.org" "pw" "O" "Ther" "user"
                     None))).
  left. exists fixtures3.root. reflexivity.
Defined.

(** A new user registers: the store holds one user more. *)
Lemma X20_register_creates_then_signs_witness :
  exists (resp : usermodels.AuthResponse) (user : User.t),
    @services.Register _ fixtures3.memory fixtures3.helpers fixtures3.service
      fixtures3.users
      (CreateUserRequest.mk "carol" "carol@example.org" "pw" "Carol" "C" "user" None) =
      (inl resp, fixtures3.users ++ [user]) /\
    User.Password user = "hash:pw" /\ User.IsActive user = true.
Proof.
  destruct (@X20_register_creates_then_signs _ fixtures3.memory fixtures3.helpers
              fixtures3.service fixtures3.users
              (CreateUserRequest.mk "carol" "carol@example.org" "pw" "Carol" "C" "user"
                 None)) as [Hreg _].
  eexists. eexists. split; [rewrite Hreg; reflexivity|]. split; reflexivity.
Defined.

(** The route for the sample admin, by the hexadecimal form of the id. *)
Lemma X21_get_user_answers_witness :
  @userhandlers.GetUser _ fixtures3.memory fixtures3.helpers fixtures3.users
    (userhandlers.mkRoute fixtures.adminCtx {[ "id" := "61646d696e2d303030303031" ]} ∅) =
  (userhandlers.Answer 200 true "User retrieved successfully"
     (Some (usermodels.ToResponse fixtures3.root)) None, fixtures3.users).
Proof.
  rewrite (@X21_get_user_answers _ fixtures3.memory fixtures3.helpers fixtures3.users
             (userhandlers.mkRoute fixtures.adminCtx
                {[ "id" := "61646d696e2d303030303031" ]} ∅)).
  reflexivity.
Defined.

(** Deleting the sample guest leaves the admin; an id that is no
    ObjectID is answered 400. *)
Lemma X22_delete_user_answers_witness :
  @userhandlers.DeleteUser _ fixtures3.memory fixtures3.helpers fixtures3.users
    (userhandlers.mkRoute fixtures.adminCtx {[ "id" := "67756573742d303030303032" ]} ∅) =
  (userhandlers.Answer 200 true "User deleted successfully" None None, [fixtures3.root]).
Proof.
  rewrite (@X22_delete_user_answers _ fixtures3.memory fixtures3.helpers fixtures3.users
             (userhandlers.mkRoute fixtures.adminCtx
                {[ "id" := "67756573742d303030303032" ]} ∅)).
  reflexivity.
Defined.

(** The valid sample token shows the profile of the sample admin. *)
Lemma X23_profile_of_the_token_owner_witness :
  gin.GetHeader (userhandlers.context fixtures3.profile) "Authorization" =
    "Bearer " +:+ "valid" /\
  @utils.ValidateToken _ sample.codec "valid" (config.Secret (config.JWT sample.cfg)) =
    inl sample.admin /\
  @userhandlers.guarded _ (@AuthMidddleware _ sample.codec sample.cfg)
    (@userhandlers.GetProfile _ fixtures3.memory) fixtures3.users fixtures3.profile =
  (userhandlers.Answer 200 true "Profile retrieved successfully"
     (Some (usermodels.ToResponse fixtures3.root)) None, fixtures3.users).
Proof.
  split; [reflexivity|]. split; [reflexivity|].
  exact (@X23_profile_of_the_token_owner _ fixtures3.memory _ sample.codec sample.cfg
           fixtures3.users fixtures3.profile "valid" sample.admin eq_refl eq_refl).
Defined.
